(** * Verification of the news classifier, cache keys and merge policy

    Shallow embedding of the parts of [scripts/fetch_news.py],
    [scripts/fix_category_groups.py] and [scripts/clean_news.py] that
    decide how a news item is classified, keyed, merged into the persisted
    store and later repaired or cleaned, and of the selection of the news
    [scripts/send_slack.py] reports.

    Conventions.
    - Python [str] values are modelled as [string], the UTF-8 encoding of
      the text.  UTF-8 is self-synchronising, so [pattern in text] on code
      points and the byte-level substring test [contains] agree on
      well-formed text.
    - The dicts the scripts pass around ([news_item], cache entries, CSV
      rows) are finite maps from column names to dynamically typed
      [value]s.
    - [str.lower] and [str.strip] are parameters of the sections that use
      them: the general theorems hold for every such function.  The
      concrete scenarios instantiate them with [ascii_lower] and
      [ascii_strip], which agree with Python on text whose cased letters
      and blanks are ASCII (Hangul has no case).
    - A loop that returns from inside its body is a recursive function
      over the list it scans; code that can raise returns an [outcome]. *)

From Stdlib Require Import String Ascii ZArith.
From stdpp Require Import gmap strings list fin_maps.

Local Open Scope string_scope.
Local Open Scope list_scope.

(** ** Python strings *)

Module PyStr.

(** [s.startswith(p)] *)
Fixpoint starts_with (p s : string) : bool :=
  match p, s with
  | EmptyString, _ => true
  | String _ _, EmptyString => false
  | String a p', String b s' => Ascii.eqb a b && starts_with p' s'
  end.

(** [p in s]: [p] occurs in [s] at some offset. *)
Fixpoint contains (p s : string) : bool :=
  starts_with p s ||
  match s with
  | EmptyString => false
  | String _ s' => contains p s'
  end.

Definition is_upper (c : ascii) : bool :=
  let n := nat_of_ascii c in (65 <=? n)%nat && (n <=? 90)%nat.

Definition lower_char (c : ascii) : ascii :=
  if is_upper c then ascii_of_nat (nat_of_ascii c + 32) else c.

(** [str.lower] restricted to the ASCII letters. *)
Fixpoint ascii_lower (s : string) : string :=
  match s with
  | EmptyString => EmptyString
  | String c s' => String (lower_char c) (ascii_lower s')
  end.

(** ASCII white space, the characters [str.strip] removes from ASCII
    text: space, tab, line feed, vertical tab, form feed, carriage
    return and the four separators 28..31. *)
Definition is_space (c : ascii) : bool :=
  let n := nat_of_ascii c in
  (n =? 32)%nat || ((9 <=? n)%nat && (n <=? 13)%nat)
  || ((28 <=? n)%nat && (n <=? 31)%nat).

Fixpoint lstrip (s : string) : string :=
  match s with
  | EmptyString => EmptyString
  | String c s' => if is_space c then lstrip s' else s
  end.

(** Right strip: a character is kept when something non-blank follows it
    or it is itself non-blank. *)
Fixpoint rstrip (s : string) : string :=
  match s with
  | EmptyString => EmptyString
  | String c s' =>
      match rstrip s' with
      | EmptyString => if is_space c then EmptyString else String c EmptyString
      | r => String c r
      end
  end.

Definition ascii_strip (s : string) : string := rstrip (lstrip s).

End PyStr.
Export PyStr.

(** ** Python values and dicts *)

(** The values the scripts store in a news dict or read from a CSV cell:
    [None], the float NaN pandas uses for an empty cell, booleans (the
    [skip] flag) and text. *)
Inductive value : Type :=
| VNone
| VNaN
| VBool (b : bool)
| VStr (s : string).

#[global] Instance value_eq_dec : EqDecision value.
Proof. solve_decision. Defined.

#[global] Instance value_countable : Countable value.
Proof.
  refine (inj_countable'
    (fun v => match v with
              | VNone => inl (inl tt)
              | VNaN => inl (inr tt)
              | VBool b => inr (inl b)
              | VStr s => inr (inr s)
              end)
    (fun c => match c with
              | inl (inl _) => VNone
              | inl (inr _) => VNaN
              | inr (inl b) => VBool b
              | inr (inr s) => VStr s
              end) _).
  by intros [].
Defined.

Abbreviation dict := (gmap string value).

(** Truth value of an object in a condition: [None] and the empty string
    are false, NaN is a non-zero float and therefore true. *)
Definition truthy (v : value) : bool :=
  match v with
  | VNone => false
  | VNaN => true
  | VBool b => b
  | VStr s => negb (String.eqb s "")
  end.

(** [d.get(k)] and [d.get(k, dflt)] *)
Definition get (d : dict) (k : string) : value := default VNone (d !! k).
Definition get_or (d : dict) (k : string) (dflt : value) : value :=
  default dflt (d !! k).

(** [x if x else dflt] on an optional string. *)
Definition or_else (x : option string) (dflt : string) : string :=
  match x with
  | Some s => if String.eqb s "" then dflt else s
  | None => dflt
  end.

Definition of_option (x : option string) : value :=
  match x with Some s => VStr s | None => VNone end.

(** [str(v)] *)
Definition py_str (v : value) : string :=
  match v with
  | VNone => "None"
  | VNaN => "nan"
  | VBool true => "True"
  | VBool false => "False"
  | VStr s => s
  end.

(** [pd.isna(v)] on a scalar *)
Definition isna (v : value) : bool :=
  match v with VNone | VNaN => true | _ => false end.

(** [v in l] for a list [l] of string literals *)
Definition in_strs (v : value) (l : list string) : bool :=
  match v with
  | VStr s => bool_decide (s ∈ l)
  | _ => false
  end.

(** ** MD5 ([hashlib.md5], RFC 1321)

    [get_cache_key] hashes the UTF-8 bytes of its argument.  Words are
    32-bit integers represented in [Z] with the wrap-around written out. *)

Module Md5.

Local Open Scope Z_scope.

Definition add32 (x y : Z) : Z := (x + y) mod 2 ^ 32.

Definition not32 (x : Z) : Z := Z.lxor x 0xffffffff.

Definition rotl32 (x n : Z) : Z :=
  Z.lor (Z.shiftl x n mod 2 ^ 32) (Z.shiftr x (32 - n)).

(** [K i = floor (2^32 * |sin (i + 1)|)] *)
Definition K : list Z :=
  [ 0xd76aa478; 0xe8c7b756; 0x242070db; 0xc1bdceee;
    0xf57c0faf; 0x4787c62a; 0xa8304613; 0xfd469501;
    0x698098d8; 0x8b44f7af; 0xffff5bb1; 0x895cd7be;
    0x6b901122; 0xfd987193; 0xa679438e; 0x49b40821;
    0xf61e2562; 0xc040b340; 0x265e5a51; 0xe9b6c7aa;
    0xd62f105d; 0x02441453; 0xd8a1e681; 0xe7d3fbc8;
    0x21e1cde6; 0xc33707d6; 0xf4d50d87; 0x455a14ed;
    0xa9e3e905; 0xfcefa3f8; 0x676f02d9; 0x8d2a4c8a;
    0xfffa3942; 0x8771f681; 0x6d9d6122; 0xfde5380c;
    0xa4beea44; 0x4bdecfa9; 0xf6bb4b60; 0xbebfbc70;
    0x289b7ec6; 0xeaa127fa; 0xd4ef3085; 0x04881d05;
    0xd9d4d039; 0xe6db99e5; 0x1fa27cf8; 0xc4ac5665;
    0xf4292244; 0x432aff97; 0xab9423a7; 0xfc93a039;
    0x655b59c3; 0x8f0ccc92; 0xffeff47d; 0x85845dd1;
    0x6fa87e4f; 0xfe2ce6e0; 0xa3014314; 0x4e0811a1;
    0xf7537e82; 0xbd3af235; 0x2ad7d2bb; 0xeb86d391 ].

(** Per-round left-rotation amounts. *)
Definition R : list Z :=
  [ 7; 12; 17; 22; 7; 12; 17; 22; 7; 12; 17; 22; 7; 12; 17; 22;
    5; 9; 14; 20; 5; 9; 14; 20; 5; 9; 14; 20; 5; 9; 14; 20;
    4; 11; 16; 23; 4; 11; 16; 23; 4; 11; 16; 23; 4; 11; 16; 23;
    6; 10; 15; 21; 6; 10; 15; 21; 6; 10; 15; 21; 6; 10; 15; 21 ].

Definition bytes_of_string (s : string) : list Z :=
  (fun c => Z.of_nat (nat_of_ascii c)) <$> list_ascii_of_string s.

(** The [n] low bytes of [x], least significant first. *)
Fixpoint le_bytes (n : nat) (x : Z) : list Z :=
  match n with
  | O => []
  | S n' => x mod 256 :: le_bytes n' (x / 256)
  end.

Fixpoint le_word (bs : list Z) : Z :=
  match bs with
  | [] => 0
  | b :: bs' => b + 256 * le_word bs'
  end.

(** Padding: a 1 bit, zeros up to 56 mod 64, then the bit length on 64
    bits. *)
Definition pad (msg : list Z) : list Z :=
  let len := Z.of_nat (length msg) in
  msg ++ [0x80] ++ replicate (Z.to_nat ((55 - len) mod 64)) 0
      ++ le_bytes 8 ((8 * len) mod 2 ^ 64).

(** [chunks k n l]: the first [n] consecutive pieces of [l] of size [k]. *)
Fixpoint chunks (k n : nat) (l : list Z) : list (list Z) :=
  match n with
  | O => []
  | S n' => take k l :: chunks k n' (drop k l)
  end.

Definition words_of_block (block : list Z) : list Z :=
  le_word <$> chunks 4 16 block.

Definition state : Type := Z * Z * Z * Z.

Definition round (M : list Z) (st : state) (i : nat) : state :=
  let '(a, b, c, d) := st in
  let zi := Z.of_nat i in
  let '(f, g) :=
    if (i <? 16)%nat then
      (Z.lor (Z.land b c) (Z.land (not32 b) d), zi)
    else if (i <? 32)%nat then
      (Z.lor (Z.land d b) (Z.land (not32 d) c), (5 * zi + 1) mod 16)
    else if (i <? 48)%nat then
      (Z.lxor b (Z.lxor c d), (3 * zi + 5) mod 16)
    else
      (Z.lxor c (Z.lor b (not32 d)), (7 * zi) mod 16) in
  let f' := add32 (add32 (add32 f a) (default 0 (K !! i)))
                  (default 0 (M !! Z.to_nat g)) in
  (d, add32 b (rotl32 f' (default 0 (R !! i))), b, c).

Definition process_block (st : state) (block : list Z) : state :=
  let '(a0, b0, c0, d0) := st in
  let '(a, b, c, d) := fold_left (round (words_of_block block)) (seq 0 64) st in
  (add32 a0 a, add32 b0 b, add32 c0 c, add32 d0 d).

Definition init : state := (0x67452301, 0xefcdab89, 0x98badcfe, 0x10325476).

Definition digest (msg : list Z) : list Z :=
  let padded := pad msg in
  let '(a, b, c, d) :=
    fold_left process_block (chunks 64 (length padded / 64) padded) init in
  le_bytes 4 a ++ le_bytes 4 b ++ le_bytes 4 c ++ le_bytes 4 d.

Definition hex_digit (n : Z) : ascii :=
  if n <? 10 then ascii_of_nat (Z.to_nat (48 + n))
  else ascii_of_nat (Z.to_nat (87 + n)).

Fixpoint hex (bs : list Z) : string :=
  match bs with
  | [] => EmptyString
  | b :: bs' => String (hex_digit (b / 16)) (String (hex_digit (b mod 16)) (hex bs'))
  end.

(** [hashlib.md5(text.encode()).hexdigest()] *)
Definition hexdigest (text : string) : string :=
  hex (digest (bytes_of_string text)).

End Md5.

(** ** Exceptions *)

(** The exceptions the modelled code can meet.  All of them derive from
    [Exception], so an [except Exception] clause catches each one. *)
Inductive exn : Type :=
| FileNotFoundError
| PermissionError
| OSError
| EmptyDataError
| ParserError
| UnicodeDecodeError
| TypeError
| AttributeError
| ValueError.

Inductive outcome (A : Type) : Type :=
| Returns (a : A)
| Raises (e : exn).
Arguments Returns {A} a.
Arguments Raises {A} e.

#[global] Instance exn_eq_dec : EqDecision exn.
Proof. solve_decision. Defined.

#[global] Instance outcome_eq_dec {A : Type} `{EqDecision A} :
  EqDecision (outcome A).
Proof. solve_decision. Defined.

(** * scripts/fetch_news.py *)

Module fetch_news.

Definition continent_map : list (string * string) :=
  [ ("USA", "NORTH AMERICA"); ("Canada", "NORTH AMERICA");
    ("Mexico", "NORTH AMERICA");
    ("Brazil", "SOUTH AMERICA"); ("Argentina", "SOUTH AMERICA");
    ("Germany", "EUROPE"); ("UK", "EUROPE"); ("France", "EUROPE");
    ("Italy", "EUROPE"); ("Spain", "EUROPE");
    ("China", "ASIA"); ("India", "ASIA"); ("Japan", "ASIA");
    ("Korea", "ASIA"); ("South Korea", "ASIA");
    ("South Africa", "AFRICA"); ("Egypt", "AFRICA"); ("Nigeria", "AFRICA");
    ("Australia", "OCEANIA"); ("New Zealand", "OCEANIA");
    ("Russia", "RUSSIA & CIS") ].

Fixpoint assoc (k : string) (l : list (string * string)) : option string :=
  match l with
  | [] => None
  | (k', v) :: l' => if String.eqb k k' then Some v else assoc k l'
  end.

Definition get_continent (country : string) : string :=
  default "OTHER" (assoc country continent_map).

Definition outage_block : list string :=
  [ "internet_shutdown"; "tech_outage"; "power_outage"; "censorship";
    "cyber_attack"; "infrastructure_damage" ].

Definition social_crisis : list string :=
  [ "war_conflict"; "terrorism_explosion"; "natural_disaster";
    "protest_strike"; "curfew"; "pandemic"; "economic" ].

Definition seasonal_calendar : list string :=
  [ "holiday"; "school_calendar"; "election" ].

Definition gaming_competitor : list string :=
  [ "gaming"; "competitor_game"; "social_trend"; "sports_event";
    "major_event" ].

Definition map_to_group_category (detail_category : value) : string :=
  if in_strs detail_category outage_block then "outage_block"
  else if in_strs detail_category social_crisis then "social_crisis"
  else if in_strs detail_category seasonal_calendar then "seasonal_calendar"
  else if in_strs detail_category gaming_competitor then "gaming_competitor"
  else "other".

(** [hashlib.md5(text.encode()).hexdigest()[:16]] *)
Definition get_cache_key (text : string) : string :=
  String.substring 0 16 (Md5.hexdigest text).

Definition NEGATIVE_KEYWORDS : list string :=
  [ "캠페인"; "프로모션"; "이벤트"; "출시"; "신제품"; "할인"; "세일";
    "팝업"; "콜라보"; "campaign"; "promotion"; "launch"; "sale"; "popup";
    "collaboration"; "걸그룹"; "보이그룹"; "아이돌"; "콘서트"; "앨범";
    "뮤직비디오"; "팬미팅"; "던킨"; "스타벅스"; "맥도날드"; "버거킹";
    "엠앤엠"; "초콜릿"; "커피"; "패션"; "뷰티"; "화장품"; "의류"; "쇼핑" ].

Definition GAMING_REQUIRED_KEYWORDS : list string :=
  [ "pubg"; "펍지"; "배틀그라운드"; "크래프톤"; "krafton"; "bgmi"; "pmgc";
    "pmpl"; "pcs"; "pgc"; "fps"; "fps게임"; "fps 게임"; "슈터"; "shooter";
    "배틀로얄"; "battle royale"; "배틀 로얄"; "free fire"; "프리파이어";
    "가레나"; "garena"; "call of duty mobile"; "cod mobile";
    "콜오브듀티 모바일"; "apex legends mobile"; "에이펙스 레전드 모바일";
    "fortnite mobile"; "포트나이트 모바일"; "roblox"; "로블록스";
    "fortnite"; "포트나이트"; "apex legends"; "에이펙스 레전드"; "에이펙스";
    "mobile esports"; "모바일 e스포츠"; "모바일 이스포츠" ].

Definition TRAFFIC_IMPACT_KEYWORDS : list (string * list string) :=
  [ ("disaster",
     [ "지진 발생"; "지진 피해"; "태풍 상륙"; "태풍 피해"; "홍수 피해";
       "폭우 피해"; "earthquake hit"; "typhoon damage"; "flood damage" ]);
    ("conflict",
     [ "전쟁 발발"; "군사 충돌"; "폭탄 테러"; "무력 충돌"; "미사일 공격";
       "war outbreak"; "military conflict"; "bombing"; "missile attack" ]);
    ("outage",
     [ "인터넷 차단"; "통신 장애"; "정전 사태"; "서비스 장애"; "접속 장애";
       "internet shutdown"; "network outage"; "power outage";
       "service down" ]);
    ("holiday",
     [ "국경일"; "공휴일 지정"; "연휴 시작"; "명절 연휴"; "휴일 확정";
       "national holiday"; "public holiday announced"; "holiday begins" ]) ].

Definition HIGH_PRIORITY_KEYWORDS : list (string * list string) :=
  [ ("critical",
     [ "internet shutdown"; "blackout"; "power outage"; "outage"; "war";
       "explosion"; "bombing"; "attack"; "terrorism"; "terrorist";
       "earthquake"; "flood"; "disaster"; "emergency"; "tsunami"; "typhoon";
       "curfew"; "protest"; "riot"; "strike"; "unrest"; "shutdown"; "ban";
       "block"; "censorship" ]);
    ("countries",
     [ "Iraq"; "Pakistan"; "Turkey"; "Russia"; "Egypt"; "Saudi Arabia";
       "Indonesia"; "Hong Kong"; "Iran"; "Syria"; "Baghdad"; "Karachi";
       "Istanbul"; "Moscow"; "Cairo"; "Jakarta" ]) ].

Definition MEDIUM_RULES : list (string * list string) :=
  [ ("gaming",
     [ "PUBG"; "pubg mobile"; "battlegrounds mobile"; "Krafton"; "BGMI";
       "PMGC"; "PMPL"; "pubg esports"; "Free Fire"; "Call of Duty Mobile";
       "COD Mobile"; "mobile game revenue"; "mobile game update";
       "game patch"; "esports tournament"; "e-sports championship"; "펍지";
       "배틀그라운드"; "크래프톤"; "모바일게임 매출"; "게임 업데이트" ]);
    ("holiday",
     [ "national holiday"; "public holiday"; "bank holiday"; "Eid al-Fitr";
       "Eid al-Adha"; "Christmas Day"; "New Year Day"; "Ramadan begins";
       "Diwali celebration"; "국경일"; "공휴일"; "명절 연휴"; "추석";
       "설날" ]);
    ("school",
     [ "school holiday"; "school vacation"; "exam period"; "semester break";
       "summer vacation"; "winter vacation"; "방학 시작"; "시험 기간";
       "개학" ]) ].

Definition EXCLUDE_PATTERNS : list string :=
  [ "광고"; "sponsored"; "affiliate"; "promotion"; "프로모션"; "캠페인";
    "campaign"; "팝업"; "popup"; "콜라보"; "collaboration"; "출시";
    "launch"; "신제품"; "할인"; "sale"; "세일"; "협찬"; "마케팅"; "PPL";
    "보도자료"; "branded content"; "주식"; "증시"; "코스피"; "코스닥";
    "나스닥"; "장중"; "장 마감"; "장 초반"; "마감 지수"; "주가"; "주식시장";
    "투자자"; "기관투자자"; "증권사"; "증권가"; "리포트"; "리서치센터";
    "실적발표"; "분기 실적"; "연간 실적"; "stock price"; "earnings";
    "quarterly earnings"; "annual earnings"; "investor"; "투자"; "배당";
    "dividend"; "펀드"; "ETF"; "리츠"; "재테크"; "IPO"; "공모주"; "IR";
    "conference call"; "채용"; "공채"; "수시채용"; "채용 공고"; "신입사원";
    "경력직"; "인재 채용"; "구인"; "구인 공고"; "hiring"; "job opening";
    "career"; "recruitment"; "career fair"; "채용 설명회"; "인턴 모집";
    "공모전"; "걸그룹"; "보이그룹"; "아이돌"; "idol"; "K-pop"; "콘서트";
    "concert"; "앨범"; "album"; "뮤직비디오"; "팬미팅"; "fan meeting";
    "MAMA"; "Awards"; "시상식"; "mourning"; "드라마"; "예능"; "시청률";
    "예능 프로그램"; "리얼리티쇼"; "OTT"; "넷플릭스"; "디즈니+"; "티빙";
    "웨이브"; "쿠팡플레이"; "Netflix"; "Disney+"; "OST"; "열애설"; "결별설";
    "연예계"; "연예인 커플"; "스캔들"; "영화제"; "레드카펫"; "celebrity";
    "entertainment news"; "showbiz"; "던킨"; "스타벅스"; "맥도날드";
    "버거킹"; "엠앤엠"; "M&M"; "초콜릿"; "커피"; "coffee"; "음료"; "패션";
    "fashion"; "뷰티"; "beauty"; "화장품"; "cosmetic"; "의류"; "clothing";
    "쇼핑"; "shopping"; "자주포"; "전차"; "미사일"; "무기"; "군수"; "방산";
    "국방"; "K9"; "K2"; "한화에어로"; "한화디펜스"; "defense contract";
    "military contract"; "arms deal"; "방위사업"; "DMZ";
    "Korean War soldiers"; "유해 발굴"; "전사자"; "대통령"; "국회";
    "외교부"; "장관"; "정상회담"; "summit"; "조약"; "treaty"; "협정";
    "KT 위즈"; "kt wiz"; "KT위즈"; "프로축구"; "프로야구"; "NBA"; "MLB";
    "야구 결과"; "축구 결과"; "경기 결과"; "구원투수"; "스토브리그";
    "WAR 전체"; "분양"; "청약"; "입주자 모집"; "전세"; "월세"; "매매";
    "전월세"; "전세가"; "매매가"; "집값"; "아파트 단지"; "오피스텔";
    "상가 분양"; "오피스 임대"; "부동산 시장"; "부동산 규제"; "부동산";
    "real estate"; "housing market"; "오늘의 날씨"; "주간 날씨"; "기상청";
    "기온"; "미세먼지"; "체감온도"; "날씨"; "weather forecast";
    "weekly forecast"; "레시피"; "요리법"; "집밥"; "간편식"; "맛집 탐방";
    "식당 리뷰"; "카페 추천"; "restaurant review"; "food blog"; "맛집";
    "restaurant"; "여행"; "travel tip"; "immigration protest";
    "hindu protest"; "farmer protest" ].

(** [d[k]] on a keyword table *)
Fixpoint table (d : list (string * list string)) (k : string) : list string :=
  match d with
  | [] => []
  | (k', v) :: d' => if String.eqb k k' then v else table d' k
  end.

Section Classifier.

(** [str.lower] *)
Context (lower : string -> string).

(** [for kw in kws: if kw.lower() in text: return True] falling through
    to [False] *)
Fixpoint any_keyword_in (kws : list string) (text : string) : bool :=
  match kws with
  | [] => false
  | kw :: kws' =>
      if contains (lower kw) text then true else any_keyword_in kws' text
  end.

(** Step 3 of [is_relevant_news]: the first keyword found decides, with
    the category of the group it belongs to. *)
Fixpoint traffic_keywords (category : string) (keywords : list string)
    (text : string) : option (bool * option string * option string * option string) :=
  match keywords with
  | [] => None
  | kw :: keywords' =>
      if contains (lower kw) text then
        let priority :=
          if bool_decide (category ∈ ["disaster"; "conflict"; "outage"])
          then "high" else "medium" in
        Some (true, Some "traffic_impact", Some category, Some priority)
      else traffic_keywords category keywords' text
  end.

Fixpoint traffic_groups (groups : list (string * list string)) (text : string)
    : option (bool * option string * option string * option string) :=
  match groups with
  | [] => None
  | (category, keywords) :: groups' =>
      match traffic_keywords category keywords text with
      | Some r => Some r
      | None => traffic_groups groups' text
      end
  end.

(** Returns [(is_relevant, news_type, category, priority)]. *)
Definition is_relevant_news (title description : string)
    : bool * option string * option string * option string :=
  let text := lower (title +:+ " " +:+ description) in
  if any_keyword_in NEGATIVE_KEYWORDS text then (false, None, None, None)
  else if any_keyword_in GAMING_REQUIRED_KEYWORDS text then
    (true, Some "gaming", Some "gaming", Some "medium")
  else
    match traffic_groups TRAFFIC_IMPACT_KEYWORDS text with
    | Some r => r
    | None => (false, None, None, None)
    end.

(** The country loop of step 2: a watched country counts only together
    with a critical keyword. *)
Fixpoint country_with_critical (countries : list string) (text : string) : bool :=
  match countries with
  | [] => false
  | country :: countries' =>
      if contains (lower country) text then
        if any_keyword_in (table HIGH_PRIORITY_KEYWORDS "critical") text
        then true
        else country_with_critical countries' text
      else country_with_critical countries' text
  end.

(** The branch taken in step 3 once a keyword of [category] is found; a
    category other than the three named ones returns nothing and the scan
    goes on. *)
Definition medium_result (category : string)
    : option (string * option string * option string) :=
  if String.eqb category "gaming" then
    Some ("medium", Some "gaming", Some "gaming")
  else if String.eqb category "holiday" then
    Some ("medium", Some "traffic_impact", Some "holiday")
  else if String.eqb category "school" then
    Some ("medium", Some "traffic_impact", Some "school_calendar")
  else None.

Fixpoint medium_keywords (category : string) (keywords : list string)
    (text : string) : option (string * option string * option string) :=
  match keywords with
  | [] => None
  | kw :: keywords' =>
      if contains (lower kw) text then
        match medium_result category with
        | Some r => Some r
        | None => medium_keywords category keywords' text
        end
      else medium_keywords category keywords' text
  end.

Fixpoint medium_rules (rules : list (string * list string)) (text : string)
    : option (string * option string * option string) :=
  match rules with
  | [] => None
  | (category, keywords) :: rules' =>
      match medium_keywords category keywords text with
      | Some r => Some r
      | None => medium_rules rules' text
      end
  end.

(** Returns [(priority, news_type, auto_category)]. *)
Definition classify_news_priority (title summary : string)
    : string * option string * option string :=
  let text := lower (title +:+ " " +:+ summary) in
  if any_keyword_in EXCLUDE_PATTERNS text then ("low", None, None)
  else if any_keyword_in (table HIGH_PRIORITY_KEYWORDS "critical") text then
    ("high", Some "traffic_impact", None)
  else if country_with_critical (table HIGH_PRIORITY_KEYWORDS "countries") text
  then ("high", Some "traffic_impact", None)
  else
    match medium_rules MEDIUM_RULES text with
    | Some r => r
    | None => ("low", None, None)
    end.

End Classifier.

(** *** RSS ingestion *)

(** A feed entry as [fetch_news_from_rss] sees it after
    [clean_html_tags] and the 500-character cut, which belong to the
    fetch adapter. *)
Record rss_entry : Type := {
  published_within_day : bool;
  pub_date : string;
  clean_title : string;
  clean_summary : string;
  link : option string;
  source_title : option string
}.

Section Ingestion.

Context (lower : string -> string).

(** [for country in priority_countries.keys(): ... break] *)
Fixpoint set_country (keyword : string) (countries : list string)
    (news_item : dict) : dict :=
  match countries with
  | [] => news_item
  | country :: countries' =>
      if contains (lower country) (lower keyword) then
        <["continent" := VStr (get_continent country)]>
          (<["country" := VStr country]> news_item)
      else set_country keyword countries' news_item
  end.

(** Body of the loop over [feed.entries]: [None] stands for [continue]. *)
Definition news_item_of_entry (keyword : string)
    (priority_countries : list string) (entry : rss_entry) : option dict :=
  if negb (published_within_day entry) then None
  else
    let '(priority, news_type, auto_category) :=
      classify_news_priority lower (clean_title entry) (clean_summary entry) in
    if String.eqb priority "low" then None
    else
      let news_item : dict :=
        list_to_map
          [ ("date", VStr (pub_date entry));
            ("country", VNone);
            ("continent", VNone);
            ("title", VStr (clean_title entry));
            ("summary", VStr (clean_summary entry));
            ("url", VStr (default "" (link entry)));
            ("source", VStr (default "Google News" (source_title entry)));
            ("category", VStr (or_else auto_category "gaming"));
            ("news_type", VStr (or_else news_type "gaming"));
            ("priority", VStr priority) ] in
      Some (set_country keyword priority_countries news_item).

(** One attempt of [fetch_news_from_rss] on a feed that parsed; the retry
    loop around it only repeats the attempt after an exception. *)
Definition fetch_news_from_rss (keyword : string)
    (priority_countries : list string) (entries : list rss_entry) : list dict :=
  omap (news_item_of_entry keyword priority_countries) (take 10 entries).

(** The item [fetch_from_naver] builds from one search hit, after the
    removal of the bold tags and the 500-character cut; [None] for a hit
    the relevance check rejects. *)
Definition naver_news_item (date_str title description url : string)
    : option dict :=
  let '(is_relevant, news_type, category, priority) :=
    is_relevant_news lower title description in
  if negb is_relevant then None
  else
    Some (list_to_map
            [ ("date", VStr date_str);
              ("country", VStr "Korea");
              ("continent", VStr "ASIA");
              ("title", VStr title);
              ("summary", VStr description);
              ("url", VStr url);
              ("source", VStr "네이버 뉴스");
              ("category", of_option category);
              ("news_type", of_option news_type);
              ("priority", of_option priority);
              ("api_source", VStr "naver") ]).

End Ingestion.

(** The item [fetch_from_deepsearch] builds from one article, before the
    country guess. *)
Definition deepsearch_news_item (date_str title summary url publisher : string)
    : dict :=
  list_to_map
    [ ("date", VStr date_str);
      ("country", VNone);
      ("continent", VNone);
      ("title", VStr title);
      ("summary", VStr summary);
      ("url", VStr url);
      ("source", VStr publisher);
      ("category", VStr "other");
      ("news_type", VStr "traffic_impact");
      ("priority", VStr "high");
      ("api_source", VStr "deepsearch") ].

(** The tags [main] puts on the items of each search stage. *)
Definition tag_base_keyword (item : dict) : dict :=
  <["news_type" := VStr "gaming"]> item.

Definition tag_gaming_keyword (category : string) (item : dict) : dict :=
  <["category" :=
      VStr (if bool_decide (category ∈ ["pubg"; "krafton"; "esports"])
            then "gaming" else "competitor_game")]>
    (<["news_type" := VStr "gaming"]> item).

Definition tag_country (country : string) (item : dict) : dict :=
  <["continent" := VStr (get_continent country)]>
    (<["country" := VStr country]> item).

(** What the searches of one run returned, stage by stage. *)
Record search_results : Type := {
  deepsearch_news : list dict;
  trending_news : list dict;
  naver_news : list dict;
  (** one list per base keyword *)
  base_keyword_news : list (list dict);
  (** the category of each gaming keyword with what its search returned *)
  gaming_keyword_news : list (string * list dict);
  (** the country of each country keyword or topic with its results *)
  country_news : list (string * list dict);
  (** one list per traffic-impact keyword *)
  traffic_keyword_news : list (list dict)
}.

(** [all_raw_news] as stages 0 to 2 of [main] extend it. *)
Definition gather (r : search_results) : list dict :=
  deepsearch_news r ++ trending_news r ++ naver_news r
  ++ concat ((fun news : list dict => tag_base_keyword <$> news)
               <$> base_keyword_news r)
  ++ concat ((fun '((category, news) : string * list dict) =>
                tag_gaming_keyword category <$> news)
               <$> gaming_keyword_news r)
  ++ concat ((fun '((country, news) : string * list dict) =>
                tag_country country <$> news)
               <$> country_news r)
  ++ concat (traffic_keyword_news r).

(** *** Cache and refinement *)

(** [a + b] on two objects that must both be [str]. *)
Definition str_add (a b : value) : outcome string :=
  match a, b with
  | VStr x, VStr y => Returns (x +:+ y)
  | _, _ => Raises TypeError
  end.

(** [get_cache_key(item.get('title', '') + item.get('url', ''))] *)
Definition cache_key_of (item : dict) : outcome string :=
  match str_add (get_or item "title" (VStr "")) (get_or item "url" (VStr "")) with
  | Returns text => Returns (get_cache_key text)
  | Raises e => Raises e
  end.

(** [item.update(other)] *)
Definition update (item other : dict) : dict := other ∪ item.

Definition cache_entry (item : dict) : dict :=
  list_to_map
    [ ("category", get item "category");
      ("category_group", get item "category_group");
      ("traffic_impact", get item "traffic_impact");
      ("api_source", get item "api_source") ].

Record environment : Type := {
  GROQ_API_KEY : bool;
  OPENAI_API_KEY : bool;
  CLAUDE_API_KEY : bool;
  USE_PAID_API : bool
}.

Section Refinement.

(** The refinement adapters are external: whatever they answer, they act
    on the dicts of [to_process] in place. *)
Context (fetch_from_groq : list dict -> list dict).
Context (refine_news_with_ai : dict -> string -> option dict).
Context (env : environment).

(** First loop of [smart_refine_batch]: each item comes back with a flag
    telling whether it was restored from the cache. *)
Fixpoint restore_cached (cache : gmap string dict) (news_items : list dict)
    : outcome (list (dict * bool)) :=
  match news_items with
  | [] => Returns []
  | item :: rest =>
      match cache_key_of item with
      | Raises e => Raises e
      | Returns cache_key =>
          let marked :=
            match cache !! cache_key with
            | Some cached => (update item cached, true)
            | None => (item, false)
            end in
          match restore_cached cache rest with
          | Raises e => Raises e
          | Returns rest' => Returns (marked :: rest')
          end
      end
  end.

(** Paid stage: the first ten high-priority items of [to_process]. *)
Fixpoint paid_stage (seen : nat) (to_process : list dict) : list dict :=
  match to_process with
  | [] => []
  | item :: rest =>
      if bool_decide (get item "priority" = VStr "high") then
        if (seen <? 10)%nat then
          let api_type := if OPENAI_API_KEY env then "openai" else "claude" in
          let item' :=
            match refine_news_with_ai item api_type with
            | Some refined =>
                if bool_decide (refined = ∅) then item
                else <["api_source" := VStr api_type]> (update item refined)
            | None => item
            end in
          item' :: paid_stage (S seen) rest
        else item :: paid_stage (S seen) rest
      else item :: paid_stage seen rest
  end.

Fixpoint update_cache (cache : gmap string dict) (to_process : list dict)
    : outcome (gmap string dict) :=
  match to_process with
  | [] => Returns cache
  | item :: rest =>
      match cache_key_of item with
      | Raises e => Raises e
      | Returns cache_key =>
          update_cache (<[cache_key := cache_entry item]> cache) rest
      end
  end.

(** The dicts of [to_process] are the uncached dicts of [news_items]:
    what the stages did to them shows in [news_items] too. *)
Fixpoint write_back (marked : list (dict * bool)) (to_process : list dict)
    : list dict :=
  match marked with
  | [] => []
  | (item, true) :: marked' => item :: write_back marked' to_process
  | (item, false) :: marked' =>
      match to_process with
      | processed :: to_process' => processed :: write_back marked' to_process'
      | [] => item :: write_back marked' []
      end
  end.

Definition fill_category_group (dflt : string) (item : dict) : dict :=
  if negb (truthy (get item "category_group")) then
    <["category_group" :=
        VStr (map_to_group_category (get_or item "category" (VStr dflt)))]> item
  else item.

(** Returns the refined items and the cache handed to [save_cache]. *)
Definition smart_refine_batch (cache : gmap string dict)
    (news_items : list dict) (use_paid_api : bool)
    : outcome (list dict * gmap string dict) :=
  match news_items with
  | [] => Returns ([], cache)
  | _ =>
      match restore_cached cache news_items with
      | Raises e => Raises e
      | Returns marked =>
          let to_process := fst <$> filter (fun m => snd m = false) marked in
          match to_process with
          | [] => Returns (fst <$> marked, cache)
          | _ =>
              let to_process :=
                if GROQ_API_KEY env then fetch_from_groq to_process
                else to_process in
              let to_process :=
                if use_paid_api && (OPENAI_API_KEY env || CLAUDE_API_KEY env)
                then paid_stage 0 to_process
                else to_process in
              match update_cache cache to_process with
              | Raises e => Raises e
              | Returns cache' =>
                  Returns (fill_category_group "other"
                             <$> write_back marked to_process, cache')
              end
          end
      end
  end.

(** *** Merge against the persisted store *)

(** The set holds the truthy [url] values of the store.  Python compares
    a NaN in a set by identity; here all NaNs are one value, which only
    matters for a new item whose [url] is NaN, and no fetcher builds
    one. *)
Definition remove_duplicates (existing_news new_news : list dict) : list dict :=
  let existing_urls : gset value :=
    list_to_set
      ((fun news => get news "url")
         <$> filter (fun news => truthy (get news "url") = true) existing_news) in
  filter (fun news => get news "url" ∉ existing_urls) new_news.

(** The file system as [load_existing_news] meets it.  [NEWS_CSV.exists()]
    answers [False] for a missing file, but lets the other errors of the
    underlying [stat] through, a [PermissionError] among them. *)
Record csv_file : Type := {
  exists_ : outcome bool;
  read_csv : outcome (list dict)
}.

(** The existence check stands before the [try]: what it raises leaves
    the function; what [pd.read_csv] raises is caught. *)
Definition load_existing_news (NEWS_CSV : csv_file) : outcome (list dict) :=
  match exists_ NEWS_CSV with
  | Raises e => Raises e
  | Returns false => Returns []
  | Returns true =>
      match read_csv NEWS_CSV with
      | Returns df => Returns df
      | Raises _ => Returns []
      end
  end.

(** Stages 3 and 4 of [main]: split by priority, refine the high-priority
    items, drop the skipped ones, append the rule-classified ones. *)
Definition refine_all (cache : gmap string dict) (all_raw_news : list dict)
    : outcome (list dict * gmap string dict) :=
  let is_high news_item :=
    get_or news_item "priority" (VStr "medium") = VStr "high" in
  let high_priority_news := filter is_high all_raw_news in
  let medium_priority_news : list dict :=
    fill_category_group "gaming"
      <$> filter (fun news_item => ¬ is_high news_item) all_raw_news in
  match smart_refine_batch cache high_priority_news (USE_PAID_API env) with
  | Raises e => Raises e
  | Returns (all_refined_news, cache') =>
      let all_refined_news :=
        filter (fun n => truthy (get n "skip") = false) all_refined_news in
      let medium_priority_news : list dict :=
        fill_category_group "gaming" <$> medium_priority_news in
      Returns (all_refined_news ++ medium_priority_news, cache')
  end.

(** [existing_news + unique_new_news] *)
Definition merge (existing_news all_refined_news : list dict) : list dict :=
  existing_news ++ remove_duplicates existing_news all_refined_news.

(** *** The end of [main]: the write of the store and of the summary

    Three things the end of [main] calls are I/O or read the clock, and
    each may raise: what [save_to_csv] does inside its [try] (it raises
    again what it catches), the age test of a [published_date], and
    [generate_traffic_summary], which calls the summary adapter and
    writes [summary.json]. *)
Context (write_csv : list dict -> outcome unit).
Context (published_within_a_day : value -> outcome bool).
Context (generate_traffic_summary : list dict -> outcome unit).

Definition save_to_csv (all_news : list dict) : outcome unit :=
  match all_news with
  | [] => Returns tt
  | _ => write_csv all_news
  end.

(** The list comprehension of [main] that builds [recent_news]. *)
Fixpoint recent_news (all_news : list dict) : outcome (list dict) :=
  match all_news with
  | [] => Returns []
  | n :: all_news' =>
      if truthy (get n "published_date") then
        match published_within_a_day (get n "published_date") with
        | Raises e => Raises e
        | Returns recent =>
            match recent_news all_news' with
            | Raises e => Raises e
            | Returns rest => Returns (if recent then n :: rest else rest)
            end
        end
      else recent_news all_news'
  end.

(** [main] from the save of the store to its [return]: the exit code is
    0 when items were added, 1 when none were, -1 when an exception
    reached the outer handler. *)
Definition save_and_summarise (existing_news unique_new_news : list dict) : Z :=
  let all_news := existing_news ++ unique_new_news in
  match unique_new_news with
  | [] =>
      match generate_traffic_summary
              (match existing_news with
               | [] => []
               | _ => take 50 existing_news
               end) with
      | Returns _ => 1
      | Raises _ => -1
      end
  | _ =>
      match save_to_csv all_news with
      | Raises _ => -1
      | Returns _ =>
          match recent_news all_news with
          | Raises _ => -1
          | Returns recent_news =>
              let recent_news :=
                match recent_news with
                | [] => take 50 all_news
                | _ => recent_news
                end in
              match generate_traffic_summary recent_news with
              | Returns _ => 0
              | Raises _ => -1
              end
          end
      end
  end%Z.

(** [main] from the load of the store on, given what the searches of
    stages 0 to 2 gathered: its exit code, with the list [all_news] it
    computed (the rows read so far when an earlier stage raised). *)
Definition main (NEWS_CSV : csv_file) (cache : gmap string dict)
    (all_raw_news : list dict) : Z * list dict :=
  match load_existing_news NEWS_CSV with
  | Raises _ => (-1, [])%Z
  | Returns existing_news =>
      match refine_all cache all_raw_news with
      | Raises _ => (-1, existing_news)%Z
      | Returns (all_refined_news, _) =>
          let unique_new_news :=
            remove_duplicates existing_news all_refined_news in
          let all_news := existing_news ++ unique_new_news in
          (save_and_summarise existing_news unique_new_news, all_news)
      end
  end.

End Refinement.

(** *** De-duplication inside one fetcher *)

(** The tail loop of [fetch_from_naver] and [fetch_from_deepsearch]:
    an item is kept when its [url] was not seen before.  [None] stands
    for the [KeyError] of [item['url']] on an item without the key. *)
Fixpoint unique_by_url (seen_urls : gset value) (results : list dict)
    : option (list dict) :=
  match results with
  | [] => Some []
  | item :: results' =>
      match item !! "url" with
      | None => None
      | Some url =>
          if decide (url ∈ seen_urls) then unique_by_url seen_urls results'
          else cons item <$> unique_by_url ({[url]} ∪ seen_urls) results'
      end
  end.

(** [unique_results[:max_results]] for a count that is not negative. *)
Definition unique_results (results : list dict) (max_results : nat)
    : option (list dict) :=
  take max_results <$> unique_by_url ∅ results.

Section Guess.

Context (lower : string -> string).

(** The country guess of [fetch_from_deepsearch]: the first country whose
    name is in the search keyword or in the title. *)
Fixpoint guess_country (keyword title : string) (countries : list string)
    (news_item : dict) : dict :=
  match countries with
  | [] => news_item
  | country :: countries' =>
      if contains (lower country) (lower keyword)
         || contains (lower country) (lower title)
      then
        <["continent" := VStr (get_continent country)]>
          (<["country" := VStr country]> news_item)
      else guess_country keyword title countries' news_item
  end.

End Guess.

(** *** What the adapters do with an answer

    The answers are JSON objects; their values are taken among [null],
    the booleans and the strings. *)

(** The loop of [fetch_from_groq] over one batch and the array the model
    answered with: the answers are matched by position. *)
Fixpoint apply_groq_analysis (batch analysis : list dict) : list dict :=
  match batch with
  | [] => []
  | item :: batch' =>
      match analysis with
      | [] => item :: apply_groq_analysis batch' []
      | answer :: analysis' =>
          let item :=
            <["category" :=
                get_or answer "category" (get_or item "category" (VStr "other"))]>
              item in
          let item :=
            <["traffic_impact" := get_or answer "traffic_impact" (VStr "")]> item in
          let item := <["api_source" := VStr "groq"]> item in
          let item :=
            if negb (truthy (get_or answer "relevant" (VBool true)))
            then <["skip" := VBool true]> item
            else item in
          item :: apply_groq_analysis batch' analysis'
      end
  end.

(** [continent_map.get(country, 'OTHER')] on any object. *)
Definition get_continent_of (country : value) : string :=
  match country with
  | VStr s => get_continent s
  | _ => "OTHER"
  end.

(** What [refine_news_with_ai] returns once the answer [ai_result] is
    parsed: [None] when the answer does not say the news is relevant. *)
Definition merge_ai_result (news_item ai_result : dict) : option dict :=
  if negb (truthy (get_or ai_result "relevant" (VBool false))) then None
  else
    let detail_category := get_or ai_result "category" (VStr "other") in
    let refined_item :=
      <["traffic_impact" := get_or ai_result "traffic_impact" (VStr "")]>
        (<["summary" :=
             get_or ai_result "summary_kr" (get_or news_item "summary" (VStr ""))]>
           (<["category_group" := VStr (map_to_group_category detail_category)]>
              (<["category" := detail_category]> news_item))) in
    Some (if truthy (get ai_result "country") then
            <["continent" := VStr (get_continent_of (get ai_result "country"))]>
              (<["country" := get ai_result "country"]> refined_item)
          else refined_item).

(** *** Selection of the news the summary is about *)

Definition summary_exclude_keywords : list string :=
  [ "mama"; "awards"; "시상식"; "concert"; "콘서트"; "idol"; "아이돌";
    "광고"; "캠페인"; "프로모션"; "증시"; "코스피"; "채용"; "분양";
    "immigration protest"; "hindu protest"; "farmer protest" ].

Section Summary.

(** [str.lower] and the slice [[:30]] of a string. *)
Context (lower first30 : string -> string).

(** [(news.get('title') or '').lower()]; [None] stands for the
    [AttributeError] of [.lower()] on a truthy object that is no string. *)
Definition summary_title (news : dict) : option string :=
  match get news "title" with
  | VStr s => Some (lower s)
  | v => if truthy v then None else Some (lower "")
  end.

(** The loop of [generate_traffic_summary] over [traffic_news]. *)
Fixpoint select_titles (seen_titles : gset string) (traffic_news : list dict)
    : option (list dict) :=
  match traffic_news with
  | [] => Some []
  | news :: traffic_news' =>
      match summary_title news with
      | None => None
      | Some title =>
          let title_key := first30 title in
          if decide (title_key ∈ seen_titles)
          then select_titles seen_titles traffic_news'
          else
            let seen_titles := {[title_key]} ∪ seen_titles in
            if any_keyword_in (fun kw => kw) summary_exclude_keywords title
            then select_titles seen_titles traffic_news'
            else cons news <$> select_titles seen_titles traffic_news'
      end
  end.

(** [filtered_news] of [generate_traffic_summary]. *)
Definition filtered_news (news_list : list dict) : option (list dict) :=
  select_titles ∅
    (filter (fun n => get n "news_type" = VStr "traffic_impact") news_list).

End Summary.

End fetch_news.

(** * scripts/fix_category_groups.py *)

Module fix_category_groups.

(** The script carries its own copy of the four lists. *)
Definition outage_block : list string :=
  [ "internet_shutdown"; "tech_outage"; "power_outage"; "censorship";
    "cyber_attack"; "infrastructure_damage" ].

Definition social_crisis : list string :=
  [ "war_conflict"; "terrorism_explosion"; "natural_disaster";
    "protest_strike"; "curfew"; "pandemic"; "economic" ].

Definition seasonal_calendar : list string :=
  [ "holiday"; "school_calendar"; "election" ].

Definition gaming_competitor : list string :=
  [ "gaming"; "competitor_game"; "social_trend"; "sports_event";
    "major_event" ].

Section Repair.

(** [str.lower] and [str.strip] *)
Context (lower strip : string -> string).

Definition map_to_group_category (detail_category : value) : string :=
  if negb (truthy detail_category) || isna detail_category then "other"
  else
    let detail_category := VStr (lower (strip (py_str detail_category))) in
    if in_strs detail_category outage_block then "outage_block"
    else if in_strs detail_category social_crisis then "social_crisis"
    else if in_strs detail_category seasonal_calendar then "seasonal_calendar"
    else if in_strs detail_category gaming_competitor then "gaming_competitor"
    else "other".

(** Body of the loop over [df.iterrows()].  A frame without the
    [category_group] column first gets it filled with [None], which is
    what [get] answers for a missing key. *)
Definition fix_row (row : dict) : dict :=
  if isna (get row "category_group")
     || bool_decide (get row "category_group" = VStr "")
  then
    let category := get_or row "category" (VStr "other") in
    <["category_group" := VStr (map_to_group_category category)]> row
  else row.

(** [main] on the rows read from an existing store. *)
Definition main (df : list dict) : list dict := fix_row <$> df.

End Repair.

End fix_category_groups.

(** * scripts/clean_news.py *)

Module clean_news.

Definition EXCLUDE_KEYWORDS : list string :=
  [ "자주포"; "전차"; "미사일"; "무기"; "군수"; "방산"; "국방"; "K9"; "K2";
    "한화에어로"; "한화디펜스"; "defense contract"; "방위사업";
    "military contract"; "arms deal"; "DMZ"; "Korean War soldiers";
    "유해 발굴"; "전사자"; "MAMA"; "Awards"; "시상식"; "mourning";
    "Hong Kong tragedy"; "K-pop"; "idol"; "아이돌"; "걸그룹"; "보이그룹";
    "콘서트"; "앨범"; "팬미팅"; "뮤직비디오"; "concert"; "album";
    "fan meeting"; "드라마"; "예능"; "시청률"; "예능 프로그램";
    "리얼리티쇼"; "리얼리티 쇼"; "OTT"; "넷플릭스"; "디즈니+"; "티빙";
    "웨이브"; "쿠팡플레이"; "Netflix"; "Disney+"; "OST"; "열애설"; "결별설";
    "연예계"; "연예인 커플"; "스캔들"; "영화제"; "레드카펫"; "celebrity";
    "entertainment news"; "showbiz"; "immigration protest"; "hindu protest";
    "farmer protest"; "PPP"; "국민의힘"; "더불어민주당"; "민주당"; "국회";
    "court hearing"; "법원"; "재판"; "탄핵"; "대통령"; "Choo Kyung-ho";
    "추경호"; "이재명"; "윤석열"; "한동훈"; "National Assembly";
    "impeachment"; "legislature"; "한국"; "South Korea"; "Korea"; "북한";
    "North Korea"; "서울"; "Seoul"; "부산"; "대구"; "인천"; "네이트";
    "nate.com"; "esports"; "e-sports"; "e스포츠"; "이스포츠"; "PMGC";
    "PMPL"; "PCS"; "PGC"; "tournament"; "토너먼트"; "대회"; "championship";
    "league"; "리그"; "pro player"; "프로선수"; "pro team"; "프로팀";
    "KT 위즈"; "kt wiz"; "KT위즈"; "구원투수"; "스토브리그"; "WAR 전체";
    "xportsnews"; "프로축구"; "프로야구"; "NBA"; "MLB"; "야구 결과";
    "축구 결과"; "경기 결과"; "Spike War"; "스파이크 워"; "배구";
    "volleyball"; "발리볼"; "Kim Yo-han's serve"; "서브 리시브";
    "receive log"; "V리그"; "V-League"; "Chip War"; "SK하이닉스";
    "AI 거품론"; "광고"; "협찬"; "마케팅"; "보도자료"; "PPL"; "캠페인";
    "campaign"; "프로모션"; "promotion"; "팝업"; "popup"; "콜라보";
    "collaboration"; "신제품"; "sponsored"; "sponsorship"; "affiliate";
    "브랜드 캠페인"; "브랜드 콜라보"; "branded content"; "증시"; "코스피";
    "코스닥"; "나스닥"; "장중"; "장 마감"; "장 초반"; "마감 지수"; "주가";
    "주식시장"; "투자자"; "기관투자자"; "증권사"; "증권가"; "리포트";
    "리서치센터"; "실적발표"; "분기 실적"; "연간 실적"; "earnings";
    "quarterly earnings"; "annual earnings"; "IR"; "conference call";
    "배당"; "dividend"; "펀드"; "ETF"; "리츠"; "재테크"; "stock price";
    "investor"; "IPO"; "공모주"; "채용"; "공채"; "수시채용"; "채용 공고";
    "신입사원"; "경력직"; "인재 채용"; "구인"; "구인 공고"; "job opening";
    "hiring"; "recruitment"; "career fair"; "채용 설명회"; "인턴 모집";
    "공모전"; "분양"; "청약"; "입주자 모집"; "전세"; "월세"; "매매";
    "전월세"; "전세가"; "매매가"; "집값"; "아파트 단지"; "오피스텔";
    "상가 분양"; "오피스 임대"; "부동산 시장"; "부동산 규제"; "real estate";
    "housing market"; "오늘의 날씨"; "주간 날씨"; "기상청"; "기온";
    "미세먼지"; "체감온도"; "weather forecast"; "weekly forecast"; "레시피";
    "요리법"; "집밥"; "간편식"; "맛집 탐방"; "식당 리뷰"; "카페 추천";
    "restaurant review"; "food blog"; "맛집"; "restaurant"; "여행";
    "travel tip"; "던킨"; "스타벅스"; "맥도날드"; "버거킹"; "엠앤엠"; "M&M";
    "초콜릿"; "커피"; "coffee"; "음료"; "패션"; "fashion"; "뷰티"; "beauty";
    "화장품"; "cosmetic"; "의류"; "clothing"; "쇼핑"; "shopping"; "대통령";
    "국회"; "외교부"; "장관"; "정상회담" ].

Definition GAMING_REQUIRED : list string :=
  [ "pubg"; "펍지"; "배틀그라운드"; "krafton"; "크래프톤"; "bgmi"; "pmgc";
    "pmpl"; "pcs"; "pgc"; "fps"; "fps게임"; "fps 게임"; "슈터"; "shooter";
    "배틀로얄"; "battle royale"; "배틀 로얄"; "free fire"; "프리파이어";
    "가레나"; "garena"; "call of duty mobile"; "cod mobile";
    "콜오브듀티 모바일"; "apex legends mobile"; "에이펙스 레전드 모바일";
    "fortnite mobile"; "포트나이트 모바일"; "roblox"; "로블록스";
    "fortnite"; "포트나이트"; "apex legends"; "에이펙스 레전드"; "에이펙스";
    "mobile esports"; "모바일 e스포츠"; "모바일 이스포츠" ].

Definition TRAFFIC_REQUIRED : list string :=
  [ "인터넷 차단"; "internet shutdown"; "통신 장애"; "network outage";
    "정전"; "power outage"; "지진"; "earthquake"; "태풍"; "typhoon"; "홍수";
    "flood"; "전쟁"; "war"; "폭발"; "explosion"; "테러"; "공휴일";
    "holiday"; "연휴"; "명절"; "방학"; "시험"; "시위"; "protest"; "폭동";
    "riot"; "계엄"; "curfew" ].

Section Cleaning.

Context (lower : string -> string).

Definition should_exclude (title summary : string) : bool :=
  let text := lower (title +:+ " " +:+ summary) in
  fetch_news.any_keyword_in lower EXCLUDE_KEYWORDS text.

Definition is_valid_gaming_news (title summary : string) : bool :=
  let text := lower (title +:+ " " +:+ summary) in
  fetch_news.any_keyword_in lower GAMING_REQUIRED text.

Definition is_valid_traffic_news (title summary : string) : bool :=
  let text := lower (title +:+ " " +:+ summary) in
  fetch_news.any_keyword_in lower TRAFFIC_REQUIRED text.

(** Body of the loop over [df.iterrows()]: [None] for a row put on
    [to_remove], otherwise the row as the frame holds it afterwards. *)
Definition clean_row (row : dict) : option dict :=
  let title := py_str (get_or row "title" (VStr "")) in
  let summary := py_str (get_or row "summary" (VStr "")) in
  let news_type := py_str (get_or row "news_type" (VStr "")) in
  if should_exclude title summary then None
  else if String.eqb news_type "gaming"
          && negb (is_valid_gaming_news title summary) then
    if is_valid_traffic_news title summary
    then Some (<["news_type" := VStr "traffic_impact"]> row)
    else None
  else if String.eqb news_type "" || String.eqb news_type "nan" then
    if is_valid_gaming_news title summary
    then Some (<["news_type" := VStr "gaming"]> row)
    else if is_valid_traffic_news title summary
    then Some (<["news_type" := VStr "traffic_impact"]> row)
    else None
  else Some row.

(** [clean_news] on the rows read from an existing store. *)
Definition clean_news (df : list dict) : list dict := omap clean_row df.

End Cleaning.

End clean_news.

(** * scripts/send_slack.py *)

Module send_slack.

Definition IMPACT_KEYWORDS : list (string * list string) :=
  [ ("high_impact",
     [ "internet shutdown"; "internet outage"; "power outage"; "blackout";
       "인터넷 차단"; "인터넷 장애"; "정전"; "대규모 정전";
       "earthquake damage"; "flood damage"; "typhoon damage"; "지진 피해";
       "홍수 피해"; "태풍 피해"; "통신망"; "인프라 피해" ]);
    ("medium_impact",
     [ "curfew"; "martial law"; "통금"; "계엄"; "national holiday";
       "국경일"; "연휴" ]) ].

Definition EXCLUDE_KEYWORDS : list string :=
  [ "MAMA"; "Awards"; "시상식"; "콘서트"; "concert"; "앨범"; "album";
    "K-pop"; "idol"; "아이돌"; "걸그룹"; "보이그룹"; "mourning"; "드라마";
    "예능"; "시청률"; "넷플릭스"; "Netflix"; "열애설"; "결별설"; "스캔들";
    "영화제"; "레드카펫"; "immigration protest"; "hindu protest";
    "farmer protest"; "PPP"; "국민의힘"; "더불어민주당"; "민주당"; "국회";
    "court hearing"; "법원"; "재판"; "탄핵"; "Choo Kyung-ho"; "추경호";
    "이재명"; "윤석열"; "한동훈"; "impeachment"; "한국"; "South Korea";
    "Korea"; "북한"; "North Korea"; "서울"; "Seoul"; "네이트"; "nate.com";
    "esports"; "e-sports"; "e스포츠"; "이스포츠"; "PMGC"; "PMPL";
    "tournament"; "토너먼트"; "대회"; "championship"; "league"; "리그";
    "프로선수"; "프로팀"; "광고"; "협찬"; "마케팅"; "캠페인"; "campaign";
    "프로모션"; "sponsored"; "sponsorship"; "PPL"; "보도자료"; "증시";
    "코스피"; "코스닥"; "나스닥"; "주가"; "장 마감"; "stock price";
    "earnings"; "IPO"; "실적발표"; "배당"; "채용"; "공채"; "구인"; "hiring";
    "recruitment"; "분양"; "청약"; "전세"; "월세"; "매매가"; "집값";
    "오늘의 날씨"; "미세먼지"; "레시피"; "맛집"; "KT 위즈"; "kt wiz";
    "프로야구"; "프로축구"; "NBA"; "MLB"; "Spike War"; "스파이크 워";
    "배구"; "volleyball"; "V리그"; "Kim Yo-han's serve"; "서브 리시브" ].

Section Report.

(** [str.lower] and the slice [[:30]] of a string. *)
Context (lower first30 : string -> string).

(** [(news.get(k, '') or '').lower()]; [None] stands for the
    [AttributeError] of [.lower()] on a truthy object that is no string,
    such as the NaN of an empty CSV cell. *)
Definition lowered (news : dict) (k : string) : option string :=
  match get_or news k (VStr "") with
  | VStr s => Some (lower s)
  | v => if truthy v then None else Some (lower "")
  end.

(** The loop over [IMPACT_KEYWORDS.items()] with its [break]. *)
Fixpoint impact_level (levels : list (string * list string)) (text : string)
    : option string :=
  match levels with
  | [] => None
  | (level, keywords) :: levels' =>
      if fetch_news.any_keyword_in lower keywords text then Some level
      else impact_level levels' text
  end.

(** The loop of [filter_relevant_news] over [news_list]. *)
Fixpoint relevant (seen_titles : gset string) (news_list : list dict)
    : option (list dict) :=
  match news_list with
  | [] => Some []
  | news :: news_list' =>
      match lowered news "title" with
      | None => None
      | Some title_lower =>
          match lowered news "summary" with
          | None => None
          | Some summary =>
              let text := title_lower +:+ " " +:+ summary in
              let title_key := first30 title_lower in
              if decide (title_key ∈ seen_titles)
              then relevant seen_titles news_list'
              else
                let seen_titles := {[title_key]} ∪ seen_titles in
                if fetch_news.any_keyword_in lower EXCLUDE_KEYWORDS text
                then relevant seen_titles news_list'
                else
                  match impact_level IMPACT_KEYWORDS text with
                  | Some level =>
                      if String.eqb level "" then relevant seen_titles news_list'
                      else cons (<["impact_level" := VStr level]> news)
                             <$> relevant seen_titles news_list'
                  | None => relevant seen_titles news_list'
                  end
          end
      end
  end.

End Report.

(** [priority.get(x.get('impact_level', 'medium_impact'), 2)] *)
Definition sort_key (news : dict) : nat :=
  match get_or news "impact_level" (VStr "medium_impact") with
  | VStr level =>
      if String.eqb level "high_impact" then 0
      else if String.eqb level "medium_impact" then 1
      else 2
  | _ => 2
  end.

(** [list.sort(key=...)] sorts by key and is stable.  The stable sorted
    arrangement of a list is unique, so any stable sort stands for it:
    here each element, from the last to the first, is put in front of
    the first element whose key is not smaller than its own. *)
Fixpoint insert_by (key : dict -> nat) (x : dict) (l : list dict) : list dict :=
  match l with
  | [] => [x]
  | y :: l' => if (key y <? key x)%nat then y :: insert_by key x l' else x :: l
  end.

Definition sort_by (key : dict -> nat) (l : list dict) : list dict :=
  foldr (insert_by key) [] l.

Definition filter_relevant_news (lower first30 : string -> string)
    (news_list : list dict) : option (list dict) :=
  sort_by sort_key <$> relevant lower first30 ∅ news_list.

End send_slack.

(** * Vocabulary of the properties *)

Import fetch_news.

(** [p] occurs in [s]: the meaning of Python's [p in s]. *)
Definition occurs_in (p s : string) : Prop :=
  exists before after, s = before +:+ p +:+ after.

(** ** Scenario A: an outage headline, no refinement adapter *)

Definition no_adapter : environment :=
  {| GROQ_API_KEY := false; OPENAI_API_KEY := false;
     CLAUDE_API_KEY := false; USE_PAID_API := false |}.

Definition absent_store : csv_file :=
  {| exists_ := Returns false; read_csv := Raises FileNotFoundError |}.

Definition jakarta_entry : rss_entry :=
  {| published_within_day := true;
     pub_date := "2025-01-15";
     clean_title := "Internet shutdown hits Jakarta";
     clean_summary := "";
     link := Some "https://news.example.com/jakarta-shutdown";
     source_title := Some "Example Wire" |}.

(** The row the run hands to [save_to_csv] for [jakarta_entry]. *)
Definition jakarta_row : dict :=
  list_to_map
    [ ("date", VStr "2025-01-15");
      ("country", VNone);
      ("continent", VNone);
      ("title", VStr "Internet shutdown hits Jakarta");
      ("summary", VStr "");
      ("url", VStr "https://news.example.com/jakarta-shutdown");
      ("source", VStr "Example Wire");
      ("category", VStr "gaming");
      ("category_group", VStr "gaming_competitor");
      ("news_type", VStr "traffic_impact");
      ("priority", VStr "high") ].

(** One run in which the search for a traffic-impact keyword returns
    [jakarta_entry] and nothing else is found. *)
Definition jakarta_run : list dict :=
  gather
    {| deepsearch_news := []; trending_news := []; naver_news := [];
       base_keyword_news := []; gaming_keyword_news := [];
       country_news := [];
       traffic_keyword_news :=
         [ fetch_news_from_rss ascii_lower "internet shutdown" [] [jakarta_entry] ] |}.

(** One run in which two searches, for a country keyword and for a
    traffic-impact keyword, both return [jakarta_entry]. *)
Definition jakarta_twice_run : list dict :=
  gather
    {| deepsearch_news := []; trending_news := []; naver_news := [];
       base_keyword_news := []; gaming_keyword_news := [];
       country_news :=
         [ ("Indonesia",
            fetch_news_from_rss ascii_lower "Jakarta" [] [jakarta_entry]) ];
       traffic_keyword_news :=
         [ fetch_news_from_rss ascii_lower "internet shutdown" [] [jakarta_entry] ] |}.

(** ** Joint consistency of [news_type] and [category] *)

(** The categories that name a disaster, a conflict or an outage: the two
    crisis groups of the mapper and the three labels of the second
    classification path. *)
Definition crisis_categories : list string :=
  outage_block ++ social_crisis ++ ["disaster"; "conflict"; "outage"].

Definition jointly_consistent (item : dict) : Prop :=
  (get item "news_type" = VStr "gaming"
   -> in_strs (get item "category") crisis_categories = false)
  /\ (get item "news_type" = VStr "traffic_impact"
      -> get item "category" <> VStr "gaming").

(** The same on a classifier result. *)
Definition consistent_result (news_type category : option string) : Prop :=
  (news_type = Some "gaming"
   -> in_strs (of_option category) crisis_categories = false)
  /\ (news_type = Some "traffic_impact" -> category <> Some "gaming").

(** ** Merge *)

(** No item of [P] that has a URL has the URL of [n]. *)
Definition fresh_url (P : list dict) (n : dict) : Prop :=
  Forall (fun p => truthy (get p "url") = true -> get p "url" <> get n "url") P.

#[global] Instance fresh_url_dec (P : list dict) (n : dict) :
  Decision (fresh_url P n).
Proof. unfold fresh_url. apply _. Defined.

(** The specification's identity key: the URL when there is one,
    otherwise a hash of title + summary. *)
Definition spec_identity_key (hash : string -> string) (item : dict)
    : value + string :=
  if truthy (get item "url") then inl (get item "url")
  else inr (hash (py_str (get item "title") +:+ py_str (get item "summary"))).

(** The specification's merge: [P] followed by the items of [N] whose
    identity key is not a key of [P]. *)
Definition spec_merge (hash : string -> string) (P N : list dict) : list dict :=
  P ++ filter (fun n => spec_identity_key hash n ∉ spec_identity_key hash <$> P) N.

Definition url_count (u : string) (l : list dict) : nat :=
  length (filter (fun n => get n "url" = VStr u) l).

(** A feed entry without a link, and the item [fetch_news_from_rss]
    builds from it: its [url] is the empty string. *)
Definition linkless_entry : rss_entry :=
  {| published_within_day := true;
     pub_date := "2025-01-15";
     clean_title := "Flood warning issued for Karachi";
     clean_summary := "Heavy rain expected";
     link := None;
     source_title := None |}.

Definition linkless_item : dict :=
  list_to_map
    [ ("date", VStr "2025-01-15");
      ("country", VNone);
      ("continent", VNone);
      ("title", VStr "Flood warning issued for Karachi");
      ("summary", VStr "Heavy rain expected");
      ("url", VStr "");
      ("source", VStr "Google News");
      ("category", VStr "gaming");
      ("news_type", VStr "traffic_impact");
      ("priority", VStr "high") ].

(** ** Cache key *)

(** The specification's cache key: a hash of title + url, or of
    title + summary when the item has no URL. *)
Definition spec_cache_key (item : dict) : string :=
  if truthy (get item "url")
  then get_cache_key (py_str (get item "title") +:+ py_str (get item "url"))
  else get_cache_key (py_str (get item "title") +:+ py_str (get item "summary")).

(** ** Operations on the persisted store *)

(** The three operations of the repository that rewrite [news.csv]. *)
Inductive operation : Type :=
| FetchNews (all_refined_news : list dict)
| FixCategoryGroups
| CleanNews.

Definition run (lower strip : string -> string) (op : operation)
    (store : list dict) : list dict :=
  match op with
  | FetchNews all_refined_news => merge store all_refined_news
  | FixCategoryGroups => fix_category_groups.main lower strip store
  | CleanNews => clean_news.clean_news lower store
  end.

Definition blank_group (row : dict) : Prop :=
  isna (get row "category_group") = true \/ get row "category_group" = VStr "".

(** [row'] is [row], or [row] with its blank [category_group] filled. *)
Definition backfilled (row row' : dict) : Prop :=
  row' = row
  \/ (blank_group row /\ exists g, row' = <["category_group" := VStr g]> row).

(** [row'] is [row], or [row] with another [news_type]. *)
Definition retyped (row row' : dict) : Prop :=
  row' = row \/ exists t, row' = <["news_type" := VStr t]> row.

(** The three strings [clean_news] reads from a row. *)
Definition row_title (row : dict) : string :=
  py_str (get_or row "title" (VStr "")).
Definition row_summary (row : dict) : string :=
  py_str (get_or row "summary" (VStr "")).
Definition row_news_type (row : dict) : string :=
  py_str (get_or row "news_type" (VStr "")).

(** The rows [clean_news] deletes: those with an exclusion keyword in
    their text, and those typed [gaming] or not typed at all in which
    neither a gaming nor a traffic keyword occurs. *)
Definition deleted_by_clean_news (lower : string -> string) (row : dict)
    : Prop :=
  clean_news.should_exclude lower (row_title row) (row_summary row) = true
  \/ (row_news_type row ∈ ["gaming"; ""; "nan"]
      /\ clean_news.is_valid_gaming_news lower (row_title row) (row_summary row)
         = false
      /\ clean_news.is_valid_traffic_news lower (row_title row) (row_summary row)
         = false).

#[global] Instance deleted_by_clean_news_dec (lower : string -> string)
    (row : dict) : Decision (deleted_by_clean_news lower row).
Proof. unfold deleted_by_clean_news. apply _. Defined.

(** Persisted rows are immutable history: the backfill only fills blank
    groups, every other operation leaves the old rows in place and at
    most appends. *)
Definition immutable_history (lower strip : string -> string)
    (op : operation) : Prop :=
  forall store,
    match op with
    | FixCategoryGroups => Forall2 backfilled store (run lower strip op store)
    | _ => store `prefix_of` run lower strip op store
    end.

Definition kpop_row : dict :=
  list_to_map
    [ ("title", VStr "K-pop concert tonight"); ("summary", VNaN);
      ("url", VStr "https://news.example.com/kpop");
      ("category", VStr "gaming"); ("category_group", VStr "gaming_competitor");
      ("news_type", VStr "gaming") ].

(** A misfiled row: typed [gaming], about an earthquake. *)
Definition quake_row : dict :=
  list_to_map
    [ ("title", VStr "Earthquake hits coastal city"); ("summary", VNaN);
      ("url", VStr "https://news.example.com/quake");
      ("category", VStr "gaming"); ("category_group", VStr "gaming_competitor");
      ("news_type", VStr "gaming") ].

(** ** Store files *)

Definition corrupt_store : csv_file :=
  {| exists_ := Returns true; read_csv := Raises ParserError |}.

(** A store in a directory the run may not search: the existence check
    itself raises. *)
Definition locked_store : csv_file :=
  {| exists_ := Raises PermissionError; read_csv := Raises PermissionError |}.

(** The store cannot be read: it is missing, or the check or the read of
    it raises. *)
Definition unreadable (NEWS_CSV : csv_file) : Prop :=
  exists_ NEWS_CSV <> Returns true \/ exists e, read_csv NEWS_CSV = Raises e.

(** The specification's statement: a store that cannot be read counts as
    an empty history. *)
Definition read_failure_is_never_fatal : Prop :=
  forall NEWS_CSV, unreadable NEWS_CSV -> load_existing_news NEWS_CSV = Returns [].

(** ** Vocabulary of the further properties *)

(** Some keyword of [kws], lower-cased, occurs in [text]. *)
Definition some_keyword_occurs (lower : string -> string) (kws : list string)
    (text : string) : Prop :=
  exists kw, kw ∈ kws /\ occurs_in (lower kw) text.

(** The text both classifiers scan. *)
Definition scanned_text (lower : string -> string) (title summary : string)
    : string :=
  lower (title +:+ " " +:+ summary).

(** The URL of an item that has one: a non-empty string. *)
Definition url_of (item : dict) : option string :=
  match get item "url" with
  | VStr url => if String.eqb url "" then None else Some url
  | _ => None
  end.

(** The URLs of the items that have one. *)
Definition urls (l : list dict) : list string := omap url_of l.

(** A row read from a CSV line whose [url] cell is empty. *)
Definition blank_url_row : dict :=
  list_to_map
    [ ("title", VStr "Heatwave closes schools"); ("summary", VNaN);
      ("url", VNaN); ("category", VStr "school_calendar");
      ("category_group", VStr "seasonal_calendar");
      ("news_type", VStr "traffic_impact") ].

Definition group_names : list string :=
  [ "outage_block"; "social_crisis"; "seasonal_calendar"; "gaming_competitor";
    "other" ].

(** What [clean_news] guarantees of a row it keeps. *)
Definition cleaned (lower : string -> string) (row : dict) : Prop :=
  clean_news.should_exclude lower (row_title row) (row_summary row) = false
  /\ row_news_type row <> "" /\ row_news_type row <> "nan"
  /\ (row_news_type row = "gaming" ->
      clean_news.is_valid_gaming_news lower (row_title row) (row_summary row)
      = true).

(** The [url] of every item, one per item. *)
Definition all_urls (l : list dict) : list value :=
  (fun item => get item "url") <$> l.

(** [country] and [continent] go together: both are still [None], or the
    continent is the continent of the country. *)
Definition located (item : dict) : Prop :=
  (get item "country" = VNone /\ get item "continent" = VNone)
  \/ exists country,
       get item "country" = VStr country
       /\ get item "continent" = VStr (get_continent country).

(** The cache has an entry under the key of [item]. *)
Definition cached (cache : gmap string dict) (item : dict) : Prop :=
  exists cache_key, cache_key_of item = Returns cache_key
                    /\ is_Some (cache !! cache_key).

(** [restored] is [item] after [item.update(cached)] with its entry of
    the cache. *)
Definition restored_from (cache : gmap string dict) (item restored : dict)
    : Prop :=
  exists cache_key entry,
    cache_key_of item = Returns cache_key
    /\ cache !! cache_key = Some entry
    /\ restored = update item entry.

(** An adapter that may rewrite an item but not its title or URL. *)
Definition keeps_key (item item' : dict) : Prop :=
  get_or item' "title" (VStr "") = get_or item "title" (VStr "")
  /\ get_or item' "url" (VStr "") = get_or item "url" (VStr "").

Definition has_group (item : dict) : Prop :=
  exists g, get item "category_group" = VStr g /\ g ∈ group_names.

(** The fields a cache entry holds. *)
Definition cache_fields : list string :=
  [ "category"; "category_group"; "traffic_impact"; "api_source" ].

(** The adapters leave the title and the URL of every item alone. *)
Definition adapters_keep_keys (fetch_from_groq : list dict -> list dict)
    (refine_news_with_ai : dict -> string -> option dict) : Prop :=
  (forall to_process, Forall2 keeps_key to_process (fetch_from_groq to_process))
  /\ (forall item api_type refined,
        refine_news_with_ai item api_type = Some refined ->
        keeps_key item (update item refined)).

(** The fields [refine_news_with_ai] may write. *)
Definition refined_fields : list string :=
  [ "category"; "category_group"; "summary"; "traffic_impact"; "country";
    "continent" ].

(** The fields [fetch_from_groq] may write. *)
Definition groq_fields : list string :=
  [ "category"; "traffic_impact"; "api_source"; "skip" ].

(** An answer holds a country name, or none. *)
Definition names_country_or_none (ai_result : dict) : Prop :=
  get ai_result "country" = VNone
  \/ exists country, get ai_result "country" = VStr country.

(** Answers of the two adapters, and adapters that always give them. *)
Definition groq_answer : dict :=
  list_to_map
    [ ("id", VStr "1"); ("category", VStr "natural_disaster");
      ("traffic_impact", VStr "Players in Karachi may drop offline");
      ("relevant", VBool true) ].

Definition paid_answer : dict :=
  list_to_map
    [ ("relevant", VBool true); ("category", VStr "natural_disaster");
      ("country", VStr "Pakistan");
      ("traffic_impact", VStr "Fewer sessions from Karachi");
      ("summary_kr", VStr "Flood warning for Karachi") ].

Definition answering_groq (to_process : list dict) : list dict :=
  apply_groq_analysis to_process [groq_answer].

Definition answering_paid (news_item : dict) (api_type : string) : option dict :=
  merge_ai_result news_item paid_answer.

Definition every_adapter : environment :=
  {| GROQ_API_KEY := true; OPENAI_API_KEY := true;
     CLAUDE_API_KEY := false; USE_PAID_API := true |}.

(** The API the paid stage calls. *)
Definition paid_api (env : environment) : string :=
  if OPENAI_API_KEY env then "openai" else "claude".

(** [item'] is [item], or [item] updated with what the paid adapter
    returned for it. *)
Definition paid_refined (refine_news_with_ai : dict -> string -> option dict)
    (env : environment) (item item' : dict) : Prop :=
  item' = item
  \/ (get item "priority" = VStr "high"
      /\ exists refined,
           refine_news_with_ai item (paid_api env) = Some refined
           /\ item' = <["api_source" := VStr (paid_api env)]> (update item refined)).

(** The number of positions at which two lists differ. *)
Definition changed (l l' : list dict) : nat :=
  length (filter (fun p : dict * dict => p.1 <> p.2) (zip l l')).

Definition is_high (news_item : dict) : Prop :=
  get_or news_item "priority" (VStr "medium") = VStr "high".

(** The key under which [generate_traffic_summary] remembers a title. *)
Definition title_key (lower first30 : string -> string) (news : dict)
    : option string :=
  first30 <$> summary_title lower news.

(** The priority the rules give a feed entry. *)
Definition rated (lower : string -> string) (entry : rss_entry) : string :=
  (classify_news_priority lower (clean_title entry) (clean_summary entry)).1.1.

(** ** The Slack report *)

(** The text [filter_relevant_news] scans for keywords, when both the
    title and the summary of the row can be lower-cased. *)
Definition report_text (lower : string -> string) (news : dict)
    : option string :=
  match send_slack.lowered lower news "title",
        send_slack.lowered lower news "summary" with
  | Some title_lower, Some summary => Some (title_lower +:+ " " +:+ summary)
  | _, _ => None
  end.

(** [item] is the row [news] marked with the level of the first group of
    [IMPACT_KEYWORDS] one of whose keywords occurs in [text]. *)
Definition marked_by_impact (lower : string -> string) (text : string)
    (news item : dict) : Prop :=
  (some_keyword_occurs lower (table send_slack.IMPACT_KEYWORDS "high_impact") text
   /\ item = <["impact_level" := VStr "high_impact"]> news)
  \/ (~ some_keyword_occurs lower
          (table send_slack.IMPACT_KEYWORDS "high_impact") text
      /\ some_keyword_occurs lower
           (table send_slack.IMPACT_KEYWORDS "medium_impact") text
      /\ item = <["impact_level" := VStr "medium_impact"]> news).

(** Two rows of the store as [get_recent_news] hands them over. *)
Definition curfew_row : dict :=
  list_to_map
    [ ("title", VStr "Curfew declared in Dhaka"); ("summary", VStr "Night curfew");
      ("url", VStr "https://news.example.com/curfew");
      ("news_type", VStr "traffic_impact") ].

Definition outage_row : dict :=
  list_to_map
    [ ("title", VStr "Power outage hits Lagos"); ("summary", VStr "");
      ("url", VStr "https://news.example.com/outage");
      ("news_type", VStr "traffic_impact") ].

(** * Properties *)

(** Closed decidable goals are settled by evaluating their decision
    procedure. *)
Ltac by_evaluation := apply (bool_decide_unpack _); vm_compute; exact I.

(** ** The models of the library functions on known values *)

(** The test suite of RFC 1321, section A.5. *)
Example md5_test_suite :
  Md5.hexdigest "" = "d41d8cd98f00b204e9800998ecf8427e"
  /\ Md5.hexdigest "a" = "0cc175b9c0f1b6a831c399e269772661"
  /\ Md5.hexdigest "abc" = "900150983cd24fb0d6963f7d28e17f72"
  /\ Md5.hexdigest "message digest" = "f96b697d7cb7938d525a2f31aaf161d0"
  /\ Md5.hexdigest "abcdefghijklmnopqrstuvwxyz"
     = "c3fcd3d76192e4007dfb496cca67e13b"
  /\ Md5.hexdigest
       "ABCDEFGHIJKLMNOPQRSTUVWXYZabcdefghijklmnopqrstuvwxyz0123456789"
     = "d174ab98d277d9f5a5611c2c9f419d9f"
  /\ Md5.hexdigest
       "12345678901234567890123456789012345678901234567890123456789012345678901234567890"
     = "57edf4a22be3c955ac49da2e2107b67a".
Proof. repeat split; by_evaluation. Qed.

Example lower_and_strip :
  ascii_lower "K-pop AWARDS 2025" = "k-pop awards 2025"
  /\ ascii_lower "펍지 PUBG" = "펍지 pubg"
  /\ ascii_strip "  Gaming " = "Gaming"
  /\ contains "펍지" "신규 펍지 맵" = true
  /\ contains "war" "software" = true
  /\ contains "riot" "rio" = false.
Proof. repeat split; by_evaluation. Qed.

(** ** Substring search *)

Lemma starts_with_spec (p s : string) :
  starts_with p s = true <-> exists after, s = p +:+ after.
Proof.
  revert s. induction p as [|a p IH]; intros s; simpl.
  - split; [intros _; by exists s | done].
  - destruct s as [|b s].
    + split; [done | intros [after H]; discriminate H].
    + rewrite andb_true_iff, Ascii.eqb_eq, IH. split.
      * intros [-> [after ->]]. by exists after.
      * intros [after H]. injection H as -> ->. split; [done | by exists after].
Qed.

Lemma contains_spec (p s : string) :
  contains p s = true <-> occurs_in p s.
Proof.
  unfold occurs_in. induction s as [|b s IH]; simpl.
  - rewrite orb_false_r, starts_with_spec. split.
    + intros [after H]. by exists EmptyString, after.
    + intros [[|c before] [after H]]; [by exists after | discriminate H].
  - rewrite orb_true_iff, starts_with_spec, IH. split.
    + intros [[after H] | (before & after & H)].
      * by exists EmptyString, after.
      * exists (String b before), after. simpl. by rewrite H.
    + intros [[|c before] [after H]].
      * left. by exists after.
      * right. simpl in H. injection H as _ H. by exists before, after.
Qed.

(** ** Keyword scans *)

Lemma any_keyword_in_spec (lower : string -> string) (kws : list string)
    (text : string) :
  any_keyword_in lower kws text = true
  <-> exists kw, kw ∈ kws /\ occurs_in (lower kw) text.
Proof.
  induction kws as [|kw kws IH]; simpl.
  - split; [done | intros (kw & H & _); by apply elem_of_nil in H].
  - destruct (contains (lower kw) text) eqn:Hc.
    + split; [intros _ | done].
      exists kw. split; [left | by apply contains_spec].
    + rewrite IH. split.
      * intros (kw' & Hin & Hocc). exists kw'. split; [by right | done].
      * intros (kw' & Hin & Hocc). apply elem_of_cons in Hin as [-> | Hin].
        -- apply contains_spec in Hocc. congruence.
        -- by exists kw'.
Qed.

(** ** Exclusion precedence *)

(** C3. Whenever the lower-cased text [title + " " + summary] contains a
    (lower-cased) exclusion pattern, [classify_news_priority] answers
    [('low', None, None)], and whenever it contains one of the negative
    keywords of the second path, [is_relevant_news] answers
    [(False, None, None, None)] -- whatever else the text contains, and
    whatever the lower-casing function is. *)
Theorem exclusion_takes_precedence (lower : string -> string)
    (title summary : string) :
  ((exists pattern, pattern ∈ EXCLUDE_PATTERNS
      /\ occurs_in (lower pattern) (lower (title +:+ " " +:+ summary)))
   -> classify_news_priority lower title summary = ("low", None, None))
  /\
  ((exists neg_kw, neg_kw ∈ NEGATIVE_KEYWORDS
      /\ occurs_in (lower neg_kw) (lower (title +:+ " " +:+ summary)))
   -> is_relevant_news lower title summary = (false, None, None, None)).
Proof.
  split; intros H; apply any_keyword_in_spec in H.
  - unfold classify_news_priority. by rewrite H.
  - unfold is_relevant_news. by rewrite H.
Qed.

(** A headline with a critical keyword (earthquake, protest), a gaming
    keyword (PUBG) and exclusion patterns of both paths (idol, campaign). *)
Lemma exclusion_takes_precedence_witness :
  classify_news_priority ascii_lower
    "Earthquake protest at PUBG idol campaign" "live" = ("low", None, None)
  /\ is_relevant_news ascii_lower
    "Earthquake protest at PUBG idol campaign" "live" = (false, None, None, None).
Proof.
  destruct (exclusion_takes_precedence ascii_lower
              "Earthquake protest at PUBG idol campaign" "live") as [H1 H2].
  split.
  - apply H1. exists "idol". split.
    + by_evaluation.
    + exists "earthquake protest at pubg ", " campaign live". reflexivity.
  - apply H2. exists "campaign". split.
    + by_evaluation.
    + exists "earthquake protest at pubg idol ", " live". reflexivity.
Defined.

(** Scenarios B and C of the specification. *)
Example scenario_B_gaming_update :
  classify_news_priority ascii_lower "PUBG Mobile update 3.5 adds new map" ""
    = ("medium", Some "gaming", Some "gaming")
  /\ map_to_group_category (VStr "gaming") = "gaming_competitor".
Proof. split; by_evaluation. Qed.

Example scenario_C_idol_concert :
  classify_news_priority ascii_lower "Idol group announces comeback concert" ""
    = ("low", None, None)
  /\ forall keyword priority_countries,
       fetch_news_from_rss ascii_lower keyword priority_countries
         [ {| published_within_day := true;
              pub_date := "2025-01-15";
              clean_title := "Idol group announces comeback concert";
              clean_summary := "";
              link := Some "https://news.example.com/idol";
              source_title := None |} ] = [].
Proof. split; [by_evaluation | done]. Qed.

(** ** Shape of the classifier results *)

Lemma medium_keywords_result (lower : string -> string) (category : string)
    (keywords : list string) (text : string)
    (r : string * option string * option string) :
  medium_keywords lower category keywords text = Some r ->
  medium_result category = Some r.
Proof.
  induction keywords as [|kw keywords IH]; simpl; [done |].
  destruct (contains (lower kw) text); [| done].
  destruct (medium_result category) as [r' |] eqn:Hr; [| done].
  by intros [= ->].
Qed.

Lemma medium_rules_result (lower : string -> string)
    (rules : list (string * list string)) (text : string)
    (r : string * option string * option string) :
  medium_rules lower rules text = Some r ->
  exists category, medium_result category = Some r.
Proof.
  induction rules as [|[category keywords] rules IH]; simpl; [done |].
  destruct (medium_keywords lower category keywords text) as [r' |] eqn:Hk.
  - intros [= ->]. exists category. by eapply medium_keywords_result.
  - done.
Qed.

(** Every answer of [classify_news_priority] is one of five triples. *)
Lemma classify_news_priority_cases (lower : string -> string)
    (title summary : string) :
  classify_news_priority lower title summary ∈
    [ ("low", None, None);
      ("high", Some "traffic_impact", None);
      ("medium", Some "gaming", Some "gaming");
      ("medium", Some "traffic_impact", Some "holiday");
      ("medium", Some "traffic_impact", Some "school_calendar") ].
Proof.
  unfold classify_news_priority.
  repeat case_match; try by_evaluation.
  match goal with H : medium_rules _ _ _ = Some _ |- _ =>
    apply medium_rules_result in H as [category H] end.
  unfold medium_result in *.
  repeat case_match; simplify_eq; by_evaluation.
Qed.

(** The classifier itself assigns both fields together. *)
Lemma classify_news_priority_consistent (lower : string -> string)
    (title summary : string) :
  let '(_, news_type, category) := classify_news_priority lower title summary in
  consistent_result news_type category.
Proof.
  pose proof (classify_news_priority_cases lower title summary) as H.
  destruct (classify_news_priority lower title summary) as [[p nt] c].
  repeat (apply elem_of_cons in H as [H | H]; [simplify_eq; by split |]).
  by apply elem_of_nil in H.
Qed.

Lemma traffic_keywords_result (lower : string -> string) (category : string)
    (keywords : list string) (text : string)
    (r : bool * option string * option string * option string) :
  traffic_keywords lower category keywords text = Some r ->
  exists priority, r = (true, Some "traffic_impact", Some category, Some priority).
Proof.
  induction keywords as [|kw keywords IH]; simpl; [done |].
  destruct (contains (lower kw) text); [| done].
  intros [= <-]. eauto.
Qed.

Lemma traffic_groups_result (lower : string -> string)
    (groups : list (string * list string)) (text : string)
    (r : bool * option string * option string * option string) :
  traffic_groups lower groups text = Some r ->
  exists category priority,
    category ∈ groups.*1
    /\ r = (true, Some "traffic_impact", Some category, Some priority).
Proof.
  induction groups as [|[category keywords] groups IH]; simpl; [done |].
  destruct (traffic_keywords lower category keywords text) as [r' |] eqn:Hk.
  - intros [= ->]. apply traffic_keywords_result in Hk as [priority ->].
    exists category, priority. split; [left | done].
  - intros H. destruct (IH H) as (c & p & Hin & ->).
    exists c, p. split; [by right | done].
Qed.

(** So does the second path. *)
Lemma is_relevant_news_consistent (lower : string -> string)
    (title description : string) :
  let '(_, news_type, category, _) := is_relevant_news lower title description in
  consistent_result news_type category.
Proof.
  unfold is_relevant_news.
  repeat case_match; simplify_eq; try by split.
  match goal with H : traffic_groups _ _ _ = Some _ |- _ =>
    apply traffic_groups_result in H as (c & p & Hin & ?) end.
  simplify_eq. split; [done |]. intros _ [= ->].
  revert Hin. by_evaluation.
Qed.

(** ** Scenario A and the joint consistency of the constructed item *)

Lemma get_set_country (lower : string -> string) (keyword : string)
    (countries : list string) (news_item : dict) (k : string) :
  k <> "country" -> k <> "continent" ->
  get (set_country lower keyword countries news_item) k = get news_item k.
Proof.
  intros Hc Hk. unfold get.
  induction countries as [|country countries IH]; simpl; [done |].
  destruct (contains _ _); [| done].
  by rewrite !lookup_insert_ne.
Qed.

(** C1. The headline "Internet shutdown hits Jakarta" is classified
    [('high', 'traffic_impact', None)]; with no refinement adapter, an
    empty cache and no store, whatever the adapters would answer, the run
    adds exactly one row for it, whose [news_type] is [traffic_impact] and
    whose [category] is the constructor's fallback ['gaming'] (group
    [gaming_competitor]), not an unresolved value.  That row is what the
    run hands to [save_to_csv]; the exit code is 0 unless the write or
    the summary raises. *)
Theorem scenario_A_row_gets_gaming_category :
  classify_news_priority ascii_lower "Internet shutdown hits Jakarta" ""
    = ("high", Some "traffic_impact", None)
  /\ (forall fetch_from_groq refine_news_with_ai write_csv
             published_within_a_day generate_traffic_summary,
        main fetch_from_groq refine_news_with_ai no_adapter write_csv
          published_within_a_day generate_traffic_summary absent_store ∅
          jakarta_run
        = (match write_csv [jakarta_row] with
           | Raises _ => -1
           | Returns _ =>
               match generate_traffic_summary [jakarta_row] with
               | Returns _ => 0
               | Raises _ => -1
               end
           end%Z, [jakarta_row]))
  /\ get jakarta_row "news_type" = VStr "traffic_impact"
  /\ get jakarta_row "category" = VStr "gaming"
  /\ get jakarta_row "category_group" = VStr "gaming_competitor".
Proof.
  split; [by_evaluation |].
  split; [intros; vm_compute; reflexivity |].
  repeat split; by_evaluation.
Qed.

(** C2. Every feed entry that [classify_news_priority] rates
    [('high', 'traffic_impact', None)] becomes an item whose [news_type]
    is [traffic_impact] and whose [category] is ['gaming']: the item the
    RSS path constructs is not jointly consistent. *)
Theorem high_priority_rss_item_not_consistent (lower : string -> string)
    (keyword : string) (priority_countries : list string) (entry : rss_entry) :
  published_within_day entry = true ->
  classify_news_priority lower (clean_title entry) (clean_summary entry)
    = ("high", Some "traffic_impact", None) ->
  exists item,
    news_item_of_entry lower keyword priority_countries entry = Some item
    /\ get item "news_type" = VStr "traffic_impact"
    /\ get item "category" = VStr "gaming"
    /\ ~ jointly_consistent item.
Proof.
  intros Hday Hclass. unfold news_item_of_entry. rewrite Hday, Hclass. simpl.
  eexists. split; [reflexivity |].
  assert (forall item : dict,
    get item "news_type" = VStr "traffic_impact" ->
    get item "category" = VStr "gaming" ->
    get item "news_type" = VStr "traffic_impact"
    /\ get item "category" = VStr "gaming" /\ ~ jointly_consistent item) as Hbad.
  { intros item Ht Hc. repeat split; [done | done |].
    intros [_ H]. by apply H. }
  apply Hbad; rewrite get_set_country by done; by_evaluation.
Qed.

Lemma high_priority_rss_item_not_consistent_witness :
  exists item,
    news_item_of_entry ascii_lower "internet shutdown" [] jakarta_entry = Some item
    /\ get item "news_type" = VStr "traffic_impact"
    /\ get item "category" = VStr "gaming"
    /\ ~ jointly_consistent item.
Proof.
  apply (high_priority_rss_item_not_consistent ascii_lower
           "internet shutdown" [] jakarta_entry).
  - reflexivity.
  - vm_compute. reflexivity.
Defined.

(** ** The fallback category across the search stages of [main] *)

Lemma get_insert_eq (item : dict) (k : string) (v : value) :
  get (<[k := v]> item) k = v.
Proof. unfold get. by rewrite lookup_insert_eq. Qed.

Lemma get_insert_ne (item : dict) (k k' : string) (v : value) :
  k <> k' -> get (<[k := v]> item) k' = get item k'.
Proof. intros Hk. unfold get. by rewrite lookup_insert_ne. Qed.

(** The category an RSS item is built with is never a crisis category. *)
Lemma rss_item_category (lower : string -> string) (keyword : string)
    (priority_countries : list string) (entry : rss_entry) (item : dict) :
  news_item_of_entry lower keyword priority_countries entry = Some item ->
  in_strs (get item "category") crisis_categories = false.
Proof.
  unfold news_item_of_entry.
  destruct (published_within_day entry); [| done]. simpl.
  pose proof (classify_news_priority_cases lower
                (clean_title entry) (clean_summary entry)) as Hcases.
  destruct (classify_news_priority lower _ _) as [[priority news_type] category].
  destruct (String.eqb priority "low") eqn:Hlow; [done |].
  intros [= <-]. rewrite get_set_country by done.
  repeat (apply elem_of_cons in Hcases as [Hcases | Hcases];
          [by simplify_eq |]).
  by apply elem_of_nil in Hcases.
Qed.

(** In stage 1 of [main] the fallback is harmless: the searches for the
    gaming keywords retype every item they return. *)
Lemma stage1_items_consistent (lower : string -> string) (keyword : string)
    (priority_countries : list string) (entry : rss_entry) (item : dict) :
  news_item_of_entry lower keyword priority_countries entry = Some item ->
  jointly_consistent (tag_base_keyword item)
  /\ forall category, jointly_consistent (tag_gaming_keyword category item).
Proof.
  intros Hitem. apply rss_item_category in Hitem.
  split; [| intros tag]; split.
  - intros _. unfold tag_base_keyword. by rewrite get_insert_ne.
  - unfold tag_base_keyword. by rewrite get_insert_eq.
  - intros _. unfold tag_gaming_keyword. rewrite get_insert_eq.
    by case_bool_decide.
  - unfold tag_gaming_keyword. by rewrite get_insert_ne, get_insert_eq.
Qed.

(** In stage 2 nothing repairs it: the country tag leaves both fields as
    they are, and the traffic-impact searches add no tag at all. *)
Lemma stage2_items_keep_fields (country : string) (item : dict) :
  get (tag_country country item) "news_type" = get item "news_type"
  /\ get (tag_country country item) "category" = get item "category".
Proof. unfold tag_country. by rewrite !get_insert_ne. Qed.

(** The other two sources build consistent items: the second path stores
    the pair its classifier returns, and an unresolved article is filed
    under [other]. *)
Lemma naver_item_consistent (lower : string -> string)
    (date_str title description url : string) (item : dict) :
  naver_news_item lower date_str title description url = Some item ->
  jointly_consistent item.
Proof.
  unfold naver_news_item.
  pose proof (is_relevant_news_consistent lower title description) as Hcons.
  destruct (is_relevant_news lower title description)
    as [[[is_relevant news_type] category] priority].
  destruct is_relevant; [| done]. intros [= <-].
  match goal with |- jointly_consistent ?m => set (item := m) end.
  assert (get item "news_type" = of_option news_type) as Htype by reflexivity.
  assert (get item "category" = of_option category) as Hcat by reflexivity.
  clearbody item. unfold jointly_consistent. rewrite Htype, Hcat.
  destruct Hcons as [Hgaming Htraffic].
  split; intros H; destruct news_type as [news_type|]; try done;
    injection H as ->.
  - by apply Hgaming.
  - intros H. destruct category as [category|]; try done.
    injection H as ->. by apply Htraffic.
Qed.

Lemma deepsearch_item_consistent (date_str title summary url publisher : string) :
  jointly_consistent (deepsearch_news_item date_str title summary url publisher).
Proof. by split. Qed.

(** ** Merge against the persisted store *)

(** The set comprehension of [remove_duplicates], read back as a
    statement about the items of [existing_news]. *)
Lemma remove_duplicates_fresh (P N : list dict) :
  remove_duplicates P N = filter (fresh_url P) N.
Proof.
  unfold remove_duplicates. apply list_filter_iff. intros n.
  unfold fresh_url. rewrite elem_of_list_to_set, list_elem_of_fmap, Forall_forall.
  split.
  - intros Hnot p Hp Hurl Heq. apply Hnot. exists p.
    split; [done |]. by apply list_elem_of_filter.
  - intros Hfresh (p & Heq & Hp). apply list_elem_of_filter in Hp as [Hurl Hp].
    by apply (Hfresh p).
Qed.

Lemma filter_none {A : Type} (Q : A -> Prop) `{forall x, Decision (Q x)}
    (l : list A) :
  (forall x, x ∈ l -> ~ Q x) -> filter Q l = [].
Proof.
  induction l as [|x l IH]; intros Hl; [done |].
  rewrite filter_cons_False by (apply Hl; left).
  apply IH. intros y Hy. apply Hl. by right.
Qed.

Lemma fresh_url_app (P S : list dict) (n : dict) :
  fresh_url (P ++ S) n <-> fresh_url P n /\ fresh_url S n.
Proof. apply Forall_app. Qed.

Lemma url_less_is_fresh (P : list dict) (n : dict) :
  truthy (get n "url") = false -> fresh_url P n.
Proof.
  intros Hn. apply Forall_forall. intros p _ Hp Heq. congruence.
Qed.

(** C4, amended. When every new item carries a URL, merging the same new
    items a second time adds nothing: the second [remove_duplicates]
    returns the empty list. *)
Theorem second_merge_adds_nothing (P N : list dict) :
  Forall (fun n => truthy (get n "url") = true) N ->
  remove_duplicates (merge P N) N = [].
Proof.
  intros Hurls. rewrite remove_duplicates_fresh. apply filter_none.
  intros n Hn Hfresh. unfold merge in Hfresh.
  rewrite remove_duplicates_fresh in Hfresh.
  apply fresh_url_app in Hfresh as [HP HS].
  unfold fresh_url in HS. rewrite Forall_forall in HS.
  apply (HS n).
  - by apply list_elem_of_filter.
  - by apply (proj1 (Forall_forall _ _) Hurls).
  - done.
Qed.

Lemma second_merge_adds_nothing_witness :
  remove_duplicates (merge [kpop_row] [jakarta_row; kpop_row])
    [jakarta_row; kpop_row] = [].
Proof.
  apply (second_merge_adds_nothing [kpop_row] [jakarta_row; kpop_row]).
  repeat constructor.
Defined.

(** C4 as stated fails: an item without a URL is added again by every
    merge. *)
Lemma second_merge_adds_url_less_item :
  ~ (forall P N : list dict, remove_duplicates (merge P N) N = []).
Proof.
  intros H. specialize (H [] [linkless_item]). revert H. by_evaluation.
Qed.

(** C5, amended. The merge result is [P], unchanged and in place,
    followed by the items of [N], in their order, whose URL is not the
    URL of an item of [P] that has one; an item of [N] without a URL is
    always among them. *)
Theorem merge_appends_fresh_urls (P N : list dict) :
  merge P N = P ++ filter (fresh_url P) N
  /\ (forall n, truthy (get n "url") = false -> fresh_url P n).
Proof.
  split.
  - unfold merge. by rewrite remove_duplicates_fresh.
  - intros n. apply url_less_is_fresh.
Qed.

Lemma merge_appends_fresh_urls_witness :
  merge [kpop_row] [linkless_item; kpop_row; jakarta_row]
    = [kpop_row; linkless_item; jakarta_row]
  /\ fresh_url [kpop_row] linkless_item.
Proof.
  destruct (merge_appends_fresh_urls [kpop_row]
              [linkless_item; kpop_row; jakarta_row]) as [Heq Hfresh].
  split.
  - rewrite Heq. by_evaluation.
  - apply Hfresh. reflexivity.
Defined.

(** C5 as stated fails for every hash function: no content-hash key
    stands in for a missing URL, so an item without a URL that is already
    persisted is appended again. *)
Lemma merge_has_no_hash_identity :
  ~ (exists hash : string -> string,
       forall P N : list dict, merge P N = spec_merge hash P N).
Proof.
  intros [hash H]. specialize (H [linkless_item] [linkless_item]).
  assert (spec_merge hash [linkless_item] [linkless_item] = [linkless_item]) as Hspec.
  { unfold spec_merge. rewrite filter_cons_False; [done |].
    intros Hnot. apply Hnot. rewrite list_fmap_singleton. left. }
  rewrite Hspec in H. revert H. by_evaluation.
Qed.

(** Whatever the store holds, two new items with one URL are kept or
    dropped together: [remove_duplicates] never compares new items with
    each other. *)
Lemma batch_duplicates_share_fate (P : list dict) (a b : dict) :
  get a "url" = get b "url" ->
  remove_duplicates P [a; b] = [a; b] \/ remove_duplicates P [a; b] = [].
Proof.
  intros Hurl. rewrite remove_duplicates_fresh.
  assert (fresh_url P a <-> fresh_url P b) as Hiff
    by (unfold fresh_url; by rewrite Hurl).
  destruct (decide (fresh_url P a)) as [Ha | Ha].
  - left. rewrite filter_cons_True by done.
    rewrite filter_cons_True by (by apply Hiff). done.
  - right. rewrite filter_cons_False by done.
    rewrite filter_cons_False by (by rewrite <- Hiff). done.
Qed.

(** C6. Two searches of one run return the same article: the batch holds
    two items with one URL, the store does not know it, and both are in
    the list the run hands to [save_to_csv], whatever the write and the
    summary then answer. *)
Theorem same_batch_duplicates_both_persisted :
  forall fetch_from_groq refine_news_with_ai write_csv published_within_a_day
         generate_traffic_summary,
    url_count "https://news.example.com/jakarta-shutdown" jakarta_twice_run = 2
    /\ main fetch_from_groq refine_news_with_ai no_adapter write_csv
         published_within_a_day generate_traffic_summary absent_store ∅
         jakarta_twice_run
       = (match write_csv [tag_country "Indonesia" jakarta_row; jakarta_row] with
          | Raises _ => -1
          | Returns _ =>
              match generate_traffic_summary
                      [tag_country "Indonesia" jakarta_row; jakarta_row] with
              | Returns _ => 0
              | Raises _ => -1
              end
          end%Z, [tag_country "Indonesia" jakarta_row; jakarta_row])
    /\ url_count "https://news.example.com/jakarta-shutdown"
         [tag_country "Indonesia" jakarta_row; jakarta_row] = 2.
Proof.
  intros. split; [by_evaluation |]. split; [| by_evaluation].
  vm_compute. reflexivity.
Qed.

(** ** Cache key *)

Example linkless_item_is_built_by_rss :
  fetch_news_from_rss ascii_lower "Karachi flood" [] [linkless_entry]
  = [linkless_item].
Proof. by_evaluation. Qed.

Lemma append_empty_r (s : string) : s +:+ "" = s.
Proof.
  induction s as [|c s IH]; [done |].
  change (String c (s +:+ "") = String c s). by rewrite IH.
Qed.

(** C7, amended. The key under which [smart_refine_batch] looks an item
    up and stores it is [get_cache_key] of the title followed by the URL,
    each defaulting to the empty string; the summary takes no part in it,
    so the key of an item without a URL is the hash of its title alone. *)
Theorem cache_key_is_title_then_url (item : dict) (title url : string) :
  get_or item "title" (VStr "") = VStr title ->
  get_or item "url" (VStr "") = VStr url ->
  let key := get_cache_key (title +:+ url) in
  cache_key_of item = Returns key
  /\ (forall cache,
        restore_cached cache [item]
        = Returns [match cache !! key with
                   | Some cached => (update item cached, true)
                   | None => (item, false)
                   end])
  /\ (forall cache,
        update_cache cache [item] = Returns (<[key := cache_entry item]> cache))
  /\ (forall summary,
        cache_key_of (<["summary" := summary]> item) = Returns key)
  /\ (url = "" -> key = get_cache_key title).
Proof.
  intros Htitle Hurl key.
  assert (cache_key_of item = Returns key) as Hkey.
  { unfold cache_key_of. by rewrite Htitle, Hurl. }
  repeat split.
  - done.
  - intros cache. simpl. by rewrite Hkey.
  - intros cache. simpl. by rewrite Hkey.
  - intros summary. unfold cache_key_of, get_or.
    rewrite !lookup_insert_ne by done. apply Hkey.
  - intros ->. subst key. by rewrite append_empty_r.
Qed.

Lemma cache_key_is_title_then_url_witness :
  cache_key_of linkless_item
    = Returns (get_cache_key "Flood warning issued for Karachi")
  /\ cache_key_of (<["summary" := VStr "another summary"]> linkless_item)
     = Returns (get_cache_key "Flood warning issued for Karachi").
Proof.
  destruct (cache_key_is_title_then_url linkless_item
              "Flood warning issued for Karachi" "" eq_refl eq_refl)
    as (Hkey & _ & _ & Hsum & Hnone).
  rewrite <- Hnone by reflexivity. by split.
Defined.

(** C7 as stated fails: for an item without a URL the key is not the
    hash of title + summary. *)
Lemma cache_key_without_url_ignores_summary :
  ~ (forall item : dict, cache_key_of item = Returns (spec_cache_key item)).
Proof.
  intros H. specialize (H linkless_item). revert H. by_evaluation.
Qed.

Example cache_keys_of_linkless_item :
  cache_key_of linkless_item = Returns "7ca8a3847ad527c6"
  /\ spec_cache_key linkless_item = "7e3e7d5a02451281".
Proof. split; by_evaluation. Qed.

(** ** Category groups: the repair script and the core mapper *)

(** The two scripts hold the same static table. *)
Lemma group_tables_agree :
  fix_category_groups.outage_block = outage_block
  /\ fix_category_groups.social_crisis = social_crisis
  /\ fix_category_groups.seasonal_calendar = seasonal_calendar
  /\ fix_category_groups.gaming_competitor = gaming_competitor.
Proof. by repeat split. Qed.

Lemma repair_mapper_normalises (lower strip : string -> string) (c : string) :
  c <> "" ->
  fix_category_groups.map_to_group_category lower strip (VStr c)
  = map_to_group_category (VStr (lower (strip c))).
Proof.
  intros Hc. unfold fix_category_groups.map_to_group_category. simpl.
  by destruct (String.eqb_spec c "").
Qed.

(** C9, amended. On every category string that lower-casing and
    stripping leave unchanged the repair script's mapper and the core
    mapper return the same group. *)
Theorem repair_mapper_agrees_on_normalised (lower strip : string -> string)
    (c : string) :
  lower (strip c) = c ->
  fix_category_groups.map_to_group_category lower strip (VStr c)
  = map_to_group_category (VStr c).
Proof.
  intros Hnorm. destruct (String.eqb_spec c "") as [-> | Hc].
  - reflexivity.
  - by rewrite repair_mapper_normalises, Hnorm.
Qed.

Lemma repair_mapper_agrees_on_normalised_witness :
  fix_category_groups.map_to_group_category ascii_lower ascii_strip
    (VStr "school_calendar")
  = map_to_group_category (VStr "school_calendar").
Proof.
  apply (repair_mapper_agrees_on_normalised ascii_lower ascii_strip
           "school_calendar").
  reflexivity.
Defined.

(** Every category of the static table is in that normal form, and both
    mappers send it to its group. *)
Lemma table_categories_agree :
  Forall (fun c =>
            ascii_lower (ascii_strip c) = c
            /\ fix_category_groups.map_to_group_category
                 ascii_lower ascii_strip (VStr c)
               = map_to_group_category (VStr c)
            /\ map_to_group_category (VStr c) <> "other")
    (outage_block ++ social_crisis ++ seasonal_calendar ++ gaming_competitor).
Proof. by_evaluation. Qed.

(** C9 as stated fails: the repair script normalises its input first, so
    it maps ["Gaming"] to [gaming_competitor] where the core mapper
    answers [other]. *)
Lemma repair_mapper_differs_on_capitals :
  ~ (forall c : string,
       fix_category_groups.map_to_group_category ascii_lower ascii_strip (VStr c)
       = map_to_group_category (VStr c)).
Proof.
  intros H. specialize (H "Gaming"). revert H. by_evaluation.
Qed.

(** ** History of the persisted store *)

Lemma fix_row_backfilled (lower strip : string -> string) (row : dict) :
  backfilled row (fix_category_groups.fix_row lower strip row).
Proof.
  unfold fix_category_groups.fix_row.
  destruct (isna (get row "category_group")) eqn:Hna; simpl.
  - right. split; [by left | eauto].
  - case_bool_decide as Hblank.
    + right. split; [by right | eauto].
    + by left.
Qed.

Lemma clean_row_retyped (lower : string -> string) (row row' : dict) :
  clean_news.clean_row lower row = Some row' -> retyped row row'.
Proof.
  unfold clean_news.clean_row, retyped.
  repeat case_match; intros [= <-]; eauto.
Qed.

Lemma clean_row_unfold (lower : string -> string) (row : dict) :
  clean_news.clean_row lower row =
  if clean_news.should_exclude lower (row_title row) (row_summary row) then None
  else if String.eqb (row_news_type row) "gaming"
          && negb (clean_news.is_valid_gaming_news lower
                     (row_title row) (row_summary row)) then
    if clean_news.is_valid_traffic_news lower (row_title row) (row_summary row)
    then Some (<["news_type" := VStr "traffic_impact"]> row)
    else None
  else if String.eqb (row_news_type row) "" || String.eqb (row_news_type row) "nan"
  then
    if clean_news.is_valid_gaming_news lower (row_title row) (row_summary row)
    then Some (<["news_type" := VStr "gaming"]> row)
    else if clean_news.is_valid_traffic_news lower (row_title row) (row_summary row)
    then Some (<["news_type" := VStr "traffic_impact"]> row)
    else None
  else Some row.
Proof. reflexivity. Qed.

(** [clean_news] deletes a row exactly when [deleted_by_clean_news]
    says so. *)
Lemma clean_row_deletes_criterion (lower : string -> string) (row : dict) :
  clean_news.clean_row lower row = None <-> deleted_by_clean_news lower row.
Proof.
  unfold deleted_by_clean_news.
  rewrite clean_row_unfold, !elem_of_cons, elem_of_nil.
  generalize (clean_news.should_exclude lower (row_title row) (row_summary row)),
    (clean_news.is_valid_gaming_news lower (row_title row) (row_summary row)),
    (clean_news.is_valid_traffic_news lower (row_title row) (row_summary row)).
  intros excl gaming traffic.
  destruct excl; [by split; auto |].
  destruct (String.eqb_spec (row_news_type row) "gaming") as [Hg | Hg];
    destruct (String.eqb_spec (row_news_type row) "") as [He | He];
    destruct (String.eqb_spec (row_news_type row) "nan") as [Hn | Hn];
    try congruence;
    destruct gaming, traffic; cbn [andb orb negb];
    (split;
     [ first [ discriminate | intros _; right; tauto ]
     | first [ reflexivity
             | intros [Hx | (Ht & Hx & Hy)];
               first [ discriminate Hx | discriminate Hy | tauto ] ] ]).
Qed.

Lemma clean_news_deletes_and_retypes (lower : string -> string)
    (store : list dict) :
  Forall2 retyped
    (filter (fun row => ~ deleted_by_clean_news lower row) store)
    (clean_news.clean_news lower store).
Proof.
  unfold clean_news.clean_news.
  induction store as [|row store IH]; [constructor |].
  cbn [omap list_omap].
  destruct (clean_news.clean_row lower row) as [row' |] eqn:Hrow.
  - rewrite filter_cons_True.
    + constructor; [by eapply clean_row_retyped | done].
    + intros Hdel. apply clean_row_deletes_criterion in Hdel. congruence.
  - rewrite filter_cons_False; [done |].
    intros Hkeep. by apply Hkeep, clean_row_deletes_criterion.
Qed.

(** C8, amended. What each operation does to the rows already in the
    store: the merge of [fetch_news] keeps them all, unchanged and in
    place, before what it appends; the backfill changes nothing but a
    blank [category_group]; [clean_news] deletes exactly the rows that
    hold an exclusion keyword or fail its relevance checks
    ([deleted_by_clean_news]), keeps the others in their order, and may
    rewrite their [news_type], and nothing else. *)
Theorem store_history_by_operation (lower strip : string -> string)
    (op : operation) (store : list dict) :
  match op with
  | FetchNews _ => store `prefix_of` run lower strip op store
  | FixCategoryGroups => Forall2 backfilled store (run lower strip op store)
  | CleanNews =>
      Forall2 retyped
        (filter (fun row => ~ deleted_by_clean_news lower row) store)
        (run lower strip op store)
  end.
Proof.
  destruct op as [N | |]; simpl.
  - unfold merge. by eexists.
  - unfold fix_category_groups.main. apply Forall2_fmap_r, Forall_Forall2_diag.
    apply Forall_forall. intros row _. apply fix_row_backfilled.
  - apply clean_news_deletes_and_retypes.
Qed.

(** C8 as stated fails: [clean_news] deletes a persisted row. *)
Lemma clean_news_deletes_persisted_row :
  ~ (forall op, immutable_history ascii_lower ascii_strip op).
Proof.
  intros H. specialize (H CleanNews [kpop_row]).
  change ([kpop_row] `prefix_of` clean_news.clean_news ascii_lower [kpop_row]) in H.
  assert (clean_news.clean_news ascii_lower [kpop_row] = []) as Hgone
    by by_evaluation.
  rewrite Hgone in H. destruct H as [k Hk]. discriminate Hk.
Qed.

(** It also edits one: the row stays, with another [news_type]. *)
Example clean_news_rewrites_news_type :
  clean_news.clean_news ascii_lower [quake_row]
  = [<["news_type" := VStr "traffic_impact"]> quake_row]
  /\ <["news_type" := VStr "traffic_impact"]> quake_row <> quake_row.
Proof. split; by_evaluation. Qed.

(** ** Loading the persisted store *)

(** The load raises exactly what the existence check raises. *)
Lemma load_existing_news_raises (NEWS_CSV : csv_file) (e : exn) :
  load_existing_news NEWS_CSV = Raises e <-> exists_ NEWS_CSV = Raises e.
Proof.
  unfold load_existing_news.
  destruct (exists_ NEWS_CSV) as [[|]|e']; [| done | split; congruence].
  by destruct (read_csv NEWS_CSV).
Qed.

Lemma filter_all {A : Type} (Q : A -> Prop) `{forall x, Decision (Q x)}
    (l : list A) :
  (forall x, Q x) -> filter Q l = l.
Proof.
  intros HQ. induction l as [|x l IH]; [done |].
  rewrite filter_cons_True by done. by rewrite IH.
Qed.

Lemma remove_duplicates_empty_store (N : list dict) :
  remove_duplicates [] N = N.
Proof.
  rewrite remove_duplicates_fresh. apply filter_all. intros n. constructor.
Qed.

Lemma recent_news_returns (published_within_a_day : value -> outcome bool)
    (all_news : list dict) :
  (forall v, exists recent, published_within_a_day v = Returns recent) ->
  exists recent, recent_news published_within_a_day all_news = Returns recent.
Proof.
  intros Hday. induction all_news as [|n all_news [recent IH]]; simpl;
    [by eexists |].
  destruct (truthy (get n "published_date")); [| by eexists].
  destruct (Hday (get n "published_date")) as [b ->]. rewrite IH. by eexists.
Qed.

(** What does hold: when [news.csv] does not exist, or exists and
    reading it raises, the load returns the empty list and the run goes
    on exactly as a run without a store: whatever the refinement stage
    returns is the whole list handed on, and the exit code is that of
    the write and the summary, 0 or 1 when these succeed. *)
Lemma missing_or_corrupt_store_is_empty_history (NEWS_CSV : csv_file) :
  exists_ NEWS_CSV = Returns false
  \/ (exists_ NEWS_CSV = Returns true /\ exists e, read_csv NEWS_CSV = Raises e) ->
  load_existing_news NEWS_CSV = Returns []
  /\ forall fetch_from_groq refine_news_with_ai env write_csv
            published_within_a_day generate_traffic_summary cache all_raw_news,
       main fetch_from_groq refine_news_with_ai env write_csv
         published_within_a_day generate_traffic_summary NEWS_CSV cache
         all_raw_news
       = main fetch_from_groq refine_news_with_ai env write_csv
           published_within_a_day generate_traffic_summary absent_store cache
           all_raw_news
       /\ forall all_refined_news cache',
            refine_all fetch_from_groq refine_news_with_ai env cache all_raw_news
              = Returns (all_refined_news, cache') ->
            main fetch_from_groq refine_news_with_ai env write_csv
              published_within_a_day generate_traffic_summary NEWS_CSV cache
              all_raw_news
            = (save_and_summarise write_csv published_within_a_day
                 generate_traffic_summary [] all_refined_news,
               all_refined_news)
            /\ ((forall all_news, write_csv all_news = Returns tt) ->
                (forall v, exists recent,
                   published_within_a_day v = Returns recent) ->
                (forall news_list,
                   generate_traffic_summary news_list = Returns tt) ->
                save_and_summarise write_csv published_within_a_day
                  generate_traffic_summary [] all_refined_news
                = (if bool_decide (all_refined_news = []) then 1 else 0)%Z).
Proof.
  intros Hbad.
  assert (load_existing_news NEWS_CSV = Returns []) as Hload.
  { unfold load_existing_news.
    by destruct Hbad as [-> | (-> & e & ->)]. }
  split; [done |].
  intros groq refine env write_csv within summary cache raw.
  split; [unfold main; by rewrite Hload |].
  intros refined cache' Hrefine. split.
  - unfold main. by rewrite Hload, Hrefine, remove_duplicates_empty_store.
  - intros Hwrite Hday Hsummary. unfold save_and_summarise, save_to_csv.
    destruct refined as [|n refined]; [by rewrite Hsummary |].
    rewrite Hwrite. cbv zeta.
    destruct (recent_news_returns within ([] ++ n :: refined) Hday)
      as [recent ->].
    by rewrite Hsummary.
Qed.

Example corrupt_and_absent_stores_load_empty :
  load_existing_news corrupt_store = Returns []
  /\ load_existing_news absent_store = Returns [].
Proof.
  split.
  - apply (missing_or_corrupt_store_is_empty_history corrupt_store).
    right. split; [reflexivity |]. exists ParserError. reflexivity.
  - apply (missing_or_corrupt_store_is_empty_history absent_store).
    left. reflexivity.
Qed.

(** C10. A store whose existence check raises cannot be read, yet the
    load does not return the empty list: it raises what the check
    raised, and the run ends there with exit code -1, whatever was
    gathered and whatever the adapters, the write and the summary would
    do.  So it is not true that every store that cannot be read counts
    as an empty history. *)
Theorem store_check_failure_aborts_the_run :
  unreadable locked_store
  /\ load_existing_news locked_store = Raises PermissionError
  /\ (forall fetch_from_groq refine_news_with_ai env write_csv
             published_within_a_day generate_traffic_summary cache all_raw_news,
        main fetch_from_groq refine_news_with_ai env write_csv
          published_within_a_day generate_traffic_summary locked_store cache
          all_raw_news
        = ((-1)%Z, []))
  /\ ~ read_failure_is_never_fatal.
Proof.
  assert (unreadable locked_store) as Hbad by (by left).
  split; [done |]. split; [reflexivity |]. split; [intros; reflexivity |].
  intros H. specialize (H locked_store Hbad). discriminate H.
Qed.

(** * Further properties of the scripts *)

(** ** The two classifiers as decision lists *)

Lemma some_keyword_occurs_spec (lower : string -> string) (kws : list string)
    (text : string) :
  any_keyword_in lower kws text = true <-> some_keyword_occurs lower kws text.
Proof. apply any_keyword_in_spec. Qed.

Lemma no_keyword_occurs_spec (lower : string -> string) (kws : list string)
    (text : string) :
  any_keyword_in lower kws text = false <-> ~ some_keyword_occurs lower kws text.
Proof.
  rewrite <- some_keyword_occurs_spec.
  destruct (any_keyword_in lower kws text); split; done.
Qed.

(** The country loop never decides anything: it returns only where the
    scan of the critical keywords has already returned. *)
Lemma country_with_critical_needs_critical (lower : string -> string)
    (countries : list string) (text : string) :
  country_with_critical lower countries text = true ->
  any_keyword_in lower (table HIGH_PRIORITY_KEYWORDS "critical") text = true.
Proof.
  induction countries as [|country countries IH]; [done |].
  cbn [country_with_critical].
  destruct (contains (lower country) text); [| done].
  by destruct (any_keyword_in lower (table HIGH_PRIORITY_KEYWORDS "critical") text).
Qed.

Lemma medium_keywords_any (lower : string -> string) (category : string)
    (keywords : list string) (text : string)
    (r : string * option string * option string) :
  medium_result category = Some r ->
  medium_keywords lower category keywords text
  = if any_keyword_in lower keywords text then Some r else None.
Proof.
  intros Hr. induction keywords as [|kw keywords IH]; simpl; [done |].
  destruct (contains (lower kw) text); [by rewrite Hr | done].
Qed.

Lemma classify_news_priority_decision_list (lower : string -> string)
    (title summary : string) :
  classify_news_priority lower title summary =
  let text := scanned_text lower title summary in
  if any_keyword_in lower EXCLUDE_PATTERNS text then ("low", None, None)
  else if any_keyword_in lower (table HIGH_PRIORITY_KEYWORDS "critical") text
  then ("high", Some "traffic_impact", None)
  else if any_keyword_in lower (table MEDIUM_RULES "gaming") text
  then ("medium", Some "gaming", Some "gaming")
  else if any_keyword_in lower (table MEDIUM_RULES "holiday") text
  then ("medium", Some "traffic_impact", Some "holiday")
  else if any_keyword_in lower (table MEDIUM_RULES "school") text
  then ("medium", Some "traffic_impact", Some "school_calendar")
  else ("low", None, None).
Proof.
  unfold classify_news_priority, scanned_text. cbv zeta.
  set (text := lower (title +:+ " " +:+ summary)).
  destruct (any_keyword_in lower EXCLUDE_PATTERNS text); [done |].
  destruct (any_keyword_in lower (table HIGH_PRIORITY_KEYWORDS "critical") text)
    eqn:Hcritical; [done |].
  destruct (country_with_critical lower _ text) eqn:Hcountry.
  { apply country_with_critical_needs_critical in Hcountry. congruence. }
  change (medium_rules lower MEDIUM_RULES text) with
    (match medium_keywords lower "gaming" (table MEDIUM_RULES "gaming") text with
     | Some r => Some r
     | None =>
         match medium_keywords lower "holiday" (table MEDIUM_RULES "holiday") text with
         | Some r => Some r
         | None =>
             match medium_keywords lower "school" (table MEDIUM_RULES "school") text with
             | Some r => Some r
             | None => None
             end
         end
     end).
  rewrite (medium_keywords_any lower "gaming" _ text _ eq_refl).
  rewrite (medium_keywords_any lower "holiday" _ text _ eq_refl).
  rewrite (medium_keywords_any lower "school" _ text _ eq_refl).
  destruct (any_keyword_in lower (table MEDIUM_RULES "gaming") text); [done |].
  destruct (any_keyword_in lower (table MEDIUM_RULES "holiday") text); [done |].
  by destruct (any_keyword_in lower (table MEDIUM_RULES "school") text).
Qed.

(** X1. [classify_news_priority] rates an article ['high'] exactly when
    no exclusion pattern and some critical keyword occurs in its text;
    the names of the watched countries and cities play no part. *)
Theorem classify_high_iff (lower : string -> string) (title summary : string) :
  fst (fst (classify_news_priority lower title summary)) = "high"
  <-> ~ some_keyword_occurs lower EXCLUDE_PATTERNS
          (scanned_text lower title summary)
      /\ some_keyword_occurs lower (table HIGH_PRIORITY_KEYWORDS "critical")
           (scanned_text lower title summary).
Proof.
  rewrite classify_news_priority_decision_list. cbv zeta.
  rewrite <- no_keyword_occurs_spec, <- some_keyword_occurs_spec.
  repeat case_match; simpl; split; try done; by intros [? ?].
Qed.

(** X2. [classify_news_priority] rates an article ['low'] exactly when an
    exclusion pattern occurs in its text, or no critical keyword and no
    keyword of the three medium groups does. *)
Theorem classify_low_iff (lower : string -> string) (title summary : string) :
  fst (fst (classify_news_priority lower title summary)) = "low"
  <-> some_keyword_occurs lower EXCLUDE_PATTERNS
        (scanned_text lower title summary)
      \/ (~ some_keyword_occurs lower (table HIGH_PRIORITY_KEYWORDS "critical")
              (scanned_text lower title summary)
          /\ forall group, group ∈ MEDIUM_RULES ->
               ~ some_keyword_occurs lower group.2
                   (scanned_text lower title summary)).
Proof.
  rewrite classify_news_priority_decision_list. cbv zeta.
  set (text := scanned_text lower title summary).
  rewrite <- some_keyword_occurs_spec, <- no_keyword_occurs_spec.
  assert ((forall group, group ∈ MEDIUM_RULES ->
             ~ some_keyword_occurs lower group.2 text)
          <-> any_keyword_in lower (table MEDIUM_RULES "gaming") text = false
              /\ any_keyword_in lower (table MEDIUM_RULES "holiday") text = false
              /\ any_keyword_in lower (table MEDIUM_RULES "school") text = false)
    as ->.
  { rewrite !no_keyword_occurs_spec. split.
    - intros H. repeat split.
      + apply (H ("gaming", table MEDIUM_RULES "gaming")). by_evaluation.
      + apply (H ("holiday", table MEDIUM_RULES "holiday")). by_evaluation.
      + apply (H ("school", table MEDIUM_RULES "school")). by_evaluation.
    - intros (Hg & Hh & Hs) group Hin.
      repeat (apply elem_of_cons in Hin as [-> | Hin]; [done |]).
      by apply elem_of_nil in Hin. }
  destruct (any_keyword_in lower EXCLUDE_PATTERNS text); [by split; auto |].
  repeat case_match; simpl; split; try done;
    try (intros [? | (? & ? & ? & ?)]; done); auto.
Qed.

(** X3. Among the medium rules the order of the groups decides: a gaming
    keyword wins over a holiday or school keyword, and a holiday keyword
    over a school keyword. *)
Theorem medium_groups_in_order (lower : string -> string) (title summary : string) :
  ~ some_keyword_occurs lower EXCLUDE_PATTERNS (scanned_text lower title summary) ->
  ~ some_keyword_occurs lower (table HIGH_PRIORITY_KEYWORDS "critical")
      (scanned_text lower title summary) ->
  (some_keyword_occurs lower (table MEDIUM_RULES "gaming")
     (scanned_text lower title summary)
   -> classify_news_priority lower title summary
      = ("medium", Some "gaming", Some "gaming"))
  /\ (~ some_keyword_occurs lower (table MEDIUM_RULES "gaming")
          (scanned_text lower title summary)
      -> some_keyword_occurs lower (table MEDIUM_RULES "holiday")
           (scanned_text lower title summary)
      -> classify_news_priority lower title summary
         = ("medium", Some "traffic_impact", Some "holiday")).
Proof.
  intros Hexcl Hcrit.
  apply no_keyword_occurs_spec in Hexcl, Hcrit.
  rewrite classify_news_priority_decision_list. cbv zeta.
  rewrite Hexcl, Hcrit. split.
  - intros Hg. apply some_keyword_occurs_spec in Hg. by rewrite Hg.
  - intros Hg Hh. apply no_keyword_occurs_spec in Hg.
    apply some_keyword_occurs_spec in Hh. by rewrite Hg, Hh.
Qed.

Lemma medium_groups_in_order_witness :
  classify_news_priority ascii_lower "PUBG school holiday special" ""
    = ("medium", Some "gaming", Some "gaming")
  /\ classify_news_priority ascii_lower "School holiday and public holiday dates" ""
     = ("medium", Some "traffic_impact", Some "holiday").
Proof.
  split.
  - apply (medium_groups_in_order ascii_lower "PUBG school holiday special" "").
    + apply no_keyword_occurs_spec. vm_compute. reflexivity.
    + apply no_keyword_occurs_spec. vm_compute. reflexivity.
    + apply some_keyword_occurs_spec. vm_compute. reflexivity.
  - apply (medium_groups_in_order ascii_lower
             "School holiday and public holiday dates" "").
    + apply no_keyword_occurs_spec. vm_compute. reflexivity.
    + apply no_keyword_occurs_spec. vm_compute. reflexivity.
    + apply no_keyword_occurs_spec. vm_compute. reflexivity.
    + apply some_keyword_occurs_spec. vm_compute. reflexivity.
Defined.

Lemma traffic_keywords_any (lower : string -> string) (category : string)
    (keywords : list string) (text : string) :
  traffic_keywords lower category keywords text
  = if any_keyword_in lower keywords text
    then Some (true, Some "traffic_impact", Some category,
               Some (if bool_decide (category ∈ ["disaster"; "conflict"; "outage"])
                     then "high" else "medium"))
    else None.
Proof.
  induction keywords as [|kw keywords IH]; simpl; [done |].
  by destruct (contains (lower kw) text).
Qed.

Lemma is_relevant_news_decision_list (lower : string -> string)
    (title description : string) :
  is_relevant_news lower title description =
  let text := scanned_text lower title description in
  if any_keyword_in lower NEGATIVE_KEYWORDS text then (false, None, None, None)
  else if any_keyword_in lower GAMING_REQUIRED_KEYWORDS text
  then (true, Some "gaming", Some "gaming", Some "medium")
  else if any_keyword_in lower (table TRAFFIC_IMPACT_KEYWORDS "disaster") text
  then (true, Some "traffic_impact", Some "disaster", Some "high")
  else if any_keyword_in lower (table TRAFFIC_IMPACT_KEYWORDS "conflict") text
  then (true, Some "traffic_impact", Some "conflict", Some "high")
  else if any_keyword_in lower (table TRAFFIC_IMPACT_KEYWORDS "outage") text
  then (true, Some "traffic_impact", Some "outage", Some "high")
  else if any_keyword_in lower (table TRAFFIC_IMPACT_KEYWORDS "holiday") text
  then (true, Some "traffic_impact", Some "holiday", Some "medium")
  else (false, None, None, None).
Proof.
  unfold is_relevant_news, scanned_text. cbv zeta.
  set (text := lower (title +:+ " " +:+ description)).
  destruct (any_keyword_in lower NEGATIVE_KEYWORDS text); [done |].
  destruct (any_keyword_in lower GAMING_REQUIRED_KEYWORDS text); [done |].
  change (traffic_groups lower TRAFFIC_IMPACT_KEYWORDS text) with
    (match traffic_keywords lower "disaster"
             (table TRAFFIC_IMPACT_KEYWORDS "disaster") text with
     | Some r => Some r
     | None =>
     match traffic_keywords lower "conflict"
             (table TRAFFIC_IMPACT_KEYWORDS "conflict") text with
     | Some r => Some r
     | None =>
     match traffic_keywords lower "outage"
             (table TRAFFIC_IMPACT_KEYWORDS "outage") text with
     | Some r => Some r
     | None =>
     match traffic_keywords lower "holiday"
             (table TRAFFIC_IMPACT_KEYWORDS "holiday") text with
     | Some r => Some r
     | None => None
     end end end end).
  rewrite !traffic_keywords_any.
  destruct (any_keyword_in lower (table TRAFFIC_IMPACT_KEYWORDS "disaster") text);
    [done |].
  destruct (any_keyword_in lower (table TRAFFIC_IMPACT_KEYWORDS "conflict") text);
    [done |].
  destruct (any_keyword_in lower (table TRAFFIC_IMPACT_KEYWORDS "outage") text);
    [done |].
  by destruct (any_keyword_in lower (table TRAFFIC_IMPACT_KEYWORDS "holiday") text).
Qed.

(** X4. [is_relevant_news] keeps an article exactly when no negative
    keyword occurs in its text and a gaming keyword or a keyword of one of
    the four traffic groups does. *)
Theorem is_relevant_iff (lower : string -> string) (title description : string) :
  fst (fst (fst (is_relevant_news lower title description))) = true
  <-> ~ some_keyword_occurs lower NEGATIVE_KEYWORDS
          (scanned_text lower title description)
      /\ (some_keyword_occurs lower GAMING_REQUIRED_KEYWORDS
            (scanned_text lower title description)
          \/ exists group, group ∈ TRAFFIC_IMPACT_KEYWORDS
               /\ some_keyword_occurs lower group.2
                    (scanned_text lower title description)).
Proof.
  rewrite is_relevant_news_decision_list. cbv zeta.
  set (text := scanned_text lower title description).
  rewrite <- no_keyword_occurs_spec, <- some_keyword_occurs_spec.
  assert ((exists group, group ∈ TRAFFIC_IMPACT_KEYWORDS
             /\ some_keyword_occurs lower group.2 text)
          <-> any_keyword_in lower (table TRAFFIC_IMPACT_KEYWORDS "disaster") text = true
              \/ any_keyword_in lower (table TRAFFIC_IMPACT_KEYWORDS "conflict") text = true
              \/ any_keyword_in lower (table TRAFFIC_IMPACT_KEYWORDS "outage") text = true
              \/ any_keyword_in lower (table TRAFFIC_IMPACT_KEYWORDS "holiday") text = true)
    as ->.
  { rewrite !some_keyword_occurs_spec. split.
    - intros (group & Hin & Hocc).
      repeat (apply elem_of_cons in Hin as [-> | Hin]; [by auto |]).
      by apply elem_of_nil in Hin.
    - intros [H | [H | [H | H]]].
      + exists ("disaster", table TRAFFIC_IMPACT_KEYWORDS "disaster").
        split; [by_evaluation | done].
      + exists ("conflict", table TRAFFIC_IMPACT_KEYWORDS "conflict").
        split; [by_evaluation | done].
      + exists ("outage", table TRAFFIC_IMPACT_KEYWORDS "outage").
        split; [by_evaluation | done].
      + exists ("holiday", table TRAFFIC_IMPACT_KEYWORDS "holiday").
        split; [by_evaluation | done]. }
  destruct (any_keyword_in lower NEGATIVE_KEYWORDS text); [by split; [| intros []] |].
  destruct (any_keyword_in lower GAMING_REQUIRED_KEYWORDS text); [by split; auto |].
  repeat case_match; simpl; split; try done; auto 10;
    intros [_ [? | [? | [? | [? | ?]]]]]; done.
Qed.

(** X5. [is_relevant_news] gives priority ['high'] exactly when no
    negative keyword and no gaming keyword occurs and a disaster,
    conflict or outage keyword does: a gaming keyword in the text turns
    an outage article into a medium gaming article. *)
Theorem is_relevant_high_iff (lower : string -> string)
    (title description : string) :
  snd (is_relevant_news lower title description) = Some "high"
  <-> ~ some_keyword_occurs lower NEGATIVE_KEYWORDS
          (scanned_text lower title description)
      /\ ~ some_keyword_occurs lower GAMING_REQUIRED_KEYWORDS
             (scanned_text lower title description)
      /\ exists category, category ∈ ["disaster"; "conflict"; "outage"]
           /\ some_keyword_occurs lower (table TRAFFIC_IMPACT_KEYWORDS category)
                (scanned_text lower title description).
Proof.
  rewrite is_relevant_news_decision_list. cbv zeta.
  set (text := scanned_text lower title description).
  rewrite <- !no_keyword_occurs_spec.
  assert ((exists category, category ∈ ["disaster"; "conflict"; "outage"]
             /\ some_keyword_occurs lower (table TRAFFIC_IMPACT_KEYWORDS category) text)
          <-> any_keyword_in lower (table TRAFFIC_IMPACT_KEYWORDS "disaster") text = true
              \/ any_keyword_in lower (table TRAFFIC_IMPACT_KEYWORDS "conflict") text = true
              \/ any_keyword_in lower (table TRAFFIC_IMPACT_KEYWORDS "outage") text = true)
    as ->.
  { rewrite !some_keyword_occurs_spec. split.
    - intros (category & Hin & Hocc).
      repeat (apply elem_of_cons in Hin as [-> | Hin]; [by auto |]).
      by apply elem_of_nil in Hin.
    - intros [H | [H | H]].
      + exists "disaster". split; [by_evaluation | done].
      + exists "conflict". split; [by_evaluation | done].
      + exists "outage". split; [by_evaluation | done]. }
  destruct (any_keyword_in lower NEGATIVE_KEYWORDS text); [by split; [| intros []] |].
  destruct (any_keyword_in lower GAMING_REQUIRED_KEYWORDS text);
    [by split; [| intros (_ & ? & _)] |].
  repeat case_match; simpl; split; try done; auto 10;
    intros (_ & _ & [? | [? | ?]]); done.
Qed.

(** ** The category groups *)

(** X6. [map_to_group_category] returns one of the five group names; the
    four lists are pairwise disjoint, so a category is sent to a group
    exactly when it is in that group's list, and to ['other'] exactly
    when it is in none (or is no string at all). *)
Theorem group_of_category (detail_category : value) :
  map_to_group_category detail_category ∈ group_names
  /\ (forall s, detail_category = VStr s ->
        (map_to_group_category detail_category = "outage_block"
         <-> s ∈ outage_block)
        /\ (map_to_group_category detail_category = "social_crisis"
            <-> s ∈ social_crisis)
        /\ (map_to_group_category detail_category = "seasonal_calendar"
            <-> s ∈ seasonal_calendar)
        /\ (map_to_group_category detail_category = "gaming_competitor"
            <-> s ∈ gaming_competitor))
  /\ (map_to_group_category detail_category = "other"
      <-> forall s, detail_category = VStr s ->
            s ∉ outage_block ++ social_crisis ++ seasonal_calendar
                ++ gaming_competitor).
Proof.
  destruct detail_category as [| | b | s].
  1-3: split; [try destruct b; by_evaluation |];
       split; [intros s' Hs; discriminate Hs |];
       split; [intros _ s' Hs; discriminate Hs | intros _; by destruct b || idtac].
  unfold map_to_group_category, in_strs.
  assert (forall l1 l2 : list string,
            Forall (fun x => x ∉ l2) l1 -> s ∈ l1 -> s ∈ l2 -> False) as Hdisj.
  { intros l1 l2 Hall H1 H2. by apply (proj1 (Forall_forall _ _) Hall s). }
  assert (s ∈ outage_block -> s ∈ social_crisis -> False) as H12
    by (apply Hdisj; by_evaluation).
  assert (s ∈ outage_block -> s ∈ seasonal_calendar -> False) as H13
    by (apply Hdisj; by_evaluation).
  assert (s ∈ outage_block -> s ∈ gaming_competitor -> False) as H14
    by (apply Hdisj; by_evaluation).
  assert (s ∈ social_crisis -> s ∈ seasonal_calendar -> False) as H23
    by (apply Hdisj; by_evaluation).
  assert (s ∈ social_crisis -> s ∈ gaming_competitor -> False) as H24
    by (apply Hdisj; by_evaluation).
  assert (s ∈ seasonal_calendar -> s ∈ gaming_competitor -> False) as H34
    by (apply Hdisj; by_evaluation).
  repeat case_bool_decide.
  all: split; [by_evaluation |].
  all: split;
    [ intros s' [= <-]; repeat split; try done; intros; exfalso; eauto
    | split;
      [ try done; intros _ s' [= <-]; rewrite !elem_of_app; tauto
      | try done; intros Hnone; exfalso;
        apply (Hnone s eq_refl); rewrite !elem_of_app; tauto ] ].
Qed.

(** ** The repair script *)

Lemma repair_mapper_range (lower strip : string -> string) (v : value) :
  fix_category_groups.map_to_group_category lower strip v ∈ group_names.
Proof.
  unfold fix_category_groups.map_to_group_category.
  repeat case_match; by_evaluation.
Qed.

Lemma fix_row_not_blank (lower strip : string -> string) (row : dict) :
  ~ blank_group (fix_category_groups.fix_row lower strip row).
Proof.
  unfold fix_category_groups.fix_row, blank_group.
  destruct (isna (get row "category_group")
            || bool_decide (get row "category_group" = VStr "")) eqn:Hblank.
  - rewrite get_insert_eq.
    pose proof (repair_mapper_range lower strip
                  (get_or row "category" (VStr "other"))) as Hin.
    intros [H | [= H]]; [done |]. rewrite H in Hin. revert Hin. by_evaluation.
  - apply orb_false_iff in Hblank as [Hna Hempty].
    apply bool_decide_eq_false in Hempty. intros [H | H]; congruence.
Qed.

Lemma fix_row_fixed (lower strip : string -> string) (row : dict) :
  ~ blank_group row -> fix_category_groups.fix_row lower strip row = row.
Proof.
  intros Hnot. unfold fix_category_groups.fix_row.
  destruct (isna (get row "category_group")) eqn:Hna;
    [exfalso; apply Hnot; by left |].
  case_bool_decide; [exfalso; apply Hnot; by right | done].
Qed.

(** X7. After the repair script has run no row has a blank
    [category_group], and a second run changes nothing. *)
Theorem repair_fills_every_group_once (lower strip : string -> string)
    (df : list dict) :
  Forall (fun row => ~ blank_group row) (fix_category_groups.main lower strip df)
  /\ fix_category_groups.main lower strip (fix_category_groups.main lower strip df)
     = fix_category_groups.main lower strip df.
Proof.
  unfold fix_category_groups.main. split.
  - apply Forall_fmap, Forall_forall. intros row _. apply fix_row_not_blank.
  - rewrite <- list_fmap_compose. apply list_fmap_ext. intros i row _. simpl.
    apply fix_row_fixed, fix_row_not_blank.
Qed.

(** ** The cleaning script *)

Lemma clean_row_reads (row : dict) (v : value) :
  row_title (<["news_type" := v]> row) = row_title row
  /\ row_summary (<["news_type" := v]> row) = row_summary row
  /\ row_news_type (<["news_type" := v]> row) = py_str v.
Proof.
  unfold row_title, row_summary, row_news_type, get_or. repeat split.
  - by rewrite lookup_insert_ne.
  - by rewrite lookup_insert_ne.
  - by rewrite lookup_insert_eq.
Qed.

Lemma clean_row_cleaned (lower : string -> string) (row row' : dict) :
  clean_news.clean_row lower row = Some row' -> cleaned lower row'.
Proof.
  rewrite clean_row_unfold.
  assert (forall t : string,
            t <> "" -> t <> "nan" ->
            (t = "gaming" ->
             clean_news.is_valid_gaming_news lower (row_title row) (row_summary row)
             = true) ->
            clean_news.should_exclude lower (row_title row) (row_summary row)
            = false ->
            cleaned lower (<["news_type" := VStr t]> row)) as Hretyped.
  { intros t He Hn Hg Hexcl. unfold cleaned.
    destruct (clean_row_reads row (VStr t)) as (-> & -> & ->). done. }
  assert (clean_news.should_exclude lower (row_title row) (row_summary row)
          = false ->
          row_news_type row <> "" -> row_news_type row <> "nan" ->
          (row_news_type row = "gaming" ->
           clean_news.is_valid_gaming_news lower (row_title row) (row_summary row)
           = true) ->
          cleaned lower row) as Hkept.
  { intros Hexcl He Hn Hg. unfold cleaned. repeat split; assumption. }
  revert Hretyped Hkept.
  generalize (clean_news.should_exclude lower (row_title row) (row_summary row)),
    (clean_news.is_valid_gaming_news lower (row_title row) (row_summary row)),
    (clean_news.is_valid_traffic_news lower (row_title row) (row_summary row)).
  intros excl gaming traffic Hretyped Hkept.
  destruct excl; [discriminate |].
  destruct (String.eqb_spec (row_news_type row) "gaming") as [Hg | Hg];
    destruct (String.eqb_spec (row_news_type row) "") as [He | He];
    destruct (String.eqb_spec (row_news_type row) "nan") as [Hn | Hn];
    try congruence;
    destruct gaming, traffic; cbn [andb orb negb];
    try discriminate; intros [= <-];
    first [ apply Hretyped; congruence | apply Hkept; congruence ].
Qed.

Lemma cleaned_row_kept (lower : string -> string) (row : dict) :
  cleaned lower row -> clean_news.clean_row lower row = Some row.
Proof.
  intros (Hexcl & He & Hn & Hg). rewrite clean_row_unfold, Hexcl.
  destruct (String.eqb_spec (row_news_type row) "gaming") as [Hgaming | _].
  - rewrite (Hg Hgaming). cbn [andb orb negb]. by rewrite Hgaming.
  - cbn [andb orb negb].
    destruct (String.eqb_spec (row_news_type row) ""); [done |].
    by destruct (String.eqb_spec (row_news_type row) "nan").
Qed.

(** X8. Every row [clean_news] keeps has no exclusion keyword in its
    text, has a [news_type], and has a gaming keyword when it is typed
    [gaming]; cleaning a cleaned store changes nothing. *)
Theorem clean_news_cleans_once (lower : string -> string) (df : list dict) :
  Forall (cleaned lower) (clean_news.clean_news lower df)
  /\ clean_news.clean_news lower (clean_news.clean_news lower df)
     = clean_news.clean_news lower df.
Proof.
  assert (Forall (cleaned lower) (clean_news.clean_news lower df)) as Hall.
  { apply Forall_forall. intros row' Hin. unfold clean_news.clean_news in Hin.
    apply list_elem_of_omap in Hin as (row & _ & Hrow).
    by eapply clean_row_cleaned. }
  split; [done |].
  unfold clean_news.clean_news in *.
  induction Hall as [|row rows Hrow Hrows IH]; [done |].
  cbn [omap list_omap]. by rewrite (cleaned_row_kept lower row Hrow), IH.
Qed.

(** X9. [clean_news] deletes a row exactly when an exclusion keyword
    occurs in its text, or it is typed [gaming] or has no type and
    neither a gaming nor a traffic keyword occurs: a row typed
    [traffic_impact] is never asked for a traffic keyword. *)
Theorem clean_row_deletes_iff (lower : string -> string) (row : dict) :
  clean_news.clean_row lower row = None
  <-> clean_news.should_exclude lower (row_title row) (row_summary row) = true
      \/ (row_news_type row ∈ ["gaming"; ""; "nan"]
          /\ clean_news.is_valid_gaming_news lower (row_title row) (row_summary row)
             = false
          /\ clean_news.is_valid_traffic_news lower (row_title row) (row_summary row)
             = false).
Proof. exact (clean_row_deletes_criterion lower row). Qed.

Lemma same_keywords (lower : string -> string) (l1 l2 : list string)
    (text : string) :
  Forall (fun kw => kw ∈ l2) l1 -> Forall (fun kw => kw ∈ l1) l2 ->
  any_keyword_in lower l1 text = any_keyword_in lower l2 text.
Proof.
  intros H12 H21.
  destruct (any_keyword_in lower l2 text) eqn:H2.
  - apply any_keyword_in_spec in H2 as (kw & Hin & Hocc).
    apply any_keyword_in_spec. exists kw. split; [| done].
    by apply (proj1 (Forall_forall _ _) H21).
  - apply no_keyword_occurs_spec. apply no_keyword_occurs_spec in H2.
    intros (kw & Hin & Hocc). apply H2. exists kw. split; [| done].
    by apply (proj1 (Forall_forall _ _) H12).
Qed.

(** X10. The cleaning script and the second classifier agree on what a
    gaming article is: their lists of gaming keywords hold the same
    keywords, so [is_valid_gaming_news] is true exactly when a keyword of
    [GAMING_REQUIRED_KEYWORDS] occurs in the text, and every article
    [is_relevant_news] files as gaming passes it. *)
Theorem gaming_keywords_agree (lower : string -> string)
    (title summary : string) :
  (clean_news.is_valid_gaming_news lower title summary = true
   <-> some_keyword_occurs lower GAMING_REQUIRED_KEYWORDS
         (scanned_text lower title summary))
  /\ (is_relevant_news lower title summary
        = (true, Some "gaming", Some "gaming", Some "medium")
      -> clean_news.is_valid_gaming_news lower title summary = true).
Proof.
  assert (clean_news.is_valid_gaming_news lower title summary
          = any_keyword_in lower GAMING_REQUIRED_KEYWORDS
              (scanned_text lower title summary)) as Heq.
  { unfold clean_news.is_valid_gaming_news. apply same_keywords; by_evaluation. }
  split.
  - by rewrite Heq, some_keyword_occurs_spec.
  - rewrite Heq, is_relevant_news_decision_list. cbv zeta.
    generalize (scanned_text lower title summary). intros text.
    destruct (any_keyword_in lower NEGATIVE_KEYWORDS text); [discriminate |].
    destruct (any_keyword_in lower GAMING_REQUIRED_KEYWORDS text); [done |].
    destruct (any_keyword_in lower (table TRAFFIC_IMPACT_KEYWORDS "disaster") text);
      [discriminate |].
    destruct (any_keyword_in lower (table TRAFFIC_IMPACT_KEYWORDS "conflict") text);
      [discriminate |].
    destruct (any_keyword_in lower (table TRAFFIC_IMPACT_KEYWORDS "outage") text);
      [discriminate |].
    destruct (any_keyword_in lower (table TRAFFIC_IMPACT_KEYWORDS "holiday") text);
      discriminate.
Qed.

(** ** De-duplication inside one fetcher *)

Lemma unique_by_url_spec (results : list dict) :
  forall (seen_urls : gset value) (l : list dict),
  unique_by_url seen_urls results = Some l ->
  sublist l results
  /\ NoDup (all_urls l)
  /\ (forall u, u ∈ all_urls l -> u ∉ seen_urls)
  /\ (forall item, item ∈ results ->
        get item "url" ∈ seen_urls \/ get item "url" ∈ all_urls l).
Proof.
  induction results as [|item results IH]; intros seen_urls l; simpl.
  - intros [= <-]. repeat split; [done | constructor | |].
    + intros u Hu. by apply elem_of_nil in Hu.
    + intros item Hitem. by apply elem_of_nil in Hitem.
  - destruct (item !! "url") as [url|] eqn:Hurl; [| done].
    assert (get item "url" = url) as Hget by (unfold get; by rewrite Hurl).
    destruct (decide (url ∈ seen_urls)) as [Hseen | Hnew].
    + intros Hl. destruct (IH _ _ Hl) as (Hsub & Hnd & Hfresh & Hcover).
      repeat split; [by apply sublist_cons | done | done |].
      intros item' [-> | Hin]%elem_of_cons; [left; congruence | by apply Hcover].
    + destruct (unique_by_url ({[url]} ∪ seen_urls) results) as [l'|] eqn:Hl';
        [| done].
      intros [= <-]. destruct (IH _ _ Hl') as (Hsub & Hnd & Hfresh & Hcover).
      unfold all_urls in *. rewrite fmap_cons, Hget.
      repeat split.
      * by apply sublist_skip.
      * constructor; [| done]. intros Hin. apply (Hfresh url Hin).
        apply elem_of_union. left. by apply elem_of_singleton.
      * intros u [-> | Hin]%elem_of_cons; [done |].
        intros Hu. apply (Hfresh u Hin). apply elem_of_union. by right.
      * intros item' [-> | Hin]%elem_of_cons.
        -- right. rewrite Hget. by left.
        -- destruct (Hcover item' Hin) as [Hs | Hk]; [| right; by right].
           apply elem_of_union in Hs as [->%elem_of_singleton | Hs];
             [right; by left | by left].
Qed.

Lemma unique_by_url_fails (results : list dict) :
  forall seen_urls : gset value,
  unique_by_url seen_urls results = None
  <-> Exists (fun item => item !! "url" = None) results.
Proof.
  induction results as [|item results IH]; intros seen_urls; simpl.
  - split; [done | by intros H%Exists_nil].
  - rewrite Exists_cons. destruct (item !! "url") as [url|] eqn:Hurl.
    + destruct (decide (url ∈ seen_urls)).
      * rewrite IH. split; [by right | by intros [? | ?]].
      * rewrite fmap_None, IH. split; [by right | by intros [? | ?]].
    + split; [by left | done].
Qed.

Lemma unique_by_url_fixed (l : list dict) :
  forall seen_urls : gset value,
  Forall (fun item => is_Some (item !! "url")) l ->
  NoDup (all_urls l) ->
  (forall u, u ∈ all_urls l -> u ∉ seen_urls) ->
  unique_by_url seen_urls l = Some l.
Proof.
  induction l as [|item l IH]; intros seen_urls Hkeys Hnd Hfresh; [done |].
  apply Forall_cons in Hkeys as [[url Hurl] Hkeys]. simpl. rewrite Hurl.
  assert (get item "url" = url) as Hget by (unfold get; by rewrite Hurl).
  unfold all_urls in *. rewrite fmap_cons, Hget in Hnd, Hfresh.
  apply NoDup_cons in Hnd as [Hnotin Hnd].
  destruct (decide (url ∈ seen_urls)) as [Hseen | _].
  - exfalso. apply (Hfresh url); [by left | done].
  - rewrite IH; [done | done | done |].
    intros u Hu [->%elem_of_singleton | Hs]%elem_of_union; [done |].
    apply (Hfresh u); [by right | done].
Qed.

(** X11. The list a fetcher returns: when every collected item has a
    [url] entry the de-duplication succeeds, and what is returned has at
    most [max_results] items, taken in order from the collected ones, no
    two with the same URL; it fails only on an item without the entry. *)
Theorem fetcher_returns_unique_urls (results : list dict) (max_results : nat) :
  (Forall (fun item => is_Some (item !! "url")) results ->
   exists l, unique_results results max_results = Some l
             /\ length l <= max_results
             /\ sublist l results
             /\ NoDup (all_urls l))
  /\ (unique_results results max_results = None
      <-> Exists (fun item => item !! "url" = None) results).
Proof.
  unfold unique_results. split.
  - intros Hkeys.
    destruct (unique_by_url ∅ results) as [l|] eqn:Hl.
    + destruct (unique_by_url_spec _ _ _ Hl) as (Hsub & Hnd & _).
      exists (take max_results l). repeat split.
      * rewrite length_take. lia.
      * etrans; [apply sublist_take | done].
      * unfold all_urls in *. rewrite fmap_take.
        eapply sublist_NoDup; [exact Hnd | apply sublist_take].
    + apply unique_by_url_fails in Hl. exfalso.
      apply Exists_exists in Hl as (item & Hin & Hnone).
      apply (proj1 (Forall_forall _ _) Hkeys) in Hin as [url Hurl]. congruence.
  - rewrite fmap_None. apply unique_by_url_fails.
Qed.

(** X12. The de-duplication keeps one item for every URL met (the first
    one), changes nothing in a list without repeated URLs, and so changes
    nothing when run again on its own result. *)
Theorem fetcher_keeps_one_item_per_url (results l : list dict) :
  unique_by_url ∅ results = Some l ->
  (forall item, item ∈ results -> get item "url" ∈ all_urls l)
  /\ (NoDup (all_urls results) -> l = results)
  /\ unique_by_url ∅ l = Some l.
Proof.
  intros Hl.
  assert (Forall (fun item => is_Some (item !! "url")) results) as Hkeys.
  { apply Forall_forall. intros item Hin.
    destruct (item !! "url") eqn:Hurl; [done |]. exfalso.
    assert (unique_by_url ∅ results = None) as Hnone; [| congruence].
    apply unique_by_url_fails, Exists_exists. by exists item. }
  destruct (unique_by_url_spec _ _ _ Hl) as (Hsub & Hnd & _ & Hcover).
  split; [| split].
  - intros item Hin. destruct (Hcover item Hin) as [Hs | Hk]; [| done].
    by apply elem_of_empty in Hs.
  - intros Hnd'.
    rewrite unique_by_url_fixed in Hl; [congruence | done | done |].
    intros u _ Hu. by apply elem_of_empty in Hu.
  - apply unique_by_url_fixed; [| done |].
    + apply Forall_forall. intros item Hin.
      apply (proj1 (Forall_forall _ _) Hkeys). by eapply elem_of_sublist.
    + intros u _ Hu. by apply elem_of_empty in Hu.
Qed.

Lemma fetcher_keeps_one_item_per_url_witness :
  (forall item, item ∈ [kpop_row; quake_row; kpop_row] ->
     get item "url" ∈ all_urls [kpop_row; quake_row])
  /\ (NoDup (all_urls [kpop_row; quake_row; kpop_row]) ->
      [kpop_row; quake_row] = [kpop_row; quake_row; kpop_row])
  /\ unique_by_url ∅ [kpop_row; quake_row] = Some [kpop_row; quake_row].
Proof.
  apply fetcher_keeps_one_item_per_url. by_evaluation.
Defined.

(** ** Merge keeps the URLs of the store distinct *)

Lemma urls_app (l1 l2 : list dict) : urls (l1 ++ l2) = urls l1 ++ urls l2.
Proof.
  unfold urls. induction l1 as [|n l1 IH]; [done |].
  cbn [app omap list_omap]. rewrite IH. by destruct (url_of n).
Qed.

Lemma urls_sublist (l1 l2 : list dict) : sublist l1 l2 -> sublist (urls l1) (urls l2).
Proof.
  unfold urls. induction 1 as [|n l1 l2 Hsub IH|n l1 l2 Hsub IH];
    cbn [omap list_omap]; [done | |].
  - destruct (url_of n); [by apply sublist_skip | done].
  - destruct (url_of n); [by apply sublist_cons | done].
Qed.

Lemma elem_of_urls (l : list dict) (url : string) :
  url ∈ urls l
  <-> url <> "" /\ exists item, item ∈ l /\ get item "url" = VStr url.
Proof.
  unfold urls. rewrite list_elem_of_omap. unfold url_of. split.
  - intros (item & Hin & Hurl).
    destruct (get item "url") as [| | b | u] eqn:Hget; try done.
    destruct (String.eqb_spec u "") as [Hempty | Hne]; [done |].
    injection Hurl as Hurl. subst u. split; [done | by exists item].
  - intros (Hne & item & Hin & Hurl). exists item. split; [done |].
    rewrite Hurl. by destruct (String.eqb_spec url "").
Qed.

(** X13. If no two rows of the store have the same URL and no two items
    of the refined batch do, no two rows of the merged store do.  Rows
    without a URL, whose [url] is empty or no text at all, do not
    count. *)
Theorem merge_keeps_urls_distinct (existing_news all_refined_news : list dict) :
  NoDup (urls existing_news) -> NoDup (urls all_refined_news) ->
  NoDup (urls (merge existing_news all_refined_news)).
Proof.
  intros HP HN. unfold merge. rewrite urls_app. apply NoDup_app.
  split; [done | split].
  - intros url [Hne (p & Hp & Hurl)]%elem_of_urls
      [_ (n & Hn & Hurl')]%elem_of_urls.
    unfold remove_duplicates in Hn. apply list_elem_of_filter in Hn as [Hfresh _].
    apply Hfresh. rewrite Hurl'. apply elem_of_list_to_set, list_elem_of_fmap.
    exists p. split; [done |]. apply list_elem_of_filter. split; [| done].
    rewrite Hurl. simpl. by destruct (String.eqb_spec url "").
  - eapply sublist_NoDup; [exact HN |].
    apply urls_sublist. unfold remove_duplicates. apply sublist_filter.
Qed.

Lemma merge_keeps_urls_distinct_witness :
  NoDup (urls (merge [kpop_row; blank_url_row; blank_url_row]
                 [quake_row; linkless_item; linkless_item; kpop_row])).
Proof.
  apply merge_keeps_urls_distinct; by_evaluation.
Defined.

(** ** Country and continent *)

Lemma set_country_located (lower : string -> string) (keyword : string)
    (countries : list string) (news_item : dict) :
  located news_item -> located (set_country lower keyword countries news_item).
Proof.
  intros Hitem. induction countries as [|country countries IH]; [done |].
  simpl. destruct (contains (lower country) (lower keyword)); [| done].
  right. exists country.
  by rewrite get_insert_eq, get_insert_ne, get_insert_eq.
Qed.

Lemma guess_country_located (lower : string -> string) (keyword title : string)
    (countries : list string) (news_item : dict) :
  located news_item ->
  located (guess_country lower keyword title countries news_item).
Proof.
  intros Hitem. induction countries as [|country countries IH]; [done |].
  simpl.
  destruct (contains (lower country) (lower keyword)
            || contains (lower country) (lower title)); [| done].
  right. exists country.
  by rewrite get_insert_eq, get_insert_ne, get_insert_eq.
Qed.

(** X14. Every fetcher hands over items whose [country] and [continent]
    go together: the RSS search, the Naver search, the DeepSearch search
    with its country guess, and the country tag of [main]. *)
Theorem fetched_items_located (lower : string -> string) :
  (forall keyword priority_countries entry item,
     news_item_of_entry lower keyword priority_countries entry = Some item ->
     located item)
  /\ (forall date_str title description url item,
        naver_news_item lower date_str title description url = Some item ->
        located item)
  /\ (forall keyword countries date_str title summary url publisher,
        located (guess_country lower keyword title countries
                   (deepsearch_news_item date_str title summary url publisher)))
  /\ (forall country item, located (tag_country country item)).
Proof.
  repeat split.
  - intros keyword priority_countries entry item. unfold news_item_of_entry.
    destruct (published_within_day entry); [| done]. simpl.
    destruct (classify_news_priority lower (clean_title entry) (clean_summary entry))
      as [[priority news_type] auto_category].
    destruct (String.eqb priority "low"); [done |].
    intros [= <-]. apply set_country_located. by left.
  - intros date_str title description url item. unfold naver_news_item.
    destruct (is_relevant_news lower title description)
      as [[[is_relevant news_type] category] priority].
    destruct is_relevant; [| done]. simpl. intros [= <-].
    right. by exists "Korea".
  - intros. apply guess_country_located. by left.
  - intros country item. right. exists country. unfold tag_country.
    by rewrite get_insert_eq, get_insert_ne, get_insert_eq.
Qed.

(** ** What the adapters do with an answer *)

Lemma keeps_key_refl (item : dict) : keeps_key item item.
Proof. by split. Qed.

Lemma keeps_key_trans (a b c : dict) :
  keeps_key a b -> keeps_key b c -> keeps_key a c.
Proof. intros [H1 H2] [H3 H4]. split; congruence. Qed.

Lemma keeps_key_insert (item : dict) (k : string) (v : value) :
  k <> "title" -> k <> "url" -> keeps_key item (<[k := v]> item).
Proof.
  intros Ht Hu. unfold keeps_key, get_or. by rewrite !lookup_insert_ne.
Qed.

Lemma cache_key_of_keeps_key (item item' : dict) :
  keeps_key item item' -> cache_key_of item' = cache_key_of item.
Proof. intros [Ht Hu]. unfold cache_key_of. by rewrite Ht, Hu. Qed.

Lemma map_to_group_category_range (detail_category : value) :
  map_to_group_category detail_category ∈ group_names.
Proof.
  unfold map_to_group_category. repeat case_match; by_evaluation.
Qed.

Lemma group_name_truthy (g : string) :
  g ∈ group_names -> truthy (VStr g) = true.
Proof.
  unfold group_names. rewrite !elem_of_cons, elem_of_nil.
  intros [-> | [-> | [-> | [-> | [-> | []]]]]]; reflexivity.
Qed.

Lemma lookup_inserts_ne (item : dict) (fields : list string) (field : string)
    (k : string) (v : value) :
  k ∈ fields -> field ∉ fields -> (<[k := v]> item) !! field = item !! field.
Proof. intros Hk Hfield. apply lookup_insert_ne. by intros ->. Qed.

Lemma merge_ai_result_frame (news_item ai_result refined : dict)
    (field : string) :
  merge_ai_result news_item ai_result = Some refined ->
  field ∉ refined_fields -> refined !! field = news_item !! field.
Proof.
  unfold merge_ai_result.
  destruct (truthy (get_or ai_result "relevant" (VBool false))); [| done].
  cbn [negb]. cbv zeta. intros [= <-] Hfield.
  destruct (truthy (get ai_result "country")).
  all: repeat (rewrite (lookup_inserts_ne _ refined_fields);
               [| by_evaluation | done]).
  all: done.
Qed.

Lemma merge_ai_result_keeps_key (news_item ai_result refined : dict) :
  merge_ai_result news_item ai_result = Some refined ->
  keeps_key news_item refined.
Proof.
  intros Hrefined. unfold keeps_key, get_or.
  rewrite !(merge_ai_result_frame _ _ _ _ Hrefined); [done | |]; by_evaluation.
Qed.

Lemma keeps_key_update (item refined : dict) :
  keeps_key item refined -> keeps_key item (update item refined).
Proof.
  intros [Ht Hu]. unfold keeps_key, update, get_or in *.
  rewrite !lookup_union.
  split.
  - destruct (refined !! "title"), (item !! "title"); simpl in *; congruence.
  - destruct (refined !! "url"), (item !! "url"); simpl in *; congruence.
Qed.

(** X15. What the paid adapter makes of an answer: nothing when the
    answer does not say the news is relevant; otherwise an item whose
    [category_group] is the group of its [category], with the title and
    URL (hence the cache key) of the item sent, in which only the fields
    of [refined_fields] may differ from it, and whose country and
    continent still go together when the answer names a country or
    none. *)
Theorem paid_answer_merged (news_item ai_result : dict) :
  (merge_ai_result news_item ai_result = None
   <-> truthy (get_or ai_result "relevant" (VBool false)) = false)
  /\ forall refined,
       merge_ai_result news_item ai_result = Some refined ->
       get refined "category_group"
       = VStr (map_to_group_category (get refined "category"))
       /\ has_group refined
       /\ cache_key_of refined = cache_key_of news_item
       /\ (forall field, field ∉ refined_fields ->
             refined !! field = news_item !! field)
       /\ (located news_item -> names_country_or_none ai_result ->
           located refined).
Proof.
  split.
  { unfold merge_ai_result.
    by destruct (truthy (get_or ai_result "relevant" (VBool false))). }
  intros refined Hrefined.
  assert (get refined "category_group"
          = VStr (map_to_group_category (get refined "category"))) as Hgroup.
  { revert Hrefined. unfold merge_ai_result.
    destruct (truthy (get_or ai_result "relevant" (VBool false))); [| done].
    cbn [negb]. cbv zeta. intros [= <-].
    destruct (truthy (get ai_result "country")).
    - rewrite !(get_insert_ne _ "continent") by done.
      rewrite !(get_insert_ne _ "country") by done.
      rewrite !(get_insert_ne _ "traffic_impact") by done.
      rewrite !(get_insert_ne _ "summary") by done.
      rewrite get_insert_eq, (get_insert_ne _ "category_group") by done.
      by rewrite get_insert_eq.
    - rewrite !(get_insert_ne _ "traffic_impact") by done.
      rewrite !(get_insert_ne _ "summary") by done.
      rewrite get_insert_eq, (get_insert_ne _ "category_group") by done.
      by rewrite get_insert_eq. }
  split; [done |]. split.
  { eexists. split; [exact Hgroup | apply map_to_group_category_range]. }
  split.
  { apply cache_key_of_keeps_key.
    by apply (merge_ai_result_keeps_key news_item ai_result). }
  split.
  { intros field. by apply (merge_ai_result_frame news_item ai_result). }
  intros Hlocated Hcountry. revert Hrefined. unfold merge_ai_result.
  destruct (truthy (get_or ai_result "relevant" (VBool false))); [| done].
  cbn [negb]. cbv zeta.
  destruct (truthy (get ai_result "country")) eqn:Htruthy; intros [= <-].
  - destruct Hcountry as [Hnone | [country Hcountry]];
      [by rewrite Hnone in Htruthy |].
    right. exists country. rewrite Hcountry.
    by rewrite get_insert_eq, get_insert_ne, get_insert_eq.
  - unfold located. by rewrite !get_insert_ne.
Qed.

Lemma apply_groq_analysis_frame (item answer : dict) (field : string) :
  field ∉ groq_fields ->
  (if negb (truthy (get_or answer "relevant" (VBool true)))
   then <["skip" := VBool true]>
          (<["api_source" := VStr "groq"]>
             (<["traffic_impact" := get_or answer "traffic_impact" (VStr "")]>
                (<["category" :=
                     get_or answer "category"
                       (get_or item "category" (VStr "other"))]> item)))
   else <["api_source" := VStr "groq"]>
          (<["traffic_impact" := get_or answer "traffic_impact" (VStr "")]>
             (<["category" :=
                  get_or answer "category"
                    (get_or item "category" (VStr "other"))]> item)))
    !! field = item !! field.
Proof.
  intros Hfield. destruct (negb _).
  all: repeat (rewrite (lookup_inserts_ne _ groq_fields);
               [| by_evaluation | done]).
  all: done.
Qed.

Lemma apply_groq_analysis_keeps_key (batch : list dict) :
  forall analysis, Forall2 keeps_key batch (apply_groq_analysis batch analysis).
Proof.
  induction batch as [|item batch IH]; intros analysis; simpl; [constructor |].
  destruct analysis as [|answer analysis].
  - constructor; [apply keeps_key_refl | apply IH].
  - constructor; [| apply IH].
    assert ("title" ∉ groq_fields) as Htitle by by_evaluation.
    assert ("url" ∉ groq_fields) as Hurl by by_evaluation.
    split.
    + exact (f_equal (default (VStr ""))
               (apply_groq_analysis_frame item answer "title" Htitle)).
    + exact (f_equal (default (VStr ""))
               (apply_groq_analysis_frame item answer "url" Hurl)).
Qed.

(** X16. What the free adapter makes of the answers to one batch: the
    batch comes back item for item, with titles and URLs (hence cache
    keys) untouched; the items past the last answer are unchanged; an
    answered item is marked [groq], takes the answer's category (its own
    when the answer has none), is flagged [skip] when the answer says it
    is not relevant, and keeps every field outside [groq_fields]. *)
Theorem groq_answers_applied (batch analysis : list dict) :
  length (apply_groq_analysis batch analysis) = length batch
  /\ Forall2 (fun item item' => cache_key_of item' = cache_key_of item)
       batch (apply_groq_analysis batch analysis)
  /\ drop (length analysis) (apply_groq_analysis batch analysis)
     = drop (length analysis) batch
  /\ forall i item answer,
       batch !! i = Some item -> analysis !! i = Some answer ->
       exists item',
         apply_groq_analysis batch analysis !! i = Some item'
         /\ get item' "api_source" = VStr "groq"
         /\ get item' "category"
            = get_or answer "category" (get_or item "category" (VStr "other"))
         /\ get item' "skip"
            = (if truthy (get_or answer "relevant" (VBool true))
               then get item "skip" else VBool true)
         /\ (forall field, field ∉ groq_fields -> item' !! field = item !! field).
Proof.
  split; [| split; [| split]].
  - pose proof (apply_groq_analysis_keeps_key batch analysis) as Hkeys.
    symmetry. by eapply Forall2_length.
  - eapply Forall2_impl; [apply apply_groq_analysis_keeps_key |].
    intros item item'. apply cache_key_of_keeps_key.
  - revert analysis. induction batch as [|item batch IH]; intros analysis.
    + by destruct analysis.
    + destruct analysis as [|answer analysis]; simpl.
      * f_equal. apply (IH []).
      * apply IH.
  - revert analysis. induction batch as [|item batch IH];
      intros analysis i item0 answer Hitem Hanswer; [done |].
    destruct analysis as [|answer0 analysis]; [done |].
    destruct i as [|i]; simpl in Hitem, Hanswer.
    + injection Hitem as ->. injection Hanswer as ->.
      cbn [apply_groq_analysis]. cbv zeta.
      eexists. split; [reflexivity |].
      split; [| split; [| split]].
      * destruct (truthy (get_or answer "relevant" (VBool true))); cbn [negb].
        -- by rewrite get_insert_eq.
        -- rewrite get_insert_ne by done. by rewrite get_insert_eq.
      * destruct (truthy (get_or answer "relevant" (VBool true))); cbn [negb].
        -- rewrite !get_insert_ne by done. by rewrite get_insert_eq.
        -- rewrite !get_insert_ne by done. by rewrite get_insert_eq.
      * destruct (truthy (get_or answer "relevant" (VBool true))); cbn [negb].
        -- by rewrite !get_insert_ne by done.
        -- by rewrite get_insert_eq.
      * intros field Hfield.
        exact (apply_groq_analysis_frame item0 answer field Hfield).
    + simpl. by apply IH.
Qed.

(** ** The refinement cache *)

(** A run that evaluates to a result returns it. *)
Lemma returns_of_check {A : Type} (run : outcome A) :
  match run with Returns _ => True | Raises _ => False end ->
  exists result, run = Returns result.
Proof. destruct run as [result|e]; [by exists result | done]. Qed.

Lemma update_cache_spec (to_process : list dict) :
  forall cache cache' : gmap string dict,
  update_cache cache to_process = Returns cache' ->
  (forall k, is_Some (cache !! k) -> is_Some (cache' !! k))
  /\ Forall (fun item =>
               exists k p, cache_key_of item = Returns k
                           /\ p ∈ to_process
                           /\ cache_key_of p = Returns k
                           /\ cache' !! k = Some (cache_entry p)) to_process
  /\ (forall k, (forall item, item ∈ to_process -> cache_key_of item <> Returns k)
                -> cache' !! k = cache !! k).
Proof.
  induction to_process as [|item rest IH]; intros cache cache'; simpl.
  - intros [= <-]. split; [done | split; [constructor | done]].
  - destruct (cache_key_of item) as [k|e] eqn:Hk; [| done].
    intros Hrest. destruct (IH _ _ Hrest) as (Hmono & Hall & Hframe).
    repeat split.
    + intros k' Hk'. apply Hmono.
      destruct (decide (k = k')) as [<- | Hne].
      * rewrite lookup_insert_eq. by eexists.
      * by rewrite lookup_insert_ne.
    + constructor.
      * destruct (decide (Exists (fun p => cache_key_of p = Returns k) rest))
          as [Hlater | Hnone].
        -- apply Exists_exists in Hlater as (p & Hp & Hkp).
           destruct (proj1 (Forall_forall _ _) Hall p Hp)
             as (k' & p' & Hk' & Hp' & Hkp' & Hentry).
           assert (k' = k) as -> by congruence.
           exists k, p'. repeat split; [done | by right | done | done].
        -- exists k, item. repeat split; [done | by left | done |].
           rewrite Hframe, lookup_insert_eq; [done |].
           intros p Hp Hkp. apply Hnone, Exists_exists. by exists p.
      * eapply Forall_impl; [exact Hall |]. simpl.
        intros p (k' & p' & Hk' & Hp' & Hkp' & Hentry).
        exists k', p'. repeat split; [done | by right | done | done].
    + intros k' Hnone. rewrite Hframe.
      * rewrite lookup_insert_ne; [done |]. intros <-.
        by apply (Hnone item); [left |].
      * intros p Hp. apply Hnone. by right.
Qed.

Lemma restore_cached_spec (news_items : list dict) :
  forall (cache : gmap string dict) (marked : list (dict * bool)),
  restore_cached cache news_items = Returns marked ->
  Forall2 (fun item m =>
             exists k, cache_key_of item = Returns k
                       /\ m = match cache !! k with
                              | Some entry => (update item entry, true)
                              | None => (item, false)
                              end) news_items marked.
Proof.
  induction news_items as [|item rest IH]; intros cache marked; simpl.
  - intros [= <-]. constructor.
  - destruct (cache_key_of item) as [k|e] eqn:Hk; [| done].
    destruct (restore_cached cache rest) as [rest'|e] eqn:Hrest; [| done].
    intros [= <-]. constructor; [by exists k | by apply IH].
Qed.

Lemma restore_all_cached (cache : gmap string dict) (news_items : list dict) :
  Forall (cached cache) news_items ->
  exists out,
    restore_cached cache news_items = Returns ((fun r => (r, true)) <$> out)
    /\ Forall2 (restored_from cache) news_items out.
Proof.
  induction 1 as [|item rest (k & Hk & entry & Hentry) _ (out & Hout & Hall)].
  - by exists [].
  - exists (update item entry :: out). simpl. rewrite Hk, Hentry, Hout.
    split; [done |]. constructor; [| done]. by exists k, entry.
Qed.

Lemma all_cached_batch (fetch_from_groq : list dict -> list dict)
    (refine_news_with_ai : dict -> string -> option dict) (env : environment)
    (cache : gmap string dict) (news_items : list dict) (use_paid_api : bool) :
  Forall (cached cache) news_items ->
  exists out,
    smart_refine_batch fetch_from_groq refine_news_with_ai env cache news_items
      use_paid_api = Returns (out, cache)
    /\ Forall2 (restored_from cache) news_items out.
Proof.
  intros Hall. destruct (restore_all_cached cache news_items Hall)
    as (out & Hrestore & Hout).
  exists out. split; [| done].
  unfold smart_refine_batch. destruct news_items as [|item rest].
  { by apply Forall2_nil_inv_l in Hout as ->. }
  rewrite Hrestore.
  assert (filter (fun m : dict * bool => m.2 = false)
            ((fun r : dict => (r, true)) <$> out) = []) as ->.
  { clear. induction out as [|r out IH]; [done |].
    rewrite fmap_cons, filter_cons_False by done. exact IH. }
  rewrite <- list_fmap_compose. simpl. by rewrite list_fmap_id.
Qed.

(** X17. What the cache holds after the items of [to_process] were
    recorded: no entry was dropped, every processed item has an entry
    under its key, which is the entry of a processed item with that key,
    and the entries under all other keys are the old ones. *)
Theorem cache_records_every_item (cache cache' : gmap string dict)
    (to_process : list dict) :
  update_cache cache to_process = Returns cache' ->
  (forall item, cached cache item -> cached cache' item)
  /\ Forall (fun item =>
               exists k p, cache_key_of item = Returns k
                           /\ p ∈ to_process
                           /\ cache_key_of p = Returns k
                           /\ cache' !! k = Some (cache_entry p)) to_process
  /\ (forall k, (forall item, item ∈ to_process -> cache_key_of item <> Returns k)
                -> cache' !! k = cache !! k).
Proof.
  intros Hupdate.
  destruct (update_cache_spec _ _ _ Hupdate) as (Hmono & Hall & Hframe).
  split; [| by split].
  intros item (k & Hk & Hsome). exists k. split; [done | by apply Hmono].
Qed.

Lemma cache_records_every_item_witness :
  cached (<[ "7ca8a3847ad527c6" := cache_entry linkless_item ]> ∅) linkless_item.
Proof.
  destruct (cache_records_every_item ∅
              (<[ "7ca8a3847ad527c6" := cache_entry linkless_item ]> ∅)
              [linkless_item]) as (_ & Hall & _).
  - by_evaluation.
  - apply Forall_cons in Hall as [(k & p & Hk & _ & _ & Hentry) _].
    exists k. split; [exact Hk | by eexists].
Defined.

Lemma cache_entry_lookup (p : dict) (field : string) :
  cache_entry p !! field
  = if bool_decide (field ∈ cache_fields) then Some (get p field) else None.
Proof.
  change (cache_entry p) with
    (<["category" := get p "category"]>
       (<["category_group" := get p "category_group"]>
          (<["traffic_impact" := get p "traffic_impact"]>
             (<["api_source" := get p "api_source"]> (∅ : dict))))).
  destruct (decide (field = "category")) as [-> | H1];
    [by rewrite lookup_insert_eq |].
  rewrite lookup_insert_ne by done.
  destruct (decide (field = "category_group")) as [-> | H2];
    [by rewrite lookup_insert_eq |].
  rewrite lookup_insert_ne by done.
  destruct (decide (field = "traffic_impact")) as [-> | H3];
    [by rewrite lookup_insert_eq |].
  rewrite lookup_insert_ne by done.
  destruct (decide (field = "api_source")) as [-> | H4];
    [by rewrite lookup_insert_eq |].
  rewrite lookup_insert_ne by done.
  rewrite lookup_empty, bool_decide_eq_false_2; [done |].
  unfold cache_fields. rewrite !elem_of_cons, elem_of_nil. tauto.
Qed.

Lemma get_update_entry (item p : dict) (field : string) :
  get (update item (cache_entry p)) field
  = if bool_decide (field ∈ cache_fields) then get p field else get item field.
Proof.
  unfold update, get at 1. rewrite lookup_union, cache_entry_lookup.
  case_bool_decide; [by destruct (item !! field) |].
  unfold get. by destruct (item !! field).
Qed.

(** X18. Round trip through the cache: an item with the title and URL of
    a recorded item is restored from the cache, and comes back with the
    four cached fields as a recorded item with that key had them and
    with all its other fields as they were. *)
Theorem cache_round_trip (cache cache' : gmap string dict)
    (to_process : list dict) (item raw : dict) :
  update_cache cache to_process = Returns cache' ->
  item ∈ to_process -> keeps_key item raw ->
  exists p restored,
    p ∈ to_process
    /\ cache_key_of p = cache_key_of raw
    /\ restore_cached cache' [raw] = Returns [(restored, true)]
    /\ forall field,
         get restored field
         = if bool_decide (field ∈ cache_fields) then get p field
           else get raw field.
Proof.
  intros Hupdate Hin Hkeys.
  destruct (update_cache_spec _ _ _ Hupdate) as (_ & Hall & _).
  destruct (proj1 (Forall_forall _ _) Hall item Hin)
    as (k & p & Hk & Hp & Hkp & Hentry).
  apply cache_key_of_keeps_key in Hkeys. rewrite Hk in Hkeys.
  exists p, (update raw (cache_entry p)). repeat split.
  - done.
  - congruence.
  - simpl. by rewrite Hkeys, Hentry.
  - apply get_update_entry.
Qed.

Lemma cache_round_trip_witness :
  exists p restored,
    p ∈ [linkless_item]
    /\ cache_key_of p
       = cache_key_of (<["summary" := VStr "Rewritten"]> linkless_item)
    /\ restore_cached
         (<[ "7ca8a3847ad527c6" := cache_entry linkless_item ]> ∅)
         [<["summary" := VStr "Rewritten"]> linkless_item]
       = Returns [(restored, true)]
    /\ forall field,
         get restored field
         = if bool_decide (field ∈ cache_fields) then get p field
           else get (<["summary" := VStr "Rewritten"]> linkless_item) field.
Proof.
  apply (cache_round_trip ∅ _ [linkless_item] linkless_item).
  - by_evaluation.
  - by_evaluation.
  - split; reflexivity.
Defined.

(** X19. A batch whose items are all in the cache is answered from the
    cache alone: whatever the adapters and the API keys are, every item
    comes back updated with its cache entry and the cache is returned as
    it was. *)
Theorem cached_batch_skips_adapters (fetch_from_groq : list dict -> list dict)
    (refine_news_with_ai : dict -> string -> option dict) (env : environment)
    (cache : gmap string dict) (news_items : list dict) (use_paid_api : bool) :
  Forall (cached cache) news_items ->
  exists out,
    smart_refine_batch fetch_from_groq refine_news_with_ai env cache news_items
      use_paid_api = Returns (out, cache)
    /\ Forall2 (restored_from cache) news_items out.
Proof. apply all_cached_batch. Qed.

Lemma cached_batch_skips_adapters_witness :
  exists out,
    smart_refine_batch (fun _ => []) (fun _ _ => None) no_adapter
      (<[ "7ca8a3847ad527c6" := cache_entry linkless_item ]> ∅)
      [linkless_item] true
    = Returns (out, <[ "7ca8a3847ad527c6" := cache_entry linkless_item ]> ∅)
    /\ Forall2 (restored_from
                  (<[ "7ca8a3847ad527c6" := cache_entry linkless_item ]> ∅))
         [linkless_item] out.
Proof.
  apply cached_batch_skips_adapters.
  constructor; [| constructor].
  exists "7ca8a3847ad527c6". split; [by_evaluation | by eexists].
Defined.

(** The stages between the cache lookup and the cache update. *)
Lemma smart_refine_batch_cases (fetch_from_groq : list dict -> list dict)
    (refine_news_with_ai : dict -> string -> option dict) (env : environment)
    (cache cache' : gmap string dict) (news_items out : list dict)
    (use_paid_api : bool) :
  smart_refine_batch fetch_from_groq refine_news_with_ai env cache news_items
    use_paid_api = Returns (out, cache') ->
  exists marked,
    restore_cached cache news_items = Returns marked
    /\ let uncached := (filter (fun m : dict * bool => m.2 = false) marked).*1 in
       (uncached = [] /\ out = marked.*1 /\ cache' = cache)
       \/ (uncached <> []
           /\ exists to_process,
                to_process
                = (let to_process :=
                     if GROQ_API_KEY env then fetch_from_groq uncached
                     else uncached in
                   if use_paid_api && (OPENAI_API_KEY env || CLAUDE_API_KEY env)
                   then paid_stage refine_news_with_ai env 0 to_process
                   else to_process)
                /\ update_cache cache to_process = Returns cache'
                /\ out = fill_category_group "other"
                           <$> write_back marked to_process).
Proof.
  unfold smart_refine_batch. destruct news_items as [|item rest].
  { intros [= <- <-]. exists []. split; [done |]. left. by repeat split. }
  destruct (restore_cached cache (item :: rest)) as [marked|e]; [| done].
  intros Hout. exists marked. split; [done |]. cbv zeta.
  destruct ((filter (fun m : dict * bool => m.2 = false) marked).*1)
    as [|first uncached] eqn:Huncached.
  { injection Hout as <- <-. left. by repeat split. }
  right. split; [done |]. eexists. split; [reflexivity |].
  cbv zeta in Hout.
  destruct (update_cache cache _) as [cache''|e] eqn:Hupdate; [| done].
  injection Hout as <- <-. by split.
Qed.

Lemma paid_stage_keeps_key (refine_news_with_ai : dict -> string -> option dict)
    (env : environment) (to_process : list dict) :
  (forall item api_type refined,
     refine_news_with_ai item api_type = Some refined ->
     keeps_key item (update item refined)) ->
  forall seen,
    Forall2 keeps_key to_process
      (paid_stage refine_news_with_ai env seen to_process).
Proof.
  intros Hrefine.
  induction to_process as [|item rest IH]; intros seen; simpl; [constructor |].
  case_bool_decide; [| constructor; [apply keeps_key_refl | apply IH]].
  destruct (seen <? 10)%nat; [| constructor; [apply keeps_key_refl | apply IH]].
  constructor; [| apply IH].
  destruct (refine_news_with_ai item _) as [refined|] eqn:Hrefined;
    [| apply keeps_key_refl].
  case_bool_decide; [apply keeps_key_refl |].
  eapply keeps_key_trans; [by eapply Hrefine |]. by apply keeps_key_insert.
Qed.

Lemma Forall2_keeps_key_trans (l1 l2 l3 : list dict) :
  Forall2 keeps_key l1 l2 -> Forall2 keeps_key l2 l3 -> Forall2 keeps_key l1 l3.
Proof.
  intros H12. revert l3.
  induction H12 as [|a b l1 l2 Hab _ IH]; intros l3 H23.
  - by apply Forall2_nil_inv_l in H23 as ->.
  - apply Forall2_cons_inv_l in H23 as (c & l3' & Hbc & H23 & ->).
    constructor; [by eapply keeps_key_trans | by apply IH].
Qed.

Lemma Forall2_keeps_key_refl (l : list dict) : Forall2 keeps_key l l.
Proof. induction l; constructor; [apply keeps_key_refl | done]. Qed.

(** X20. When the adapters leave titles and URLs alone, every item of a
    refined batch is in the cache the batch returns, so that refining the
    same items again consults no adapter and returns that cache
    unchanged. *)
Theorem second_run_hits_the_cache (fetch_from_groq : list dict -> list dict)
    (refine_news_with_ai : dict -> string -> option dict) (env : environment)
    (cache cache' : gmap string dict) (news_items out : list dict)
    (use_paid_api : bool) :
  adapters_keep_keys fetch_from_groq refine_news_with_ai ->
  smart_refine_batch fetch_from_groq refine_news_with_ai env cache news_items
    use_paid_api = Returns (out, cache') ->
  Forall (cached cache') news_items
  /\ forall fetch_from_groq' refine_news_with_ai' env' use_paid_api',
       exists out',
         smart_refine_batch fetch_from_groq' refine_news_with_ai' env' cache'
           news_items use_paid_api' = Returns (out', cache')
         /\ Forall2 (restored_from cache') news_items out'.
Proof.
  intros [Hgroq Hrefine] Hbatch.
  assert (Forall (cached cache') news_items) as Hcached;
    [| split; [done | intros; by apply all_cached_batch]].
  apply smart_refine_batch_cases in Hbatch as (marked & Hrestore & Hcases).
  apply restore_cached_spec in Hrestore. cbv zeta in Hcases.
  set (uncached := (filter (fun m : dict * bool => m.2 = false) marked).*1) in *.
  assert (forall item, item ∈ news_items -> cached cache item \/ item ∈ uncached)
    as Hsplit.
  { intros item Hin. apply list_elem_of_lookup in Hin as [i Hi].
    destruct (Forall2_lookup_l _ _ _ _ _ Hrestore Hi) as (m & Hm & k & Hk & ->).
    destruct (cache !! k) as [entry|] eqn:Hentry.
    - left. exists k. split; [done | by eexists].
    - right. subst uncached. apply list_elem_of_fmap. exists (item, false).
      split; [done |]. apply list_elem_of_filter. split; [done |].
      by eapply list_elem_of_lookup_2. }
  apply Forall_forall. intros item Hin.
  destruct Hcases as [(Hnone & _ & ->) | (_ & to_process & Hstages & Hupdate & _)].
  - destruct (Hsplit item Hin) as [Hc | Hu]; [done |].
    rewrite Hnone in Hu. by apply elem_of_nil in Hu.
  - destruct (update_cache_spec _ _ _ Hupdate) as (Hmono & Hall & _).
    destruct (Hsplit item Hin) as [(k & Hk & Hsome) | Hu].
    { exists k. split; [done | by apply Hmono]. }
    assert (Forall2 keeps_key uncached to_process) as Hkeys.
    { rewrite Hstages. cbv zeta.
      assert (Forall2 keeps_key uncached
                (if GROQ_API_KEY env then fetch_from_groq uncached else uncached))
        as Hfirst.
      { destruct (GROQ_API_KEY env); [apply Hgroq | apply Forall2_keeps_key_refl]. }
      destruct (use_paid_api && (OPENAI_API_KEY env || CLAUDE_API_KEY env));
        [| done].
      eapply Forall2_keeps_key_trans; [exact Hfirst |].
      by apply paid_stage_keeps_key. }
    apply list_elem_of_lookup in Hu as [i Hi].
    destruct (Forall2_lookup_l _ _ _ _ _ Hkeys Hi) as (p & Hp & Hkp).
    apply list_elem_of_lookup_2 in Hp.
    destruct (proj1 (Forall_forall _ _) Hall p Hp)
      as (k & p' & Hk & _ & _ & Hentry).
    exists k. split; [| by eexists].
    rewrite <- Hk. symmetry. by apply cache_key_of_keeps_key.
Qed.

Lemma second_run_hits_the_cache_witness :
  exists out cache',
    smart_refine_batch answering_groq answering_paid every_adapter ∅
      [linkless_item] true = Returns (out, cache')
    /\ Forall (cached cache') [linkless_item].
Proof.
  destruct (returns_of_check
              (smart_refine_batch answering_groq answering_paid every_adapter ∅
                [linkless_item] true))
    as [[out cache'] Hrun]; [vm_compute; exact I |].
  exists out, cache'. split; [exact Hrun |].
  apply (second_run_hits_the_cache answering_groq answering_paid every_adapter
           ∅ cache' [linkless_item] out true); [| exact Hrun].
  split.
  - intros to_process. apply apply_groq_analysis_keeps_key.
  - intros item api_type refined Hrefined. apply keeps_key_update.
    exact (merge_ai_result_keeps_key item paid_answer refined Hrefined).
Defined.

(** ** The refinement stages *)

Lemma write_back_length (marked : list (dict * bool)) :
  forall to_process, length (write_back marked to_process) = length marked.
Proof.
  induction marked as [|[item [|]] marked IH]; intros to_process; simpl;
    [done | by rewrite IH |].
  destruct to_process; simpl; by rewrite IH.
Qed.

Lemma fill_category_group_truthy (dflt : string) (item : dict) :
  truthy (get (fill_category_group dflt item) "category_group") = true.
Proof.
  unfold fill_category_group.
  destruct (truthy (get item "category_group")) eqn:Htruthy; [done |].
  cbn [negb]. rewrite get_insert_eq.
  apply group_name_truthy, map_to_group_category_range.
Qed.


Lemma smart_refine_batch_length (fetch_from_groq : list dict -> list dict)
    (refine_news_with_ai : dict -> string -> option dict) (env : environment)
    (cache cache' : gmap string dict) (news_items out : list dict)
    (use_paid_api : bool) :
  smart_refine_batch fetch_from_groq refine_news_with_ai env cache news_items
    use_paid_api = Returns (out, cache') ->
  length out = length news_items.
Proof.
  intros Hbatch.
  apply smart_refine_batch_cases in Hbatch as (marked & Hrestore & Hcases).
  apply restore_cached_spec, Forall2_length in Hrestore. cbv zeta in Hcases.
  destruct Hcases as [(_ & -> & _) | (_ & to_process & _ & _ & ->)].
  - by rewrite length_fmap.
  - by rewrite length_fmap, write_back_length.
Qed.

(** X21. A refined batch has an item for every item sent, whatever the
    adapters return; and unless the whole batch was answered from the
    cache, every item comes back with a [category_group]. *)
Theorem refined_batch_is_complete (fetch_from_groq : list dict -> list dict)
    (refine_news_with_ai : dict -> string -> option dict) (env : environment)
    (cache cache' : gmap string dict) (news_items out : list dict)
    (use_paid_api : bool) :
  smart_refine_batch fetch_from_groq refine_news_with_ai env cache news_items
    use_paid_api = Returns (out, cache') ->
  length out = length news_items
  /\ (~ Forall (cached cache) news_items ->
      Forall (fun item => truthy (get item "category_group") = true) out).
Proof.
  intros Hbatch. split; [by eapply smart_refine_batch_length |].
  apply smart_refine_batch_cases in Hbatch as (marked & Hrestore & Hcases).
  apply restore_cached_spec in Hrestore. cbv zeta in Hcases.
  destruct Hcases as [(Hnone & -> & ->) | (_ & to_process & _ & _ & ->)].
  - intros Hnot. exfalso. apply Hnot. clear Hnot.
    induction Hrestore as [|item m items marked (k & Hk & Hm) _ IH];
      [constructor |].
    destruct (cache !! k) as [entry|] eqn:Hentry; subst m.
    + rewrite filter_cons_False in Hnone by (simpl; congruence).
      constructor; [| by apply IH]. exists k. split; [done | by eexists].
    + by rewrite filter_cons_True in Hnone by done.
  - intros _. apply Forall_fmap, Forall_forall. intros item _.
    apply fill_category_group_truthy.
Qed.

Lemma refined_batch_is_complete_witness :
  exists out cache',
    smart_refine_batch answering_groq answering_paid every_adapter ∅
      [linkless_item; jakarta_row] true = Returns (out, cache')
    /\ length out = 2.
Proof.
  destruct (returns_of_check
              (smart_refine_batch answering_groq answering_paid every_adapter ∅
                [linkless_item; jakarta_row] true))
    as [[out cache'] Hrun]; [vm_compute; exact I |].
  exists out, cache'. split; [exact Hrun |].
  exact (proj1 (refined_batch_is_complete _ _ _ _ _ _ _ _ Hrun)).
Defined.

Lemma paid_stage_spec (refine_news_with_ai : dict -> string -> option dict)
    (env : environment) (to_process : list dict) :
  forall seen,
    Forall2 (paid_refined refine_news_with_ai env) to_process
      (paid_stage refine_news_with_ai env seen to_process)
    /\ changed to_process (paid_stage refine_news_with_ai env seen to_process)
       <= 10 - seen.
Proof.
  unfold changed.
  induction to_process as [|item rest IH]; intros seen; simpl;
    [split; [constructor | lia] |].
  case_bool_decide as Hhigh.
  - destruct (Nat.ltb_spec seen 10) as [Hlt | Hge].
    + destruct (IH (S seen)) as [Hall Hcount]. split.
      * constructor; [| done].
        destruct (refine_news_with_ai item _) as [refined|] eqn:Hrefined;
          [| by left].
        case_bool_decide; [by left |]. right. split; [done |]. by exists refined.
      * cbn [zip zip_with].
        match goal with
        | |- length (filter _ (?p :: _)) <= _ =>
            destruct (decide (p.1 <> p.2))
        end.
        -- rewrite filter_cons_True by done. simpl. lia.
        -- rewrite filter_cons_False by done. lia.
    + destruct (IH (S seen)) as [Hall Hcount]. split.
      * constructor; [by left | done].
      * cbn [zip zip_with]. rewrite filter_cons_False by (simpl; tauto). lia.
  - destruct (IH seen) as [Hall Hcount]. split.
    + constructor; [by left | done].
    + cbn [zip zip_with]. by rewrite filter_cons_False by (simpl; tauto).
Qed.

(** X22. The paid stage returns the list it was given, item for item,
    each one either untouched or a high-priority item updated with what
    the paid adapter returned for it; at most ten items are changed. *)
Theorem paid_stage_changes_at_most_ten
    (refine_news_with_ai : dict -> string -> option dict) (env : environment)
    (to_process : list dict) :
  length (paid_stage refine_news_with_ai env 0 to_process) = length to_process
  /\ Forall2 (paid_refined refine_news_with_ai env) to_process
       (paid_stage refine_news_with_ai env 0 to_process)
  /\ changed to_process (paid_stage refine_news_with_ai env 0 to_process) <= 10.
Proof.
  destruct (paid_stage_spec refine_news_with_ai env to_process 0)
    as [Hall Hcount].
  split; [symmetry; by eapply Forall2_length | split; [done | lia]].
Qed.




(** ** The items of an RSS search *)

Lemma length_omap_le {A B : Type} (f : A -> option B) (l : list A) :
  length (omap f l) <= length l.
Proof.
  induction l as [|x l IH]; [done |]. cbn [omap list_omap].
  destruct (f x); simpl; lia.
Qed.

(** X24. An attempt of an RSS search that meets no exception reads at
    most the first ten entries of the feed; every item it returns was
    built from one of them that is at most a day old and that the rules
    rate high or medium, and carries its title, its link and that
    rating. *)
Theorem rss_items_are_rated (lower : string -> string) (keyword : string)
    (priority_countries : list string) (entries : list rss_entry) :
  length (fetch_news_from_rss lower keyword priority_countries entries) <= 10
  /\ Forall (fun item =>
               exists entry,
                 entry ∈ take 10 entries
                 /\ published_within_day entry = true
                 /\ rated lower entry ∈ ["high"; "medium"]
                 /\ get item "priority" = VStr (rated lower entry)
                 /\ get item "title" = VStr (clean_title entry)
                 /\ get item "url" = VStr (default "" (link entry)))
       (fetch_news_from_rss lower keyword priority_countries entries).
Proof.
  unfold fetch_news_from_rss. split.
  - etrans; [apply length_omap_le |]. rewrite length_take. lia.
  - apply Forall_forall. intros item Hin.
    apply list_elem_of_omap in Hin as (entry & Hentry & Hitem).
    exists entry. split; [done |].
    revert Hitem. unfold news_item_of_entry, rated.
    destruct (published_within_day entry); [| done]. cbn [negb].
    pose proof (classify_news_priority_cases lower (clean_title entry)
                  (clean_summary entry)) as Hcases.
    destruct (classify_news_priority lower (clean_title entry) (clean_summary entry))
      as [[priority news_type] auto_category].
    destruct (String.eqb_spec priority "low") as [-> | Hlow]; [done |].
    intros [= <-]. split; [done |]. split.
    + cbn [fst]. clear -Hcases Hlow.
      repeat (apply elem_of_cons in Hcases as [Hcases | Hcases];
              [injection Hcases as -> _ _; first [done | by_evaluation] |]).
      by apply elem_of_nil in Hcases.
    + rewrite !get_set_country by done. by repeat split.
Qed.

(** ** The news a summary is written about *)

Lemma select_titles_spec (lower first30 : string -> string)
    (traffic_news : list dict) :
  forall (seen_titles : gset string) (l : list dict),
  select_titles lower first30 seen_titles traffic_news = Some l ->
  sublist l traffic_news
  /\ Forall (fun news =>
               exists title,
                 summary_title lower news = Some title
                 /\ (first30 title ∉ seen_titles)
                 /\ any_keyword_in (fun kw => kw) summary_exclude_keywords title
                    = false) l
  /\ NoDup (title_key lower first30 <$> l).
Proof.
  induction traffic_news as [|news traffic_news IH]; intros seen_titles l.
  - intros [= <-]. split; [done | split; constructor].
  - cbn [select_titles].
    destruct (summary_title lower news) as [title|] eqn:Htitle; [| done].
    cbv zeta.
    destruct (decide (first30 title ∈ seen_titles)) as [Hseen | Hnew].
    { intros Hl. destruct (IH _ _ Hl) as (Hsub & Hall & Hnd).
      split; [by apply sublist_cons | by split]. }
    assert (forall l',
              Forall (fun news' =>
                        exists title',
                          summary_title lower news' = Some title'
                          /\ (first30 title' ∉ {[first30 title]} ∪ seen_titles)
                          /\ any_keyword_in (fun kw => kw)
                               summary_exclude_keywords title' = false) l' ->
              Forall (fun news' =>
                        exists title',
                          summary_title lower news' = Some title'
                          /\ (first30 title' ∉ seen_titles)
                          /\ any_keyword_in (fun kw => kw)
                               summary_exclude_keywords title' = false) l'
              /\ Some (first30 title) ∉ (title_key lower first30 <$> l'))
      as Hweaken.
    { intros l' Hall. split.
      - eapply Forall_impl; [exact Hall |]. simpl.
        intros news' (title' & Htitle' & Hnotin & Hkw).
        exists title'. split; [done | split; [| done]].
        intros Hin. apply Hnotin, elem_of_union. by right.
      - intros Hin. apply list_elem_of_fmap in Hin as (news' & Hkey & Hnews').
        destruct (proj1 (Forall_forall _ _) Hall news' Hnews')
          as (title' & Htitle' & Hnotin & _).
        unfold title_key in Hkey. rewrite Htitle' in Hkey.
        injection Hkey as Hkey. apply Hnotin, elem_of_union. left.
        apply elem_of_singleton. congruence. }
    destruct (any_keyword_in (fun kw => kw) summary_exclude_keywords title)
      eqn:Hexcluded.
    + intros Hl. destruct (IH _ _ Hl) as (Hsub & Hall & Hnd).
      destruct (Hweaken _ Hall) as [Hall' _].
      split; [by apply sublist_cons | by split].
    + destruct (select_titles lower first30 ({[first30 title]} ∪ seen_titles)
                  traffic_news) as [l'|] eqn:Hl'; [| done].
      intros [= <-]. destruct (IH _ _ Hl') as (Hsub & Hall & Hnd).
      destruct (Hweaken _ Hall) as [Hall' Hfresh].
      split; [by apply sublist_skip |]. split.
      * constructor; [| done]. by exists title.
      * rewrite fmap_cons. constructor; [| done].
        unfold title_key at 1. by rewrite Htitle.
Qed.

Lemma select_titles_fails (lower first30 : string -> string)
    (traffic_news : list dict) :
  forall seen_titles : gset string,
  select_titles lower first30 seen_titles traffic_news = None
  <-> Exists (fun news => summary_title lower news = None) traffic_news.
Proof.
  induction traffic_news as [|news traffic_news IH]; intros seen_titles.
  - split; [done | by intros H%Exists_nil].
  - cbn [select_titles]. rewrite Exists_cons.
    destruct (summary_title lower news) as [title|] eqn:Htitle;
      [| split; [by left | done]].
    cbv zeta. destruct (decide (first30 title ∈ seen_titles)).
    { rewrite IH. split; [by right | by intros [? | ?]]. }
    destruct (any_keyword_in (fun kw => kw) summary_exclude_keywords title).
    + rewrite IH. split; [by right | by intros [? | ?]].
    + rewrite fmap_None, IH. split; [by right | by intros [? | ?]].
Qed.

(** X25. The news a summary is written about: they are taken in order
    from the traffic-impact news, no title among them holds one of the
    exclusion keywords of the summary, and no two of them have the same
    title key.  The selection fails only on a traffic-impact news whose
    title is neither text nor empty. *)
Theorem summary_news_are_selected (lower first30 : string -> string)
    (news_list : list dict) :
  (forall l,
     filtered_news lower first30 news_list = Some l ->
     sublist l news_list
     /\ Forall (fun news =>
                  get news "news_type" = VStr "traffic_impact"
                  /\ exists title,
                       summary_title lower news = Some title
                       /\ ~ some_keyword_occurs (fun kw => kw)
                              summary_exclude_keywords title) l
     /\ NoDup (title_key lower first30 <$> l))
  /\ (filtered_news lower first30 news_list = None
      <-> Exists (fun news =>
                    get news "news_type" = VStr "traffic_impact"
                    /\ summary_title lower news = None) news_list).
Proof.
  unfold filtered_news. split.
  - intros l Hl. apply select_titles_spec in Hl as (Hsub & Hall & Hnd).
    split; [etrans; [exact Hsub | apply sublist_filter] |]. split; [| done].
    apply Forall_forall. intros news Hin.
    pose proof (proj1 (Forall_forall _ _) Hall news Hin)
      as (title & Htitle & _ & Hkw).
    split.
    + eapply elem_of_sublist in Hin; [| exact Hsub].
      by apply list_elem_of_filter in Hin as [Htype _].
    + exists title. split; [done |]. by apply no_keyword_occurs_spec.
  - rewrite select_titles_fails, !Exists_exists. split.
    + intros (news & Hin & Hnone). exists news.
      apply list_elem_of_filter in Hin as [Htype Hin]. by repeat split.
    + intros (news & Hin & Htype & Hnone). exists news. split; [| done].
      by apply list_elem_of_filter.
Qed.

(** ** The news of the Slack report *)

Lemma impact_level_decision_list (lower : string -> string) (text : string) :
  send_slack.impact_level lower send_slack.IMPACT_KEYWORDS text
  = if any_keyword_in lower (table send_slack.IMPACT_KEYWORDS "high_impact") text
    then Some "high_impact"
    else if any_keyword_in lower
              (table send_slack.IMPACT_KEYWORDS "medium_impact") text
    then Some "medium_impact"
    else None.
Proof. reflexivity. Qed.

Lemma relevant_spec (lower first30 : string -> string) (news_list : list dict) :
  forall (seen_titles : gset string) (kept : list dict),
  send_slack.relevant lower first30 seen_titles news_list = Some kept ->
  Forall (fun item =>
            exists news text,
              news ∈ news_list
              /\ report_text lower news = Some text
              /\ ~ some_keyword_occurs lower send_slack.EXCLUDE_KEYWORDS text
              /\ marked_by_impact lower text news item) kept
  /\ length kept <= length news_list.
Proof.
  induction news_list as [|news news_list IH]; intros seen_titles kept.
  - intros [= <-]. split; [constructor | done].
  - assert (forall seen kept',
              send_slack.relevant lower first30 seen news_list = Some kept' ->
              Forall (fun item =>
                        exists news' text,
                          news' ∈ news :: news_list
                          /\ report_text lower news' = Some text
                          /\ ~ some_keyword_occurs lower
                                 send_slack.EXCLUDE_KEYWORDS text
                          /\ marked_by_impact lower text news' item) kept'
              /\ length kept' <= S (length news_list)) as Hskip.
    { intros seen kept' Hkept'. destruct (IH _ _ Hkept') as [Hall Hlen].
      split; [| lia]. eapply Forall_impl; [exact Hall |]. simpl.
      intros item (news' & text & Hin & Hrest). exists news', text.
      split; [by right | done]. }
    cbn [send_slack.relevant]. unfold report_text in *.
    destruct (send_slack.lowered lower news "title") as [title_lower|] eqn:Htitle;
      [| done].
    destruct (send_slack.lowered lower news "summary") as [summary|] eqn:Hsummary;
      [| done].
    cbv zeta.
    destruct (decide (first30 title_lower ∈ seen_titles)); [apply Hskip |].
    destruct (any_keyword_in lower send_slack.EXCLUDE_KEYWORDS
                (title_lower +:+ " " +:+ summary)) eqn:Hexcluded; [apply Hskip |].
    rewrite impact_level_decision_list.
    destruct (any_keyword_in lower
                (table send_slack.IMPACT_KEYWORDS "high_impact")
                (title_lower +:+ " " +:+ summary)) eqn:Hhigh.
    + cbn [String.eqb Ascii.eqb Bool.eqb].
      destruct (send_slack.relevant lower first30 _ news_list) as [kept'|] eqn:Hkept';
        [| done].
      intros [= <-]. destruct (Hskip _ _ Hkept') as [Hall _].
      destruct (IH _ _ Hkept') as [_ Hlen].
      split; [| simpl; lia]. constructor; [| done].
      exists news, (title_lower +:+ " " +:+ summary).
      split; [by left |]. rewrite Htitle, Hsummary. split; [done |].
      split; [by apply no_keyword_occurs_spec |].
      left. split; [by apply some_keyword_occurs_spec | done].
    + destruct (any_keyword_in lower
                  (table send_slack.IMPACT_KEYWORDS "medium_impact")
                  (title_lower +:+ " " +:+ summary)) eqn:Hmedium; [| apply Hskip].
      cbn [String.eqb Ascii.eqb Bool.eqb].
      destruct (send_slack.relevant lower first30 _ news_list) as [kept'|] eqn:Hkept';
        [| done].
      intros [= <-]. destruct (Hskip _ _ Hkept') as [Hall _].
      destruct (IH _ _ Hkept') as [_ Hlen].
      split; [| simpl; lia]. constructor; [| done].
      exists news, (title_lower +:+ " " +:+ summary).
      split; [by left |]. rewrite Htitle, Hsummary. split; [done |].
      split; [by apply no_keyword_occurs_spec |].
      right. split; [by apply no_keyword_occurs_spec |].
      split; [by apply some_keyword_occurs_spec | done].
Qed.

Lemma relevant_fails (lower first30 : string -> string) (news_list : list dict) :
  forall seen_titles : gset string,
  send_slack.relevant lower first30 seen_titles news_list = None
  <-> Exists (fun news => report_text lower news = None) news_list.
Proof.
  induction news_list as [|news news_list IH]; intros seen_titles.
  - split; [done | by intros H%Exists_nil].
  - cbn [send_slack.relevant]. rewrite Exists_cons. unfold report_text at 1.
    destruct (send_slack.lowered lower news "title") as [title_lower|];
      [| split; [by left | done]].
    destruct (send_slack.lowered lower news "summary") as [summary|];
      [| split; [by left | done]].
    cbv zeta.
    assert (forall seen,
              send_slack.relevant lower first30 seen news_list = None
              <-> Some (title_lower +:+ " " +:+ summary) = None
                  \/ Exists (fun news => report_text lower news = None) news_list)
      as Hskip.
    { intros seen. rewrite IH. split; [by right | by intros [? | ?]]. }
    destruct (decide (first30 title_lower ∈ seen_titles)); [apply Hskip |].
    destruct (any_keyword_in lower send_slack.EXCLUDE_KEYWORDS _); [apply Hskip |].
    destruct (send_slack.impact_level lower send_slack.IMPACT_KEYWORDS _)
      as [level|]; [| apply Hskip].
    destruct (String.eqb level ""); [apply Hskip |].
    rewrite fmap_None. apply Hskip.
Qed.

Lemma insert_by_Permutation (key : dict -> nat) (x : dict) (l : list dict) :
  send_slack.insert_by key x l ≡ₚ x :: l.
Proof.
  induction l as [|y l IH]; [done |]. simpl.
  destruct (key y <? key x)%nat; [| done].
  rewrite IH. apply Permutation_swap.
Qed.

Lemma sort_by_Permutation (key : dict -> nat) (l : list dict) :
  send_slack.sort_by key l ≡ₚ l.
Proof.
  induction l as [|x l IH]; [done |]. simpl.
  by rewrite insert_by_Permutation, IH.
Qed.

Lemma insert_by_first (key : dict -> nat) (x : dict) (l : list dict) :
  key x = 0 -> send_slack.insert_by key x l = x :: l.
Proof. intros Hx. destruct l as [|y l]; [done |]. simpl. by rewrite Hx. Qed.

Lemma insert_by_second (key : dict -> nat) (x : dict) (l0 l1 : list dict) :
  key x = 1 ->
  Forall (fun y => key y = 0) l0 -> Forall (fun y => key y = 1) l1 ->
  send_slack.insert_by key x (l0 ++ l1) = l0 ++ x :: l1.
Proof.
  intros Hx H0 H1. induction H0 as [|y l0 Hy _ IH]; simpl.
  - destruct H1 as [|y l1 Hy _]; [done |]. simpl. by rewrite Hx, Hy.
  - by rewrite Hx, Hy, IH.
Qed.

(** On keys 0 and 1 the stable sort puts the elements of key 0 first,
    each group in its order. *)
Lemma sort_by_two_keys (key : dict -> nat) (l : list dict) :
  Forall (fun y => key y = 0 \/ key y = 1) l ->
  send_slack.sort_by key l
  = filter (fun y => key y = 0) l ++ filter (fun y => key y = 1) l.
Proof.
  induction 1 as [|x l [Hx | Hx] _ IH]; [done | |]; simpl; rewrite IH.
  - rewrite insert_by_first by done.
    rewrite filter_cons_True, (filter_cons_False (fun y => key y = 1)) by lia.
    done.
  - rewrite insert_by_second;
      [| done | apply Forall_forall; by intros y [Hy _]%list_elem_of_filter
       | apply Forall_forall; by intros y [Hy _]%list_elem_of_filter ].
    rewrite filter_cons_False, (filter_cons_True (fun y => key y = 1)) by lia.
    done.
Qed.

Lemma filter_ext_in {A : Type} (P Q : A -> Prop) `{forall x, Decision (P x)}
    `{forall x, Decision (Q x)} (l : list A) :
  Forall (fun x => P x <-> Q x) l -> filter P l = filter Q l.
Proof.
  induction 1 as [|x l Hx _ IH]; [done |].
  destruct (decide (P x)) as [HP | HP].
  - rewrite !filter_cons_True by tauto. by rewrite IH.
  - rewrite !filter_cons_False by tauto. done.
Qed.

Lemma marked_by_impact_key (lower : string -> string) (text : string)
    (news item : dict) :
  marked_by_impact lower text news item ->
  (send_slack.sort_key item = 0 <-> get item "impact_level" = VStr "high_impact")
  /\ (send_slack.sort_key item = 1 <-> get item "impact_level" = VStr "medium_impact")
  /\ (send_slack.sort_key item = 0 \/ send_slack.sort_key item = 1).
Proof.
  unfold send_slack.sort_key, get_or.
  intros [[_ ->] | (_ & _ & ->)]; rewrite get_insert_eq, lookup_insert_eq; simpl.
  - split; [done |]. split; [| by left]. split; [done | by intros [=]].
  - split; [split; [done | by intros [=]] |]. split; [done | by right].
Qed.

(** X26. The news of the Slack report: each is a row of the list given,
    marked with its impact level, whose lower-cased title and summary
    hold no exclusion keyword; it is marked [high_impact] when a
    high-impact keyword occurs in them, and [medium_impact] when none
    does and a medium-impact keyword occurs.  There are at most as many
    of them as rows. *)
Theorem slack_report_lists_impact_news (lower first30 : string -> string)
    (news_list l : list dict) :
  send_slack.filter_relevant_news lower first30 news_list = Some l ->
  Forall (fun item =>
            exists news text,
              news ∈ news_list
              /\ report_text lower news = Some text
              /\ ~ some_keyword_occurs lower send_slack.EXCLUDE_KEYWORDS text
              /\ marked_by_impact lower text news item) l
  /\ length l <= length news_list.
Proof.
  unfold send_slack.filter_relevant_news.
  destruct (send_slack.relevant lower first30 ∅ news_list) as [kept|] eqn:Hkept;
    [| done].
  intros [= <-]. destruct (relevant_spec _ _ _ _ _ Hkept) as [Hall Hlen].
  pose proof (sort_by_Permutation send_slack.sort_key kept) as Hperm.
  split; [by rewrite Hperm | by rewrite Hperm].
Qed.

Lemma slack_report_lists_impact_news_witness :
  Forall (fun item =>
            exists news text,
              news ∈ [curfew_row; outage_row]
              /\ report_text ascii_lower news = Some text
              /\ ~ some_keyword_occurs ascii_lower send_slack.EXCLUDE_KEYWORDS text
              /\ marked_by_impact ascii_lower text news item)
    [ <["impact_level" := VStr "high_impact"]> outage_row;
      <["impact_level" := VStr "medium_impact"]> curfew_row ]
  /\ length [ <["impact_level" := VStr "high_impact"]> outage_row;
              <["impact_level" := VStr "medium_impact"]> curfew_row ]
     <= length [curfew_row; outage_row].
Proof.
  apply (slack_report_lists_impact_news ascii_lower (String.substring 0 30)).
  by_evaluation.
Defined.

(** X27. The Slack report lists the high-impact news first and the
    medium-impact news after them, each group in the order in which the
    loop kept them. *)
Theorem slack_report_high_impact_first (lower first30 : string -> string)
    (news_list l : list dict) :
  send_slack.filter_relevant_news lower first30 news_list = Some l ->
  exists kept,
    send_slack.relevant lower first30 ∅ news_list = Some kept
    /\ l = filter (fun item => get item "impact_level" = VStr "high_impact") kept
           ++ filter (fun item => get item "impact_level" = VStr "medium_impact")
                kept.
Proof.
  unfold send_slack.filter_relevant_news.
  destruct (send_slack.relevant lower first30 ∅ news_list) as [kept|] eqn:Hkept;
    [| done].
  intros [= <-]. exists kept. split; [done |].
  destruct (relevant_spec _ _ _ _ _ Hkept) as [Hall _].
  rewrite sort_by_two_keys.
  - f_equal; apply filter_ext_in; eapply Forall_impl; try exact Hall; simpl;
      intros item (news & text & _ & _ & _ & Hmarked);
      by destruct (marked_by_impact_key _ _ _ _ Hmarked) as (? & ? & ?).
  - eapply Forall_impl; [exact Hall |]. simpl.
    intros item (news & text & _ & _ & _ & Hmarked).
    by destruct (marked_by_impact_key _ _ _ _ Hmarked) as (? & ? & ?).
Qed.

Lemma slack_report_high_impact_first_witness :
  exists kept,
    send_slack.relevant ascii_lower (String.substring 0 30) ∅
      [curfew_row; outage_row] = Some kept
    /\ [ <["impact_level" := VStr "high_impact"]> outage_row;
         <["impact_level" := VStr "medium_impact"]> curfew_row ]
       = filter (fun item => get item "impact_level" = VStr "high_impact") kept
         ++ filter (fun item => get item "impact_level" = VStr "medium_impact")
              kept.
Proof.
  apply slack_report_high_impact_first. by_evaluation.
Defined.

(** X28. The selection of the Slack report fails ([AttributeError])
    exactly when the list holds a row whose title or summary is neither
    text nor falsy; the NaN of an empty CSV cell is such a value. *)
Theorem slack_report_fails_on_untyped_cell (lower first30 : string -> string)
    (news_list : list dict) :
  (send_slack.filter_relevant_news lower first30 news_list = None
   <-> Exists (fun news => report_text lower news = None) news_list)
  /\ (forall news,
        get_or news "title" (VStr "") = VNaN
        \/ get_or news "summary" (VStr "") = VNaN ->
        report_text lower news = None).
Proof.
  split.
  - unfold send_slack.filter_relevant_news. rewrite fmap_None.
    apply relevant_fails.
  - intros news [Hnan | Hnan]; unfold report_text, send_slack.lowered;
      rewrite Hnan; simpl; [done |].
    by destruct (get_or news "title" (VStr "")) as [| | [|] |].
Qed.
